(** * Lara Go SDK: request signing, transport and long-running-operation polling

    A shallow embedding of the client library's signing and transport layer
    ([Client.sign], [Client.request], [Client.handleContent]), of the
    resource getters ([MemoriesService.Get], [GlossariesService.Get]) and of
    the three wait loops ([MemoriesService.WaitForImport],
    [GlossariesService.WaitForImport], [DocumentsService.waitForTranslation]).

    Go strings are byte sequences and are modelled by [string]; byte slices
    by [list byte]; [http.Header] by a finite map from canonical header names
    to values.  The standard-library functions the client calls (SHA-256,
    MD5, HMAC, base64, the MIME header-key canonicaliser, the multipart
    writer, the JSON scanner) are modelled by executable definitions of
    their own, each in its module, ahead of the client code. *)

From Stdlib Require Import ZArith List Lia Bool.
From Stdlib Require Import Strings.String Strings.Ascii Strings.Byte.
From Stdlib Require Import Floats.
From Stdlib Require Uint63.
From stdpp Require Import base option gmap strings.
Import ListNotations.

Local Open Scope Z_scope.

(** The double quote, and texts written with single quotes in its place. *)
Definition DQ : ascii := "034"%char.
Definition QS : string := String DQ EmptyString.

Fixpoint requote (s : string) : string :=
  match s with
  | EmptyString => EmptyString
  | String c r => String (if Ascii.eqb c "'" then DQ else c) (requote r)
  end.

(** ** Bytes and 32-bit words *)

Module Bytes.

Definition Z_of_byte (b : byte) : Z := Z.of_N (Byte.to_N b).

Definition byte_of_Z (z : Z) : byte :=
  match Byte.of_N (Z.to_N (z mod 256)) with
  | Some b => b
  | None => x00
  end.

(** [[]byte(s)] and [string(b)]. *)
Definition bytes_of_string (s : string) : list byte := list_byte_of_string s.
Definition string_of_bytes (b : list byte) : string := string_of_list_byte b.

(** A 32-bit word is a [Z] in [0, 2^32); additions wrap. *)
Definition wrap32 (z : Z) : Z := z mod 4294967296.
Definition add32 (x y : Z) : Z := wrap32 (x + y).
Definition not32 (x : Z) : Z := Z.lxor x 4294967295.
Definition rotr32 (n x : Z) : Z :=
  Z.lor (Z.shiftr x n) (wrap32 (Z.shiftl x (32 - n))).
Definition rotl32 (n x : Z) : Z :=
  Z.lor (wrap32 (Z.shiftl x n)) (Z.shiftr x (32 - n)).

(** Big-endian and little-endian packing of four bytes into a word. *)
Definition be32 (b0 b1 b2 b3 : byte) : Z :=
  Z.lor (Z.shiftl (Z_of_byte b0) 24)
    (Z.lor (Z.shiftl (Z_of_byte b1) 16)
       (Z.lor (Z.shiftl (Z_of_byte b2) 8) (Z_of_byte b3))).
Definition le32 (b0 b1 b2 b3 : byte) : Z := be32 b3 b2 b1 b0.

Definition be32_bytes (w : Z) : list byte :=
  [byte_of_Z (Z.shiftr w 24); byte_of_Z (Z.shiftr w 16);
   byte_of_Z (Z.shiftr w 8); byte_of_Z w].
Definition le32_bytes (w : Z) : list byte := rev (be32_bytes w).

Definition be64_bytes (n : Z) : list byte :=
  be32_bytes (Z.shiftr n 32) ++ be32_bytes n.
Definition le64_bytes (n : Z) : list byte := rev (be64_bytes n).

Fixpoint group_be32 (l : list byte) : list Z :=
  match l with
  | b0 :: b1 :: b2 :: b3 :: r => be32 b0 b1 b2 b3 :: group_be32 r
  | _ => []
  end.

Fixpoint group_le32 (l : list byte) : list Z :=
  match l with
  | b0 :: b1 :: b2 :: b3 :: r => le32 b0 b1 b2 b3 :: group_le32 r
  | _ => []
  end.

(** The [n] first 64-byte blocks of [l]. *)
Fixpoint blocks (n : nat) (l : list byte) : list (list byte) :=
  match n with
  | O => []
  | S n' => firstn 64 l :: blocks n' (skipn 64 l)
  end.

(** Merkle-Damgard padding shared by MD5 and SHA-256: a [0x80] byte, zeros
    up to 56 modulo 64, then the bit length on eight bytes. *)
Definition md_pad (len64 : Z -> list byte) (msg : list byte) : list byte :=
  let n := Z.of_nat (List.length msg) in
  msg ++ [x80] ++ repeat x00 (Z.to_nat ((55 - n) mod 64)) ++ len64 (8 * n).

Definition hex_digit (n : Z) : ascii :=
  nth (Z.to_nat n) (list_ascii_of_string "0123456789abcdef") "0"%char.

(** [fmt.Sprintf("%x", b)] on a byte array: two lower-case digits a byte. *)
Fixpoint hex (l : list byte) : string :=
  match l with
  | [] => EmptyString
  | b :: r =>
      String (hex_digit (Z_of_byte b / 16))
        (String (hex_digit (Z_of_byte b mod 16)) (hex r))
  end.

End Bytes.

(** ** SHA-256 (crypto/sha256, FIPS 180-4) *)

Module SHA256.
Import Bytes.

Definition K : list Z :=
  [1116352408; 1899447441; 3049323471; 3921009573; 961987163; 1508970993;
   2453635748; 2870763221; 3624381080; 310598401; 607225278; 1426881987;
   1925078388; 2162078206; 2614888103; 3248222580; 3835390401; 4022224774;
   264347078; 604807628; 770255983; 1249150122; 1555081692; 1996064986;
   2554220882; 2821834349; 2952996808; 3210313671; 3336571891; 3584528711;
   113926993; 338241895; 666307205; 773529912; 1294757372; 1396182291;
   1695183700; 1986661051; 2177026350; 2456956037; 2730485921; 2820302411;
   3259730800; 3345764771; 3516065817; 3600352804; 4094571909; 275423344;
   430227734; 506948616; 659060556; 883997877; 958139571; 1322822218;
   1537002063; 1747873779; 1955562222; 2024104815; 2227730452; 2361852424;
   2428436474; 2756734187; 3204031479; 3329325298].

Record state := State {
  ha : Z; hb : Z; hc : Z; hd : Z; he : Z; hf : Z; hg : Z; hh : Z }.

Definition init : state :=
  State 1779033703 3144134277 1013904242 2773480762
        1359893119 2600822924 528734635 1541459225.

Definition Ch (x y z : Z) : Z := Z.lxor (Z.land x y) (Z.land (not32 x) z).
Definition Maj (x y z : Z) : Z :=
  Z.lxor (Z.land x y) (Z.lxor (Z.land x z) (Z.land y z)).
Definition Sigma0 (x : Z) : Z :=
  Z.lxor (rotr32 2 x) (Z.lxor (rotr32 13 x) (rotr32 22 x)).
Definition Sigma1 (x : Z) : Z :=
  Z.lxor (rotr32 6 x) (Z.lxor (rotr32 11 x) (rotr32 25 x)).
Definition sigma0 (x : Z) : Z :=
  Z.lxor (rotr32 7 x) (Z.lxor (rotr32 18 x) (Z.shiftr x 3)).
Definition sigma1 (x : Z) : Z :=
  Z.lxor (rotr32 17 x) (Z.lxor (rotr32 19 x) (Z.shiftr x 10)).

(** The message schedule, most recent word first. *)
Fixpoint extend (n : nat) (w : list Z) : list Z :=
  match n with
  | O => w
  | S n' =>
      let nxt :=
        add32 (add32 (sigma1 (nth 1 w 0)) (nth 6 w 0))
              (add32 (sigma0 (nth 14 w 0)) (nth 15 w 0)) in
      extend n' (nxt :: w)
  end.

Definition schedule (blk : list byte) : list Z :=
  rev (extend 48 (rev (group_be32 blk))).

Definition round (s : state) (kw : Z * Z) : state :=
  let t1 :=
    add32 (add32 (add32 (hh s) (Sigma1 (he s))) (Ch (he s) (hf s) (hg s)))
          (add32 (fst kw) (snd kw)) in
  let t2 := add32 (Sigma0 (ha s)) (Maj (ha s) (hb s) (hc s)) in
  State (add32 t1 t2) (ha s) (hb s) (hc s) (add32 (hd s) t1) (he s) (hf s) (hg s).

Definition compress (s : state) (blk : list byte) : state :=
  let r := fold_left round (combine K (schedule blk)) s in
  State (add32 (ha s) (ha r)) (add32 (hb s) (hb r)) (add32 (hc s) (hc r))
        (add32 (hd s) (hd r)) (add32 (he s) (he r)) (add32 (hf s) (hf r))
        (add32 (hg s) (hg r)) (add32 (hh s) (hh r)).

Definition digest (s : state) : list byte :=
  be32_bytes (ha s) ++ be32_bytes (hb s) ++ be32_bytes (hc s) ++
  be32_bytes (hd s) ++ be32_bytes (he s) ++ be32_bytes (hf s) ++
  be32_bytes (hg s) ++ be32_bytes (hh s).

Definition BlockSize : nat := 64.
Definition Size : nat := 32.

(** [sha256.Sum256]. *)
Definition Sum256 (msg : list byte) : list byte :=
  let p := md_pad be64_bytes msg in
  digest (fold_left compress (blocks (List.length p / 64) p) init).

End SHA256.

(** ** MD5 (crypto/md5, RFC 1321) *)

Module MD5.
Import Bytes.

Definition T : list Z :=
  [3614090360; 3905402710; 606105819; 3250441966; 4118548399; 1200080426;
   2821735955; 4249261313; 1770035416; 2336552879; 4294925233; 2304563134;
   1804603682; 4254626195; 2792965006; 1236535329; 4129170786; 3225465664;
   643717713; 3921069994; 3593408605; 38016083; 3634488961; 3889429448;
   568446438; 3275163606; 4107603335; 1163531501; 2850285829; 4243563512;
   1735328473; 2368359562; 4294588738; 2272392833; 1839030562; 4259657740;
   2763975236; 1272893353; 4139469664; 3200236656; 681279174; 3936430074;
   3572445317; 76029189; 3654602809; 3873151461; 530742520; 3299628645;
   4096336452; 1126891415; 2878612391; 4237533241; 1700485571; 2399980690;
   4293915773; 2240044497; 1873313359; 4264355552; 2734768916; 1309151649;
   4149444226; 3174756917; 718787259; 3951481745].

Definition shifts : list Z :=
  [7; 12; 17; 22; 7; 12; 17; 22; 7; 12; 17; 22; 7; 12; 17; 22;
   5; 9; 14; 20; 5; 9; 14; 20; 5; 9; 14; 20; 5; 9; 14; 20;
   4; 11; 16; 23; 4; 11; 16; 23; 4; 11; 16; 23; 4; 11; 16; 23;
   6; 10; 15; 21; 6; 10; 15; 21; 6; 10; 15; 21; 6; 10; 15; 21].

Record state := State { sa : Z; sb : Z; sc : Z; sd : Z }.

Definition init : state := State 1732584193 4023233417 2562383102 271733878.

(** The round function and message index of step [i]. *)
Definition mix (i : Z) (b c d : Z) : Z * Z :=
  if i <? 16 then (Z.lor (Z.land b c) (Z.land (not32 b) d), i)
  else if i <? 32 then
    (Z.lor (Z.land d b) (Z.land (not32 d) c), (5 * i + 1) mod 16)
  else if i <? 48 then (Z.lxor b (Z.lxor c d), (3 * i + 5) mod 16)
  else (Z.lxor c (Z.lor b (not32 d)), (7 * i) mod 16).

Definition step (m : list Z) (s : state) (i : nat) : state :=
  let '(f, g) := mix (Z.of_nat i) (sb s) (sc s) (sd s) in
  let f' := add32 (add32 f (sa s)) (add32 (nth i T 0) (nth (Z.to_nat g) m 0)) in
  State (sd s) (add32 (sb s) (rotl32 (nth i shifts 0) f')) (sb s) (sc s).

Definition compress (s : state) (blk : list byte) : state :=
  let r := fold_left (step (group_le32 blk)) (seq 0 64) s in
  State (add32 (sa s) (sa r)) (add32 (sb s) (sb r))
        (add32 (sc s) (sc r)) (add32 (sd s) (sd r)).

Definition digest (s : state) : list byte :=
  le32_bytes (sa s) ++ le32_bytes (sb s) ++ le32_bytes (sc s) ++ le32_bytes (sd s).

(** [md5.Sum]: a 16-byte array. *)
Definition Sum (msg : list byte) : list byte :=
  let p := md_pad le64_bytes msg in
  digest (fold_left compress (blocks (List.length p / 64) p) init).

End MD5.

Example sha256_abc :
  Bytes.hex (SHA256.Sum256 (Bytes.bytes_of_string "abc"))
  = "ba7816bf8f01cfea414140de5dae2223b00361a396177a9cb410ff61f20015ad"%string.
Proof. vm_compute. reflexivity. Qed.

Example md5_abc :
  Bytes.hex (MD5.Sum (Bytes.bytes_of_string "abc"))
  = "900150983cd24fb0d6963f7d28e17f72"%string.
Proof. vm_compute. reflexivity. Qed.

(** ** HMAC (crypto/hmac, RFC 2104) over a hash with 64-byte blocks *)

Module HMAC.
Import Bytes.

Definition xor_byte (k : Z) (b : byte) : byte := byte_of_Z (Z.lxor (Z_of_byte b) k).

(** The state of a [hash.Hash] returned by [hmac.New]: the two padded keys
    and the bytes written to the inner hash so far. *)
Record mac := Mac {
  hash : list byte -> list byte;
  opad : list byte;
  ipad : list byte;
  inner : list byte }.

(** [hmac.New(h, key)]: a key longer than a block is hashed first, then the
    key is padded with zeros to the block size. *)
Definition New (h : list byte -> list byte) (blocksize : nat) (key : list byte) : mac :=
  let key' := if (blocksize <? List.length key)%nat then h key else key in
  let padded := key' ++ repeat x00 (blocksize - List.length key') in
  Mac h (map (xor_byte 92) padded) (map (xor_byte 54) padded) [].

(** [mac.Write(p)]. *)
Definition Write (m : mac) (p : list byte) : mac :=
  Mac (hash m) (opad m) (ipad m) (inner m ++ p).

(** [mac.Sum(in)]: appends the tag to [in]. *)
Definition Sum (m : mac) (b : list byte) : list byte :=
  b ++ hash m (opad m ++ hash m (ipad m ++ inner m)).

End HMAC.

(** ** base64.StdEncoding (RFC 4648, padded) *)

Module Base64.
Import Bytes.

Definition alphabet : list ascii :=
  list_ascii_of_string
    "ABCDEFGHIJKLMNOPQRSTUVWXYZabcdefghijklmnopqrstuvwxyz0123456789+/".

Definition padChar : ascii := "="%char.

Definition enc (n : Z) : ascii := nth (Z.to_nat n) alphabet "A"%char.

(** Position of a character in the alphabet. *)
Fixpoint index_of (c : ascii) (l : list ascii) (i : Z) : option Z :=
  match l with
  | [] => None
  | x :: r => if Ascii.eqb c x then Some i else index_of c r (i + 1)
  end.

Definition dec (c : ascii) : option Z := index_of c alphabet 0.

Fixpoint encode (l : list byte) : list ascii :=
  match l with
  | [] => []
  | [b0] =>
      let x := Z_of_byte b0 in
      [enc (x / 4); enc (x mod 4 * 16); padChar; padChar]
  | [b0; b1] =>
      let x := Z_of_byte b0 in
      let y := Z_of_byte b1 in
      [enc (x / 4); enc (x mod 4 * 16 + y / 16); enc (y mod 16 * 4); padChar]
  | b0 :: b1 :: b2 :: r =>
      let x := Z_of_byte b0 in
      let y := Z_of_byte b1 in
      let z := Z_of_byte b2 in
      enc (x / 4) :: enc (x mod 4 * 16 + y / 16)
        :: enc (y mod 16 * 4 + z / 64) :: enc (z mod 64) :: encode r
  end.

(** [StdEncoding.EncodeToString]. *)
Definition EncodeToString (l : list byte) : string :=
  string_of_list_ascii (encode l).

(** Decoding of padded input without line breaks; [None] is a
    [CorruptInputError]. *)
Fixpoint decode (l : list ascii) : option (list byte) :=
  match l with
  | [] => Some []
  | c0 :: c1 :: c2 :: c3 :: r =>
      match dec c0, dec c1 with
      | Some s0, Some s1 =>
          let b0 := byte_of_Z (s0 * 4 + s1 / 16) in
          if Ascii.eqb c3 padChar then
            match r with
            | [] =>
                if Ascii.eqb c2 padChar then Some [b0]
                else
                  match dec c2 with
                  | Some s2 => Some [b0; byte_of_Z (s1 mod 16 * 16 + s2 / 4)]
                  | None => None
                  end
            | _ => None
            end
          else
            match dec c2, dec c3, decode r with
            | Some s2, Some s3, Some bs =>
                Some (b0 :: byte_of_Z (s1 mod 16 * 16 + s2 / 4)
                         :: byte_of_Z (s2 mod 4 * 64 + s3) :: bs)
            | _, _, _ => None
            end
      | _, _ => None
      end
  | _ => None
  end.

(** [StdEncoding.DecodeString]. *)
Definition DecodeString (s : string) : option (list byte) :=
  decode (list_ascii_of_string s).

End Base64.

Example hmac_sha256_rfc4231_case2 :
  Bytes.hex
    (HMAC.Sum
       (HMAC.Write
          (HMAC.New SHA256.Sum256 SHA256.BlockSize (Bytes.bytes_of_string "Jefe"))
          (Bytes.bytes_of_string "what do ya want for nothing?")) [])
  = "5bdcc146bf60754e6a042426089575c75a003f089d2739839dec58b964ec3843"%string.
Proof. vm_compute. reflexivity. Qed.

Example base64_foobar :
  Base64.EncodeToString (Bytes.bytes_of_string "foobar") = "Zm9vYmFy"%string
  /\ Base64.EncodeToString (Bytes.bytes_of_string "fooba") = "Zm9vYmE="%string
  /\ Base64.EncodeToString (Bytes.bytes_of_string "foob") = "Zm9vYg=="%string
  /\ Base64.DecodeString "Zm9vYg==" = Some (Bytes.bytes_of_string "foob").
Proof. vm_compute. repeat split; reflexivity. Qed.

(** ** Lemmas on the primitives *)

Section BytesLemmas.
Import Bytes.

Lemma Z_of_byte_range (b : byte) : 0 <= Z_of_byte b < 256.
Proof.
  unfold Z_of_byte. pose proof (Byte.to_N_bounded b) as H. lia.
Qed.

Lemma byte_of_Z_of_byte (b : byte) : byte_of_Z (Z_of_byte b) = b.
Proof.
  unfold byte_of_Z. pose proof (Z_of_byte_range b) as H.
  rewrite Z.mod_small by lia. unfold Z_of_byte.
  rewrite N2Z.id, Byte.of_to_N. reflexivity.
Qed.

Lemma sha256_Sum256_length (msg : list byte) :
  List.length (SHA256.Sum256 msg) = SHA256.Size.
Proof. reflexivity. Qed.

Lemma md5_Sum_length (msg : list byte) : List.length (MD5.Sum msg) = 16%nat.
Proof. reflexivity. Qed.

Lemma hex_length (l : list byte) :
  String.length (hex l) = (2 * List.length l)%nat.
Proof. induction l as [|b r IH]; simpl; [reflexivity | rewrite IH; lia]. Qed.

End BytesLemmas.

Section Base64Lemmas.
Import Bytes Base64.

Lemma list_ind3 {A : Type} (P : list A -> Prop) :
  P [] -> (forall a, P [a]) -> (forall a b, P [a; b]) ->
  (forall a b c l, P l -> P (a :: b :: c :: l)) ->
  forall l, P l.
Proof.
  intros H0 H1 H2 H3 l.
  assert (P l /\ (forall a, P (a :: l)) /\ (forall a b, P (a :: b :: l))) as [H _].
  { induction l as [|x l (IH0 & IH1 & IH2)]; repeat split; auto. }
  exact H.
Qed.

Lemma dec_enc (n : Z) : 0 <= n < 64 -> dec (enc n) = Some n.
Proof.
  intros H. rewrite <- (Z2Nat.id n) by lia.
  assert (Z.to_nat n < 64)%nat as Hk by lia.
  generalize dependent (Z.to_nat n). clear. intros k Hk.
  do 64 (destruct k as [|k]; [vm_compute; reflexivity|]). lia.
Qed.

Lemma enc_not_pad (n : Z) : 0 <= n < 64 -> Ascii.eqb (enc n) padChar = false.
Proof.
  intros H. rewrite <- (Z2Nat.id n) by lia.
  assert (Z.to_nat n < 64)%nat as Hk by lia.
  generalize dependent (Z.to_nat n). clear. intros k Hk.
  do 64 (destruct k as [|k]; [vm_compute; reflexivity|]). lia.
Qed.

Lemma sextets (x y z : Z) :
  0 <= x < 256 -> 0 <= y < 256 -> 0 <= z < 256 ->
  (0 <= x / 4 < 64 /\ 0 <= x mod 4 * 16 + y / 16 < 64 /\
   0 <= y mod 16 * 4 + z / 64 < 64 /\ 0 <= z mod 64 < 64) /\
  x / 4 * 4 + (x mod 4 * 16 + y / 16) / 16 = x /\
  (x mod 4 * 16 + y / 16) mod 16 * 16 + (y mod 16 * 4 + z / 64) / 4 = y /\
  (y mod 16 * 4 + z / 64) mod 4 * 64 + z mod 64 = z.
Proof. intros Hx Hy Hz. Z.div_mod_to_equations. lia. Qed.

Lemma decode_quad (c0 c1 c2 c3 : ascii) (r : list ascii) :
  decode (c0 :: c1 :: c2 :: c3 :: r) =
  match dec c0, dec c1 with
  | Some s0, Some s1 =>
      let b0 := byte_of_Z (s0 * 4 + s1 / 16) in
      if Ascii.eqb c3 padChar then
        match r with
        | [] =>
            if Ascii.eqb c2 padChar then Some [b0]
            else
              match dec c2 with
              | Some s2 => Some [b0; byte_of_Z (s1 mod 16 * 16 + s2 / 4)]
              | None => None
              end
        | _ => None
        end
      else
        match dec c2, dec c3, decode r with
        | Some s2, Some s3, Some bs =>
            Some (b0 :: byte_of_Z (s1 mod 16 * 16 + s2 / 4)
                     :: byte_of_Z (s2 mod 4 * 64 + s3) :: bs)
        | _, _, _ => None
        end
  | _, _ => None
  end.
Proof. reflexivity. Qed.

(** Decoding undoes encoding. *)
Lemma decode_encode (l : list byte) : decode (encode l) = Some l.
Proof.
  induction l as [| b0 | b0 b1 | b0 b1 b2 r IH] using list_ind3.
  - reflexivity.
  - pose proof (Z_of_byte_range b0) as H0.
    destruct (sextets (Z_of_byte b0) 0 0) as ((R0 & R1 & _ & _) & E0 & _ & _); try lia.
    cbn [encode]. rewrite decode_quad. cbv zeta.
    rewrite Z.div_0_l, Z.add_0_r in * by lia.
    rewrite !dec_enc by assumption. rewrite Ascii.eqb_refl.
    rewrite E0, byte_of_Z_of_byte. reflexivity.
  - pose proof (Z_of_byte_range b0) as H0. pose proof (Z_of_byte_range b1) as H1.
    destruct (sextets (Z_of_byte b0) (Z_of_byte b1) 0)
      as ((R0 & R1 & R2 & _) & E0 & E1 & _); try lia.
    cbn [encode]. rewrite decode_quad. cbv zeta.
    rewrite Z.div_0_l, Z.add_0_r in * by lia.
    rewrite !dec_enc by assumption. rewrite Ascii.eqb_refl.
    rewrite (enc_not_pad _ R2).
    rewrite E0, E1, !byte_of_Z_of_byte. reflexivity.
  - pose proof (Z_of_byte_range b0) as H0. pose proof (Z_of_byte_range b1) as H1.
    pose proof (Z_of_byte_range b2) as H2.
    destruct (sextets (Z_of_byte b0) (Z_of_byte b1) (Z_of_byte b2))
      as ((R0 & R1 & R2 & R3) & E0 & E1 & E2); try lia.
    cbn [encode]. rewrite decode_quad. cbv zeta.
    rewrite !dec_enc by assumption. rewrite (enc_not_pad _ R3).
    rewrite IH, E0, E1, E2, !byte_of_Z_of_byte. reflexivity.
Qed.

Lemma DecodeString_EncodeToString (l : list byte) :
  DecodeString (EncodeToString l) = Some l.
Proof.
  unfold DecodeString, EncodeToString.
  rewrite list_ascii_of_string_of_list_ascii. apply decode_encode.
Qed.

End Base64Lemmas.

(** ** JSON texts (encoding/json's scanner)

    A JSON value is kept as its syntax tree: numbers and strings hold their
    literal text (for a string, the characters between the quotes with the
    escapes as written), so that a tree determines its compact text and a
    text without insignificant white space determines its tree. *)

Module Json.

#[local] Set Warnings "-register-all".

Inductive json :=
| JNull
| JBool (b : bool)
| JNumber (lit : list ascii)
| JString (lit : list ascii)
| JArray (elems : list json)
| JObject (members : list (list ascii * json)).

Definition is_ws (c : ascii) : bool :=
  Ascii.eqb c " " || Ascii.eqb c "009" || Ascii.eqb c "010" || Ascii.eqb c "013".

Fixpoint skip_ws (s : list ascii) : list ascii :=
  match s with
  | c :: r => if is_ws c then skip_ws r else s
  | [] => []
  end.

Definition is_digit (c : ascii) : bool :=
  (48 <=? nat_of_ascii c)%nat && (nat_of_ascii c <=? 57)%nat.

Definition is_digit19 (c : ascii) : bool :=
  (49 <=? nat_of_ascii c)%nat && (nat_of_ascii c <=? 57)%nat.

Definition is_hex (c : ascii) : bool :=
  is_digit c
  || (65 <=? nat_of_ascii c)%nat && (nat_of_ascii c <=? 70)%nat
  || (97 <=? nat_of_ascii c)%nat && (nat_of_ascii c <=? 102)%nat.

(** *** Numbers: the scanner's automaton *)

Inductive nstate := NStart | NNeg | NZero | NInt | NDot | NFrac | NE | NESign | NExp.

Definition naccept (st : nstate) : bool :=
  match st with
  | NZero | NInt | NFrac | NExp => true
  | _ => false
  end.

Definition is_e (c : ascii) : bool := Ascii.eqb c "e" || Ascii.eqb c "E".
Definition is_sign (c : ascii) : bool := Ascii.eqb c "+" || Ascii.eqb c "-".

Definition nstep (st : nstate) (c : ascii) : option nstate :=
  match st with
  | NStart =>
      if Ascii.eqb c "-" then Some NNeg
      else if Ascii.eqb c "0" then Some NZero
      else if is_digit19 c then Some NInt else None
  | NNeg =>
      if Ascii.eqb c "0" then Some NZero
      else if is_digit19 c then Some NInt else None
  | NZero =>
      if Ascii.eqb c "." then Some NDot
      else if is_e c then Some NE else None
  | NInt =>
      if is_digit c then Some NInt
      else if Ascii.eqb c "." then Some NDot
      else if is_e c then Some NE else None
  | NDot => if is_digit c then Some NFrac else None
  | NFrac =>
      if is_digit c then Some NFrac
      else if is_e c then Some NE else None
  | NE =>
      if is_sign c then Some NESign
      else if is_digit c then Some NExp else None
  | NESign => if is_digit c then Some NExp else None
  | NExp => if is_digit c then Some NExp else None
  end.

(** The longest number literal at the head of [s], and what follows it. *)
Fixpoint scan_number_from (st : nstate) (s : list ascii)
  : option (list ascii * list ascii) :=
  match s with
  | [] => if naccept st then Some ([], []) else None
  | c :: r =>
      match nstep st c with
      | Some st' =>
          match scan_number_from st' r with
          | Some (l, r') => Some (c :: l, r')
          | None => None
          end
      | None => if naccept st then Some ([], s) else None
      end
  end.

Definition scan_number : list ascii -> option (list ascii * list ascii) :=
  scan_number_from NStart.

(** *** Strings *)

Inductive sstate := SChar | SEsc | SHex (k : nat).

Definition is_simple_escape (c : ascii) : bool :=
  existsb (Ascii.eqb c) (DQ :: list_ascii_of_string "bfnrt\/").

(** After the opening quote: the literal up to the closing quote, and what
    follows the closing quote. *)
Fixpoint scan_string_from (st : sstate) (s : list ascii)
  : option (list ascii * list ascii) :=
  match s with
  | [] => None
  | c :: r =>
      let continue (st' : sstate) :=
        match scan_string_from st' r with
        | Some (l, r') => Some (c :: l, r')
        | None => None
        end in
      match st with
      | SChar =>
          if Ascii.eqb c "034" then Some ([], r)
          else if Ascii.eqb c "\" then continue SEsc
          else if (nat_of_ascii c <? 32)%nat then None
          else continue SChar
      | SEsc =>
          if is_simple_escape c then continue SChar
          else if Ascii.eqb c "u" then continue (SHex 3)
          else None
      | SHex k =>
          if is_hex c then
            match k with
            | O => continue SChar
            | S k' => continue (SHex k')
            end
          else None
      end
  end.

Definition scan_string : list ascii -> option (list ascii * list ascii) :=
  scan_string_from SChar.

(** *** Values *)

Fixpoint strip_prefix (p s : list ascii) : option (list ascii) :=
  match p, s with
  | [], _ => Some s
  | a :: p', b :: s' => if Ascii.eqb a b then strip_prefix p' s' else None
  | _ :: _, [] => None
  end.

Definition lit_null : list ascii := list_ascii_of_string "null".
Definition lit_true : list ascii := list_ascii_of_string "true".
Definition lit_false : list ascii := list_ascii_of_string "false".

(** [parse_value fuel s] reads one value at the head of [s] (no leading
    white space) and returns it with the rest of the input.
    [parse_elems] reads the elements of an array after its first bracket
    and white space, up to and including the closing bracket;
    [parse_members] does the same for the members of an object. *)
Fixpoint parse_value (fuel : nat) (s : list ascii) : option (json * list ascii) :=
  match fuel with
  | O => None
  | S fuel' =>
      match s with
      | [] => None
      | c :: r =>
          if Ascii.eqb c "{" then
            match skip_ws r with
            | c' :: r' =>
                if Ascii.eqb c' "}" then Some (JObject [], r')
                else
                  match parse_members fuel' (c' :: r') with
                  | Some (ms, r'') => Some (JObject ms, r'')
                  | None => None
                  end
            | [] => None
            end
          else if Ascii.eqb c "[" then
            match skip_ws r with
            | c' :: r' =>
                if Ascii.eqb c' "]" then Some (JArray [], r')
                else
                  match parse_elems fuel' (c' :: r') with
                  | Some (vs, r'') => Some (JArray vs, r'')
                  | None => None
                  end
            | [] => None
            end
          else if Ascii.eqb c "034" then
            match scan_string r with
            | Some (l, r') => Some (JString l, r')
            | None => None
            end
          else if Ascii.eqb c "t" then
            match strip_prefix lit_true s with
            | Some r' => Some (JBool true, r')
            | None => None
            end
          else if Ascii.eqb c "f" then
            match strip_prefix lit_false s with
            | Some r' => Some (JBool false, r')
            | None => None
            end
          else if Ascii.eqb c "n" then
            match strip_prefix lit_null s with
            | Some r' => Some (JNull, r')
            | None => None
            end
          else
            match scan_number s with
            | Some (l, r') => Some (JNumber l, r')
            | None => None
            end
      end
  end

with parse_elems (fuel : nat) (s : list ascii) : option (list json * list ascii) :=
  match fuel with
  | O => None
  | S fuel' =>
      match parse_value fuel' s with
      | Some (v, r) =>
          match skip_ws r with
          | c :: r' =>
              if Ascii.eqb c "," then
                match parse_elems fuel' (skip_ws r') with
                | Some (vs, r'') => Some (v :: vs, r'')
                | None => None
                end
              else if Ascii.eqb c "]" then Some ([v], r')
              else None
          | [] => None
          end
      | None => None
      end
  end

with parse_members (fuel : nat) (s : list ascii)
  : option (list (list ascii * json) * list ascii) :=
  match fuel with
  | O => None
  | S fuel' =>
      match s with
      | q :: r0 =>
          if Ascii.eqb q "034" then
            match scan_string r0 with
            | Some (k, r1) =>
                match skip_ws r1 with
                | c1 :: r2 =>
                    if Ascii.eqb c1 ":" then
                      match parse_value fuel' (skip_ws r2) with
                      | Some (v, r3) =>
                          match skip_ws r3 with
                          | c :: r4 =>
                              if Ascii.eqb c "," then
                                match parse_members fuel' (skip_ws r4) with
                                | Some (ms, r5) => Some ((k, v) :: ms, r5)
                                | None => None
                                end
                              else if Ascii.eqb c "}" then Some ([(k, v)], r4)
                              else None
                          | [] => None
                          end
                      | None => None
                      end
                    else None
                | [] => None
                end
            | None => None
            end
          else None
      | [] => None
      end
  end.

(** A whole text: one value between optional white space ([checkValid]
    followed by a decode of the tree). *)
Definition parse (s : list ascii) : option json :=
  let s' := skip_ws s in
  match parse_value (S (List.length s')) s' with
  | Some (v, r) => match skip_ws r with [] => Some v | _ => None end
  | None => None
  end.

(** The members of the object at the head of [s] (after its brace and white
    space), each value as the raw slice of the input that spells it: what a
    [json.RawMessage] field receives. *)
Fixpoint raw_members (fuel : nat) (s : list ascii)
  : option (list (list ascii * list ascii)) :=
  match fuel with
  | O => None
  | S fuel' =>
      match s with
      | q :: r0 =>
          if Ascii.eqb q "034" then
            match scan_string r0 with
            | Some (k, r1) =>
                match skip_ws r1 with
                | c1 :: r2 =>
                    if Ascii.eqb c1 ":" then
                      let sv := skip_ws r2 in
                      match parse_value (S (List.length sv)) sv with
                      | Some (_, r3) =>
                          let raw := firstn (List.length sv - List.length r3) sv in
                          match skip_ws r3 with
                          | c :: r4 =>
                              if Ascii.eqb c "," then
                                match raw_members fuel' (skip_ws r4) with
                                | Some ms => Some ((k, raw) :: ms)
                                | None => None
                                end
                              else if Ascii.eqb c "}" then Some [(k, raw)]
                              else None
                          | [] => None
                          end
                      | None => None
                      end
                    else None
                | [] => None
                end
            | None => None
            end
          else None
      | [] => None
      end
  end.

(** *** Compact text of a tree *)

Definition render_elems (f : json -> list ascii) : list json -> list ascii :=
  fix elems (l : list json) : list ascii :=
    match l with
    | [] => []
    | [x] => f x
    | x :: r => f x ++ ","%char :: elems r
    end.

Definition render_member (f : json -> list ascii) (kv : list ascii * json)
  : list ascii :=
  "034"%char :: fst kv ++ "034"%char :: ":"%char :: f (snd kv).

Definition render_members (f : json -> list ascii)
  : list (list ascii * json) -> list ascii :=
  fix members (l : list (list ascii * json)) : list ascii :=
    match l with
    | [] => []
    | [kv] => render_member f kv
    | kv :: r => render_member f kv ++ ","%char :: members r
    end.

Fixpoint render (v : json) : list ascii :=
  match v with
  | JNull => lit_null
  | JBool true => lit_true
  | JBool false => lit_false
  | JNumber l => l
  | JString l => "034"%char :: l ++ ["034"%char]
  | JArray vs => "["%char :: render_elems render vs ++ ["]"%char]
  | JObject ms => "{"%char :: render_members render ms ++ ["}"%char]
  end.

Definition valid_number (l : list ascii) : bool :=
  match scan_number l with
  | Some (_, []) => true
  | _ => false
  end.

Definition valid_string (l : list ascii) : bool :=
  match scan_string (l ++ ["034"%char]) with
  | Some (_, []) => true
  | _ => false
  end.

(** Every number and string literal of the tree is one the scanner reads. *)
Fixpoint wf (v : json) : bool :=
  match v with
  | JNull | JBool _ => true
  | JNumber l => valid_number l
  | JString l => valid_string l
  | JArray vs => forallb wf vs
  | JObject ms =>
      forallb (fun kv => valid_string (fst kv) && wf (snd kv)) ms
  end.

End Json.

Example json_parse_nested :
  Json.parse (list_ascii_of_string
                (requote "{'a': [1, -2.5e+3, 'x\né', true, null], 'b' : {}}"))
  = Some (Json.JObject
            [(list_ascii_of_string "a",
              Json.JArray
                [Json.JNumber (list_ascii_of_string "1");
                 Json.JNumber (list_ascii_of_string "-2.5e+3");
                 Json.JString (list_ascii_of_string "x\né");
                 Json.JBool true; Json.JNull]);
             (list_ascii_of_string "b", Json.JObject [])]).
Proof. vm_compute. reflexivity. Qed.

Example json_parse_rejects :
  map (fun s => Json.parse (list_ascii_of_string (requote s)))
      ["01"; "[1,]"; "{'a':1,}"; "1."; "tru"; "'a"; "[1 2]"; "- 1"; "{} x"]
  = repeat None 9.
Proof. vm_compute. reflexivity. Qed.

(** ** The scanner on rendered trees *)

Ltac case_if H :=
  match type of H with
  | context [if ?b then _ else _] => destruct b eqn:?
  end.

Section JsonLemmas.
Import Json.

(** A character that cannot continue a number literal. *)
Definition number_stop (c : ascii) : bool :=
  negb (is_digit c || Ascii.eqb c "." || is_e c || is_sign c).

Definition stops (rest : list ascii) : bool :=
  match rest with
  | [] => true
  | c :: _ => number_stop c
  end.

Lemma nstep_stop (c : ascii) (st : nstate) :
  number_stop c = true -> nstep st c = None.
Proof.
  destruct c as [[] [] [] [] [] [] [] []]; destruct st;
    vm_compute; intros H; solve [reflexivity | discriminate H].
Qed.

Lemma scan_number_from_split (s : list ascii) :
  forall st l r, scan_number_from st s = Some (l, r) -> s = l ++ r.
Proof.
  induction s as [|c s IH]; intros st l r H; cbn in H.
  - destruct (naccept st); inversion H; reflexivity.
  - destruct (nstep st c) as [st'|].
    + destruct (scan_number_from st' s) as [[l' r']|] eqn:E; inversion H; subst.
      cbn. f_equal. eapply IH; eassumption.
    + destruct (naccept st); inversion H; reflexivity.
Qed.

Lemma scan_number_from_ext (s : list ascii) :
  forall st l rest,
    scan_number_from st s = Some (l, []) -> stops rest = true ->
    scan_number_from st (s ++ rest) = Some (l, rest).
Proof.
  induction s as [|c s IH]; intros st l rest H Hstop; cbn in H.
  - destruct (naccept st) eqn:A; inversion H; subst. cbn.
    destruct rest as [|c r]; cbn; rewrite ?A; [reflexivity|].
    rewrite (nstep_stop c st Hstop). reflexivity.
  - cbn. destruct (nstep st c) as [st'|].
    + destruct (scan_number_from st' s) as [[l' r']|] eqn:E; inversion H; subst.
      rewrite (IH _ _ _ E Hstop). reflexivity.
    + destruct (naccept st); inversion H.
Qed.

Lemma valid_number_scan (l rest : list ascii) :
  valid_number l = true -> stops rest = true ->
  scan_number (l ++ rest) = Some (l, rest).
Proof.
  unfold valid_number, scan_number. intros H Hstop.
  destruct (scan_number_from NStart l) as [[l' [|c r]]|] eqn:E; try discriminate.
  pose proof (scan_number_from_split _ _ _ _ E) as Hl.
  rewrite app_nil_r in Hl. subst l'.
  apply scan_number_from_ext; assumption.
Qed.

Lemma scan_string_from_split (s : list ascii) :
  forall st l r, scan_string_from st s = Some (l, r) -> s = l ++ "034"%char :: r.
Proof.
  induction s as [|c s IH]; intros st l r H; cbn in H; [discriminate|].
  assert (forall st',
             match scan_string_from st' s with
             | Some (l0, r') => Some (c :: l0, r')
             | None => None
             end = Some (l, r) -> c :: s = l ++ "034"%char :: r) as K.
  { intros st' H'.
    destruct (scan_string_from st' s) as [[l0 r']|] eqn:E; inversion H'; subst.
    cbn. f_equal. eapply IH; eassumption. }
  destruct st as [| |k]; [| |destruct k]; repeat case_if H;
    try discriminate H; eauto.
  match goal with Q : Ascii.eqb c _ = true |- _ => apply Ascii.eqb_eq in Q end.
  inversion H; subst. reflexivity.
Qed.

Lemma scan_string_from_ext (s : list ascii) :
  forall st l r rest,
    scan_string_from st s = Some (l, r) ->
    scan_string_from st (s ++ rest) = Some (l, r ++ rest).
Proof.
  induction s as [|c s IH]; intros st l r rest H; cbn in H; [discriminate|].
  cbn.
  assert (forall st',
             match scan_string_from st' s with
             | Some (l0, r') => Some (c :: l0, r')
             | None => None
             end = Some (l, r) ->
             match scan_string_from st' (s ++ rest) with
             | Some (l0, r') => Some (c :: l0, r')
             | None => None
             end = Some (l, r ++ rest)) as K.
  { intros st' H'.
    destruct (scan_string_from st' s) as [[l0 r']|] eqn:E; inversion H'; subst.
    rewrite (IH _ _ _ rest E). reflexivity. }
  destruct st as [| |k]; [| |destruct k]; repeat case_if H;
    try discriminate H; eauto.
  inversion H; subst. reflexivity.
Qed.

Lemma valid_string_scan (l rest : list ascii) :
  valid_string l = true ->
  scan_string (l ++ "034"%char :: rest) = Some (l, rest).
Proof.
  unfold valid_string, scan_string. intros H.
  destruct (scan_string_from SChar (l ++ ["034"%char])) as [[l' [|c r]]|] eqn:E;
    try discriminate.
  pose proof (scan_string_from_split _ _ _ _ E) as Hl.
  apply app_inj_tail in Hl as [-> _].
  apply (scan_string_from_ext _ _ _ _ rest) in E.
  rewrite <- app_assoc in E. exact E.
Qed.

Lemma skip_ws_app (w s : list ascii) :
  forallb is_ws w = true -> skip_ws (w ++ s) = skip_ws s.
Proof.
  induction w as [|c w IH]; cbn; [reflexivity|].
  intros H. apply andb_prop in H as [Hc Hw]. rewrite Hc. auto.
Qed.

Lemma skip_ws_head (c : ascii) (s : list ascii) :
  is_ws c = false -> skip_ws (c :: s) = c :: s.
Proof. intros H. cbn. rewrite H. reflexivity. Qed.

Lemma skip_ws_all (w : list ascii) : forallb is_ws w = true -> skip_ws w = [].
Proof.
  intros H. rewrite <- (app_nil_r w), skip_ws_app by assumption. reflexivity.
Qed.

Lemma is_ws_stop (c : ascii) : is_ws c = true -> number_stop c = true.
Proof.
  destruct c as [[] [] [] [] [] [] [] []]; vm_compute; intros H;
    solve [reflexivity | discriminate H].
Qed.

(** The first character of a value: neither white space nor a closing
    bracket, brace, comma or colon. *)
Definition value_start (c : ascii) : bool :=
  negb (is_ws c || Ascii.eqb c "]" || Ascii.eqb c "}" || Ascii.eqb c ","
        || Ascii.eqb c ":").

Lemma number_start (c : ascii) (st : nstate) :
  nstep NStart c = Some st ->
  value_start c = true /\
  Ascii.eqb c "{" = false /\ Ascii.eqb c "[" = false /\
  Ascii.eqb c "034" = false /\ Ascii.eqb c "t" = false /\
  Ascii.eqb c "f" = false /\ Ascii.eqb c "n" = false.
Proof.
  destruct c as [[] [] [] [] [] [] [] []]; vm_compute; intros H;
    solve [discriminate H | repeat split; reflexivity].
Qed.

Lemma valid_number_head (l : list ascii) :
  valid_number l = true ->
  exists c r st, l = c :: r /\ nstep NStart c = Some st.
Proof.
  unfold valid_number, scan_number. destruct l as [|c r]; [discriminate|].
  cbn [scan_number_from naccept].
  destruct (nstep NStart c) as [st|] eqn:E; [|discriminate].
  intros _. exists c, r, st. split; [reflexivity | exact E].
Qed.

Lemma render_head (v : json) :
  wf v = true -> exists c r, render v = c :: r /\ value_start c = true.
Proof.
  destruct v as [|[]|l|l|vs|ms]; cbn; intros H;
    try (eexists _, _; split; [reflexivity | reflexivity]).
  destruct (valid_number_head l H) as (c & r & st & -> & Hc).
  exists c, r. split; [reflexivity | apply (number_start c st Hc)].
Qed.

Lemma value_start_ws (c : ascii) : value_start c = true -> is_ws c = false.
Proof.
  unfold value_start. destruct (is_ws c); [discriminate | reflexivity].
Qed.

Lemma render_length_pos (v : json) :
  wf v = true -> (1 <= List.length (render v))%nat.
Proof.
  intros H. destruct (render_head v H) as (c & r & -> & _). cbn. lia.
Qed.

Lemma strip_prefix_app (p rest : list ascii) :
  strip_prefix p (p ++ rest) = Some rest.
Proof.
  induction p as [|a p IH]; cbn; [destruct rest; reflexivity|].
  rewrite Ascii.eqb_refl. exact IH.
Qed.

End JsonLemmas.

Section JsonRoundTrip.
Import Json.

Lemma parse_value_brace (fuel : nat) (r : list ascii) :
  parse_value (S fuel) ("{"%char :: r) =
  match skip_ws r with
  | c' :: r' =>
      if Ascii.eqb c' "}" then Some (JObject [], r')
      else
        match parse_members fuel (c' :: r') with
        | Some (ms, r'') => Some (JObject ms, r'')
        | None => None
        end
  | [] => None
  end.
Proof. reflexivity. Qed.

Lemma parse_value_bracket (fuel : nat) (r : list ascii) :
  parse_value (S fuel) ("["%char :: r) =
  match skip_ws r with
  | c' :: r' =>
      if Ascii.eqb c' "]" then Some (JArray [], r')
      else
        match parse_elems fuel (c' :: r') with
        | Some (vs, r'') => Some (JArray vs, r'')
        | None => None
        end
  | [] => None
  end.
Proof. reflexivity. Qed.

Lemma parse_value_quote (fuel : nat) (r : list ascii) :
  parse_value (S fuel) ("034"%char :: r) =
  match scan_string r with
  | Some (l, r') => Some (JString l, r')
  | None => None
  end.
Proof. reflexivity. Qed.

Lemma parse_elems_S (fuel : nat) (s : list ascii) :
  parse_elems (S fuel) s =
  match parse_value fuel s with
  | Some (v, r) =>
      match skip_ws r with
      | c :: r' =>
          if Ascii.eqb c "," then
            match parse_elems fuel (skip_ws r') with
            | Some (vs, r'') => Some (v :: vs, r'')
            | None => None
            end
          else if Ascii.eqb c "]" then Some ([v], r')
          else None
      | [] => None
      end
  | None => None
  end.
Proof. reflexivity. Qed.

Lemma parse_members_quote (fuel : nat) (r0 : list ascii) :
  parse_members (S fuel) ("034"%char :: r0) =
  match scan_string r0 with
  | Some (k, r1) =>
      match skip_ws r1 with
      | c1 :: r2 =>
          if Ascii.eqb c1 ":" then
            match parse_value fuel (skip_ws r2) with
            | Some (v, r3) =>
                match skip_ws r3 with
                | c :: r4 =>
                    if Ascii.eqb c "," then
                      match parse_members fuel (skip_ws r4) with
                      | Some (ms, r5) => Some ((k, v) :: ms, r5)
                      | None => None
                      end
                    else if Ascii.eqb c "}" then Some ([(k, v)], r4)
                    else None
                | [] => None
                end
            | None => None
            end
          else None
      | [] => None
      end
  | None => None
  end.
Proof. reflexivity. Qed.

Lemma parse_value_number (fuel : nat) (l rest : list ascii) :
  valid_number l = true -> stops rest = true ->
  parse_value (S fuel) (l ++ rest) = Some (JNumber l, rest).
Proof.
  intros Hl Hstop.
  pose proof (valid_number_scan l rest Hl Hstop) as Hscan.
  destruct (valid_number_head l Hl) as (c & r & st & -> & Hc).
  destruct (number_start c st Hc) as (_ & E1 & E2 & E3 & E4 & E5 & E6).
  cbn [parse_value app] in *. rewrite E1, E2, E3, E4, E5, E6, Hscan. reflexivity.
Qed.

Lemma value_start_not_close (c : ascii) :
  value_start c = true ->
  is_ws c = false /\ Ascii.eqb c "]" = false /\ Ascii.eqb c "}" = false.
Proof.
  unfold value_start. destruct (is_ws c), (Ascii.eqb c "]"), (Ascii.eqb c "}");
    cbn; intros H; try discriminate H; auto.
Qed.

Lemma skip_ws_render (v : json) (rest : list ascii) :
  wf v = true -> skip_ws (render v ++ rest) = render v ++ rest.
Proof.
  intros H. destruct (render_head v H) as (c & r & -> & Hc).
  apply skip_ws_head, value_start_ws, Hc.
Qed.

Lemma render_elems_cons (v : json) (vs : list json) :
  render_elems render (v :: vs) =
  match vs with
  | [] => render v
  | _ :: _ => render v ++ ","%char :: render_elems render vs
  end.
Proof. destruct vs; reflexivity. Qed.

Lemma render_members_cons (kv : list ascii * json) (ms : list (list ascii * json)) :
  render_members render (kv :: ms) =
  match ms with
  | [] => render_member render kv
  | _ :: _ => render_member render kv ++ ","%char :: render_members render ms
  end.
Proof. destruct ms; reflexivity. Qed.

Lemma render_elems_head (vs : list json) :
  vs <> [] -> forallb wf vs = true ->
  exists c r, render_elems render vs = c :: r /\ value_start c = true.
Proof.
  destruct vs as [|v vs]; [congruence|]. intros _ H.
  cbn [forallb] in H. apply andb_prop in H as [Hv _].
  destruct (render_head v Hv) as (c & r & E & Hc).
  rewrite render_elems_cons. destruct vs; rewrite E; cbn; eauto.
Qed.

Definition wf_member (kv : list ascii * json) : bool :=
  valid_string (fst kv) && wf (snd kv).

Definition parse_value_ok (fuel : nat) : Prop :=
  forall v rest,
    wf v = true -> (List.length (render v) <= fuel)%nat -> stops rest = true ->
    parse_value fuel (render v ++ rest) = Some (v, rest).

Definition parse_elems_ok (fuel : nat) : Prop :=
  forall vs rest,
    vs <> [] -> forallb wf vs = true ->
    (List.length (render_elems render vs) < fuel)%nat ->
    parse_elems fuel (render_elems render vs ++ "]"%char :: rest) = Some (vs, rest).

Definition parse_members_ok (fuel : nat) : Prop :=
  forall ms rest,
    ms <> [] -> forallb wf_member ms = true ->
    (List.length (render_members render ms) < fuel)%nat ->
    parse_members fuel (render_members render ms ++ "}"%char :: rest)
    = Some (ms, rest).

Lemma parse_elems_step (fuel : nat) :
  parse_value_ok fuel -> parse_elems_ok fuel -> parse_elems_ok (S fuel).
Proof.
  intros HV HE vs rest Hne Hwf Hlen.
  destruct vs as [|v vs]; [congruence|].
  cbn [forallb] in Hwf. apply andb_prop in Hwf as [Hv Hvs].
  pose proof (render_length_pos v Hv) as Hpos.
  rewrite render_elems_cons in *. rewrite parse_elems_S.
  destruct vs as [|v' vs].
  - rewrite HV by (try assumption; try reflexivity; lia). reflexivity.
  - rewrite length_app in Hlen. cbn [List.length] in Hlen.
    rewrite <- app_assoc. cbn [app].
    rewrite HV by (try assumption; try reflexivity; lia).
    rewrite skip_ws_head by reflexivity.
    change (Ascii.eqb "," ",") with true. cbv iota.
    destruct (render_elems_head (v' :: vs)) as (c & r & E & Hc);
      [congruence | assumption |].
    rewrite E at 1. cbn [app]. rewrite skip_ws_head by (apply value_start_ws, Hc).
    change (c :: r ++ "]"%char :: rest) with ((c :: r) ++ "]"%char :: rest).
    rewrite <- E. rewrite HE by (try assumption; try congruence; lia).
    reflexivity.
Qed.

Lemma parse_members_step (fuel : nat) :
  parse_value_ok fuel -> parse_members_ok fuel -> parse_members_ok (S fuel).
Proof.
  intros HV HM ms rest Hne Hwf Hlen.
  destruct ms as [|[k v] ms]; [congruence|].
  cbn [forallb] in Hwf. apply andb_prop in Hwf as [Hkv Hms].
  unfold wf_member in Hkv. cbn [fst snd] in Hkv.
  apply andb_prop in Hkv as [Hk Hv].
  pose proof (render_length_pos v Hv) as Hpos.
  rewrite render_members_cons in *. unfold render_member in *.
  cbn [fst snd] in *.
  destruct ms as [|kv' ms].
  - cbn [app]. rewrite parse_members_quote.
    rewrite <- app_assoc. cbn [app].
    rewrite valid_string_scan by assumption.
    rewrite skip_ws_head by reflexivity.
    change (Ascii.eqb ":" ":") with true. cbv iota.
    rewrite <- ?app_assoc. cbn [app]. rewrite skip_ws_render by assumption.
    cbn [List.length] in Hlen. rewrite length_app in Hlen. cbn [List.length] in Hlen.
    rewrite HV by (try assumption; try reflexivity; lia). reflexivity.
  - cbn [app]. rewrite parse_members_quote.
    rewrite <- !app_assoc. cbn [app].
    rewrite valid_string_scan by assumption.
    rewrite skip_ws_head by reflexivity.
    change (Ascii.eqb ":" ":") with true. cbv iota.
    rewrite <- ?app_assoc. cbn [app]. rewrite skip_ws_render by assumption.
    cbn [List.length] in Hlen. rewrite !length_app in Hlen.
    cbn [List.length] in Hlen. rewrite !length_app in Hlen.
    cbn [List.length] in Hlen.
    cbn [app].
    rewrite HV by (try assumption; try reflexivity; lia).
    rewrite skip_ws_head by reflexivity.
    change (Ascii.eqb "," ",") with true. cbv iota.
    assert (exists r, render_members render (kv' :: ms) = "034"%char :: r) as [r E].
    { rewrite render_members_cons. unfold render_member.
      destruct ms; cbn; eauto. }
    rewrite E at 1. cbn [app]. rewrite skip_ws_head by reflexivity.
    change ("034"%char :: r ++ "}"%char :: rest)
      with (("034"%char :: r) ++ "}"%char :: rest).
    rewrite <- E. rewrite HM by (try assumption; try congruence; lia).
    reflexivity.
Qed.

Lemma parse_value_step (fuel : nat) :
  parse_elems_ok fuel -> parse_members_ok fuel -> parse_value_ok (S fuel).
Proof.
  intros HE HM v rest Hwf Hlen Hstop.
  destruct v as [|[]|l|l|vs|ms]; cbn [render wf] in *.
  - reflexivity.
  - reflexivity.
  - reflexivity.
  - apply parse_value_number; assumption.
  - cbn [app]. rewrite parse_value_quote. rewrite <- app_assoc. cbn [app].
    rewrite valid_string_scan by assumption. reflexivity.
  - cbn [app]. rewrite parse_value_bracket. rewrite <- app_assoc. cbn [app].
    destruct vs as [|v vs]; [reflexivity|].
    destruct (render_elems_head (v :: vs)) as (c & r & E & Hc);
      [congruence | assumption |].
    destruct (value_start_not_close c Hc) as (W & B & _).
    cbn [List.length] in Hlen. rewrite length_app in Hlen.
    cbn [List.length] in Hlen.
    rewrite E at 1. cbn [app]. rewrite skip_ws_head by assumption.
    rewrite B.
    change (c :: r ++ "]"%char :: rest) with ((c :: r) ++ "]"%char :: rest).
    rewrite <- E. rewrite HE by (try assumption; try congruence; lia).
    reflexivity.
  - cbn [app]. rewrite parse_value_brace. rewrite <- app_assoc. cbn [app].
    destruct ms as [|kv ms]; [reflexivity|].
    assert (exists r, render_members render (kv :: ms) = "034"%char :: r) as [r E].
    { rewrite render_members_cons. unfold render_member.
      destruct ms; cbn; eauto. }
    cbn [List.length] in Hlen. rewrite length_app in Hlen.
    cbn [List.length] in Hlen.
    rewrite E at 1. cbn [app]. rewrite skip_ws_head by reflexivity.
    change (Ascii.eqb "034" "}") with false. cbv iota.
    change ("034"%char :: r ++ "}"%char :: rest)
      with (("034"%char :: r) ++ "}"%char :: rest).
    rewrite <- E. rewrite HM by (try assumption; try congruence; lia).
    reflexivity.
Qed.

Lemma parse_all_ok (fuel : nat) :
  parse_value_ok fuel /\ parse_elems_ok fuel /\ parse_members_ok fuel.
Proof.
  induction fuel as [|fuel (HV & HE & HM)].
  - repeat split.
    + intros v rest Hwf Hlen _. pose proof (render_length_pos v Hwf). lia.
    + intros vs rest _ _ Hlen. lia.
    + intros ms rest _ _ Hlen. lia.
  - repeat split.
    + apply parse_value_step; assumption.
    + apply parse_elems_step; assumption.
    + apply parse_members_step; assumption.
Qed.

(** Reading back the compact text of a well-formed tree gives the tree, and
    leaves what follows it. *)
Lemma parse_value_render (v : json) (rest : list ascii) (fuel : nat) :
  wf v = true -> (List.length (render v) <= fuel)%nat -> stops rest = true ->
  parse_value fuel (render v ++ rest) = Some (v, rest).
Proof. intros. apply parse_all_ok; assumption. Qed.

Lemma parse_render (v : json) : wf v = true -> parse (render v) = Some v.
Proof.
  intros H. unfold parse.
  rewrite <- (app_nil_r (render v)) at 1 2.
  rewrite skip_ws_render by assumption.
  rewrite parse_value_render; try assumption; try reflexivity.
  rewrite app_nil_r. lia.
Qed.

End JsonRoundTrip.

(** ** Strings (package strings, ASCII part), MIME header keys, multipart *)

Module Strings.

(** [strings.HasPrefix]. *)
Definition HasPrefix (s p : string) : bool := String.prefix p s.

(** [strings.Contains]. *)
Fixpoint Contains (s substr : string) : bool :=
  String.prefix substr s
  || match s with
     | EmptyString => false
     | String _ r => Contains r substr
     end.

Definition is_lower (c : ascii) : bool :=
  (97 <=? nat_of_ascii c)%nat && (nat_of_ascii c <=? 122)%nat.
Definition is_upper (c : ascii) : bool :=
  (65 <=? nat_of_ascii c)%nat && (nat_of_ascii c <=? 90)%nat.

Definition upper_ascii (c : ascii) : ascii :=
  if is_lower c then ascii_of_nat (nat_of_ascii c - 32) else c.
Definition lower_ascii (c : ascii) : ascii :=
  if is_upper c then ascii_of_nat (nat_of_ascii c + 32) else c.

Fixpoint map_string (f : ascii -> ascii) (s : string) : string :=
  match s with
  | EmptyString => EmptyString
  | String c r => String (f c) (map_string f r)
  end.

(** [strings.ToUpper] on ASCII text. *)
Definition ToUpperASCII (s : string) : string := map_string upper_ascii s.

(** [strings.TrimRight(s, "/")]. *)
Definition TrimRightSlash (s : string) : string :=
  string_of_list_ascii
    (rev ((fix drop (l : list ascii) : list ascii :=
             match l with
             | c :: r => if Ascii.eqb c "/" then drop r else l
             | [] => []
             end) (rev (list_ascii_of_string s)))).

(** [strings.ContainsAny]. *)
Fixpoint ContainsAny (s chars : string) : bool :=
  match s with
  | EmptyString => false
  | String c r =>
      existsb (Ascii.eqb c) (list_ascii_of_string chars) || ContainsAny r chars
  end.

End Strings.

Module Textproto.
Import Strings.

(** [validHeaderFieldByte]: the token characters of RFC 7230. *)
Definition validHeaderFieldByte (c : ascii) : bool :=
  is_lower c || is_upper c
  || (48 <=? nat_of_ascii c)%nat && (nat_of_ascii c <=? 57)%nat
  || existsb (Ascii.eqb c) (list_ascii_of_string "!#$%&'*+-.^_`|~").

Fixpoint all_valid (s : string) : bool :=
  match s with
  | EmptyString => true
  | String c r => validHeaderFieldByte c && all_valid r
  end.

(** First letter and letters after a dash in upper case, the others in
    lower case. *)
Fixpoint canon (upper : bool) (s : string) : string :=
  match s with
  | EmptyString => EmptyString
  | String c r =>
      let c' := if upper then upper_ascii c else lower_ascii c in
      String c' (canon (Ascii.eqb c' "-") r)
  end.

(** [textproto.CanonicalMIMEHeaderKey]: a key with a byte that is no token
    character (a space included) is returned unchanged. *)
Definition CanonicalMIMEHeaderKey (s : string) : string :=
  if all_valid s then canon true s else s.

End Textproto.

(** [http.Header] as the client uses it: every key holds one value. *)
Module Header.

Definition Set_ (h : gmap string string) (k v : string) : gmap string string :=
  <[Textproto.CanonicalMIMEHeaderKey k := v]> h.

Definition Get (h : gmap string string) (k : string) : string :=
  default EmptyString (h !! Textproto.CanonicalMIMEHeaderKey k).

End Header.

Example canonical_keys :
  map Textproto.CanonicalMIMEHeaderKey
      ["X-HTTP-Method-Override"; "Content-MD5"; "authorization"; "my header"; "DATE"]
  = ["X-Http-Method-Override"; "Content-Md5"; "Authorization"; "my header"; "Date"]%string.
Proof. vm_compute. reflexivity. Qed.

(** [mime/multipart.Writer] over a byte buffer. *)
Module Multipart.

Definition CRLF : string := String "013" (String "010" EmptyString).

Record Writer := {
  buf : string;
  boundary : string;
  lastpart : bool }.

Definition NewWriter (b : string) : Writer :=
  {| buf := EmptyString; boundary := b; lastpart := false |}.

(** [CreatePart] with the header lines given in key order; returns the
    writer positioned in the part's body. *)
Definition CreatePart (w : Writer) (header : list (string * string)) : Writer :=
  let start :=
    if lastpart w then CRLF +:+ "--" +:+ boundary w +:+ CRLF
    else "--" +:+ boundary w +:+ CRLF in
  let lines :=
    fold_right (fun kv acc => fst kv +:+ ": " +:+ snd kv +:+ CRLF +:+ acc)
               EmptyString header in
  {| buf := buf w +:+ start +:+ lines +:+ CRLF;
     boundary := boundary w; lastpart := true |}.

Definition write (w : Writer) (data : string) : Writer :=
  {| buf := buf w +:+ data; boundary := boundary w; lastpart := lastpart w |}.

Section Escaping.
Variable escapeQuotes : string -> string.

Definition CreateFormFile (w : Writer) (fieldname filename : string) : Writer :=
  CreatePart w
    [("Content-Disposition"%string,
      "form-data; name=" +:+ QS +:+ escapeQuotes fieldname +:+ QS
        +:+ "; filename=" +:+ QS +:+ escapeQuotes filename +:+ QS);
     ("Content-Type"%string, "application/octet-stream"%string)].

Definition WriteField (w : Writer) (fieldname value : string) : Writer :=
  write
    (CreatePart w
       [("Content-Disposition"%string,
         "form-data; name=" +:+ QS +:+ escapeQuotes fieldname +:+ QS)])
    value.

End Escaping.

Definition Close (w : Writer) : Writer :=
  write w (CRLF +:+ "--" +:+ boundary w +:+ "--" +:+ CRLF).

Definition FormDataContentType (w : Writer) : string :=
  let b := boundary w in
  let b' :=
    if Strings.ContainsAny b ("()<>@,;:\" +:+ QS +:+ "/[]?= ")
    then QS +:+ b +:+ QS else b in
  "multipart/form-data; boundary=" +:+ b'.

End Multipart.

(** ** Decoding JSON texts into Go values (encoding/json's decoder) *)

Module Decode.
Import Json.

Definition hex_val (c : ascii) : Z :=
  let n := Z.of_nat (nat_of_ascii c) in
  if is_digit c then n - 48
  else if (97 <=? n) then n - 87
  else n - 55.

Definition u4 (a b c d : ascii) : Z :=
  ((hex_val a * 16 + hex_val b) * 16 + hex_val c) * 16 + hex_val d.

Definition chr (n : Z) : ascii := ascii_of_nat (Z.to_nat n).

(** [utf8.EncodeRune]. *)
Definition utf8_encode (r : Z) : list ascii :=
  if r <? 128 then [chr r]
  else if r <? 2048 then [chr (192 + r / 64); chr (128 + r mod 64)]
  else if r <? 65536 then
    [chr (224 + r / 4096); chr (128 + r / 64 mod 64); chr (128 + r mod 64)]
  else
    [chr (240 + r / 262144); chr (128 + r / 4096 mod 64);
     chr (128 + r / 64 mod 64); chr (128 + r mod 64)].

Definition replacement : list ascii := utf8_encode 65533.

Definition is_surrogate (r : Z) : bool := (55296 <=? r) && (r <? 57344).

Definition in_range (lo hi : Z) (c : ascii) : bool :=
  let n := Z.of_nat (nat_of_ascii c) in (lo <=? n) && (n <=? hi).

(** Number of continuation bytes of the well-formed UTF-8 sequence at the
    head of [c :: r] ([c] not ASCII); [None] when it is ill-formed
    ([utf8.DecodeRune] returns [RuneError] with size 1). *)
Definition utf8_tail (c : ascii) (r : list ascii) : option nat :=
  let n := Z.of_nat (nat_of_ascii c) in
  let cont := in_range 128 191 in
  match r with
  | b1 :: r1 =>
      if in_range 194 223 c then if cont b1 then Some 1%nat else None
      else
        match r1 with
        | b2 :: r2 =>
            let second3 :=
              if n =? 224 then in_range 160 191 b1
              else if n =? 237 then in_range 128 159 b1
              else in_range 225 239 c && cont b1 in
            if in_range 224 239 c then
              if second3 && cont b2 then Some 2%nat else None
            else
              match r2 with
              | b3 :: _ =>
                  let second4 :=
                    if n =? 240 then in_range 144 191 b1
                    else if n =? 244 then in_range 128 143 b1
                    else in_range 241 243 c && cont b1 in
                  if second4 && cont b2 && cont b3 then Some 3%nat else None
              | [] => None
              end
        | [] => None
        end
  | [] => None
  end.

Definition simple_escape (c : ascii) : ascii :=
  if Ascii.eqb c "b" then "008"%char
  else if Ascii.eqb c "f" then "012"%char
  else if Ascii.eqb c "n" then "010"%char
  else if Ascii.eqb c "r" then "013"%char
  else if Ascii.eqb c "t" then "009"%char
  else c.

(** [unquote] on the literal of a scanned string: escapes are replaced,
    a pair of surrogate escapes gives one character, a lone one and every
    ill-formed byte give U+FFFD.  [copy] counts the continuation bytes of a
    checked sequence still to be copied. *)
Fixpoint unquote_from (copy : nat) (s : list ascii) : list ascii :=
  match s with
  | [] => []
  | c :: r =>
      match copy with
      | S k => c :: unquote_from k r
      | O =>
          if Ascii.eqb c "\" then
            match r with
            | e :: r1 =>
                if Ascii.eqb e "u" then
                  match r1 with
                  | h1 :: h2 :: h3 :: h4 :: r2 =>
                      let rr := u4 h1 h2 h3 h4 in
                      if is_surrogate rr then
                        match r2 with
                        | b :: u :: g1 :: g2 :: g3 :: g4 :: r3 =>
                            let rr1 := u4 g1 g2 g3 g4 in
                            if Ascii.eqb b "\" && Ascii.eqb u "u"
                               && is_hex g1 && is_hex g2 && is_hex g3 && is_hex g4
                               && (rr <? 56320) && (56320 <=? rr1) && (rr1 <? 57344)
                            then
                              utf8_encode
                                (65536 + (rr - 55296) * 1024 + (rr1 - 56320))
                                ++ unquote_from O r3
                            else replacement ++ unquote_from O r2
                        | _ => replacement ++ unquote_from O r2
                        end
                      else utf8_encode rr ++ unquote_from O r2
                  | _ => []
                  end
                else simple_escape e :: unquote_from O r1
            | [] => []
            end
          else if (nat_of_ascii c <? 128)%nat then c :: unquote_from O r
          else
            match utf8_tail c r with
            | Some k => c :: unquote_from k r
            | None => replacement ++ unquote_from O r
            end
      end
  end.

Definition unquote (lit : list ascii) : string :=
  string_of_list_ascii (unquote_from O lit).

(** [foldName]: the name under simple case folding.  Besides the ASCII
    letters, only U+017F (long s) and U+212A (Kelvin sign) fold to an ASCII
    letter. *)
Fixpoint fold_name (s : list ascii) : list ascii :=
  match s with
  | [] => []
  | c :: r =>
      match r with
      | c1 :: r1 =>
          if Ascii.eqb c "197" && Ascii.eqb c1 "191" then "S"%char :: fold_name r1
          else
            match r1 with
            | c2 :: r2 =>
                if Ascii.eqb c "226" && Ascii.eqb c1 "132" && Ascii.eqb c2 "170"
                then "K"%char :: fold_name r2
                else Strings.upper_ascii c :: fold_name r
            | [] => Strings.upper_ascii c :: fold_name r
            end
      | [] => [Strings.upper_ascii c]
      end
  end.

(** Whether the member key with literal [key] names the struct field tagged
    [name]: an exact match, or a match under case folding. *)
Definition field_match (name : string) (key : list ascii) : bool :=
  let k := unquote (key) in
  String.eqb k name
  || String.eqb (string_of_list_ascii (fold_name (list_ascii_of_string k)))
       (string_of_list_ascii (fold_name (list_ascii_of_string name))).

Fixpoint digits_val (acc : Z) (s : list ascii) : option Z :=
  match s with
  | [] => Some acc
  | c :: r =>
      if is_digit c then digits_val (acc * 10 + (Z.of_nat (nat_of_ascii c) - 48)) r
      else None
  end.

(** A number literal into an [int] field ([strconv.ParseInt] on 64 bits);
    [None] is an [UnmarshalTypeError]. *)
Definition int_of_number (lit : list ascii) : option Z :=
  let '(neg, ds) :=
    match lit with
    | c :: r => if Ascii.eqb c "-" then (true, r) else (false, lit)
    | [] => (false, [])
    end in
  match ds with
  | [] => None
  | _ :: _ =>
      match digits_val 0 ds with
      | Some n =>
          let z := if neg then - n else n in
          if (-9223372036854775808 <=? z) && (z <=? 9223372036854775807)
          then Some z else None
      | None => None
      end
  end.

(** Decoding into [struct { Content json.RawMessage `json:"content"` }]:
    the raw text of the last member whose key names the field, the empty
    slice when there is none or when the text is [null]; [None] when the
    text is not a JSON value or is a value of another kind. *)
Definition content_of (ms : list (list ascii * list ascii)) : list ascii :=
  fold_left (fun acc kr => if field_match "content" (fst kr) then snd kr else acc)
            ms [].

Definition Unmarshal_content (data : list ascii) : option (list ascii) :=
  match parse data with
  | Some JNull => Some []
  | Some (JObject _) =>
      match skip_ws data with
      | _ :: r =>
          match skip_ws r with
          | c :: r' =>
              if Ascii.eqb c "}" then Some []
              else
                match raw_members (S (List.length (c :: r'))) (c :: r') with
                | Some ms => Some (content_of ms)
                | None => None
                end
          | [] => None
          end
      | [] => None
      end
  | _ => None
  end.

End Decode.

Example unquote_examples :
  map (fun s => Decode.unquote (list_ascii_of_string (requote s)))
      ["plain"; "a\'b\\c\/d"; "A\u00e9"; "x\ud83d\ude00y"; "\ud83dz"]
  = map requote ["plain"; "a'b\c/d"; "Aé"; "x😀y"; "�z"]%string.
Proof. vm_compute. reflexivity. Qed.

Example field_match_examples :
  map (fun s => Decode.field_match "status" (list_ascii_of_string s))
      ["status"; "Status"; "STATUS"; "status"; "ſtatus"; "statu"; "státus"]
  = [true; true; true; true; true; false; false].
Proof. vm_compute. reflexivity. Qed.

Example unmarshal_content_examples :
  map (fun s => Decode.Unmarshal_content (list_ascii_of_string (requote s)))
      ["{'content': [1, 2] }"; "{'x':1,'Content':{'a':null},'y':2}";
       "{}"; "null"; "[1]"; "{'content':1"; " {'content':1, 'content': 'b'} "]
  = [Some (list_ascii_of_string "[1, 2]");
     Some (list_ascii_of_string (requote "{'a':null}"));
     Some []; Some []; None; None; Some (list_ascii_of_string (requote "'b'"))].
Proof. vm_compute. reflexivity. Qed.

(** * The client *)

Module Lara.

(** ** errors.go, and the errors of the standard library *)

Inductive error :=
| LaraError (Status : Z) (Type_ : string) (Message : string)
| LaraConnectionError (Message : string)
| LaraTimeoutError (Message : string)
| ErrorString (msg : string)
    (** [fmt.Errorf] without [%w], and errors of the standard library *)
| WrapError (msg : string) (err : error)
    (** [fmt.Errorf] with [%w]: the message and the wrapped error *).

(** The [Error()] methods. *)
Definition Error (e : error) : string :=
  match e with
  | LaraError _ t m => t +:+ ": " +:+ m
  | LaraConnectionError m => "ConnectionError: " +:+ m
  | LaraTimeoutError m => "TimeoutError: " +:+ m
  | ErrorString m => m
  | WrapError m _ => m
  end.

(** [fmt.Errorf(prefix + "%w", err)]. *)
Definition Errorf_w (prefix : string) (err : error) : error :=
  WrapError (prefix +:+ Error err) err.

(** A Go result [(T, error)] where the value is meaningful only without
    error. *)
Definition result (T : Type) : Type := (error + T)%type.

(** ** types.go *)

Record Memory := {
  Memory_ID : string;
  Memory_CreatedAt : string;
  Memory_UpdatedAt : string;
  Memory_Name : string;
  Memory_ExternalID : option string;
  Memory_Secret : option string;
  Memory_OwnerID : string;
  Memory_CollaboratorsCount : Z;
  Memory_SharedAt : option string }.

Record Import := {
  ID : string;
  Begin : Z;
  End_ : Z;
  Channel : Z;
  Size : Z;
  Progress : float }.

Definition MemoryImport := Import.
Definition GlossaryImport := Import.

Record Glossary := {
  Glossary_ID : string;
  Glossary_Name : string;
  Glossary_OwnerID : string;
  Glossary_CreatedAt : string;
  Glossary_UpdatedAt : string }.

Definition DocumentStatus := string.
Definition DocumentStatusInitialized : DocumentStatus := "initialized".
Definition DocumentStatusAnalyzing : DocumentStatus := "analyzing".
Definition DocumentStatusPaused : DocumentStatus := "paused".
Definition DocumentStatusReady : DocumentStatus := "ready".
Definition DocumentStatusTranslating : DocumentStatus := "translating".
Definition DocumentStatusTranslated : DocumentStatus := "translated".
Definition DocumentStatusError : DocumentStatus := "error".

Record DocumentUploadOptions := {
  AdaptTo : list string;
  Glossaries : list string;
  NoTrace : option bool }.

Record Document := {
  Document_ID : string;
  Status : DocumentStatus;
  Source : option string;
  Target : string;
  Filename : string;
  Document_CreatedAt : string;
  Document_UpdatedAt : string;
  Options : option DocumentUploadOptions;
  TranslatedChars : option Z;
  TotalChars : option Z;
  ErrorReason : option string }.

(** ** The standard library and the world, as far as the client sees them *)

(** What an [io.Reader] yields to [io.Copy]. *)
Definition Reader := result string.

(** What [httpClient.Do] and [io.ReadAll(resp.Body)] give. *)
Inductive DoResult :=
| DoError (err : error)
| DoResponse (StatusCode : Z) (Body : result string).

Record Request := {
  Method : string;
  URL : string;
  Header_ : gmap string string;
  Body_ : option string }.

(** The functions of the standard library that are left open: [Value] is
    what an [interface{}] request body holds, [json_Unmarshal_error] the
    error [json.Unmarshal] reports for a text it refuses, and the last four
    are [json.Unmarshal] into the structs of types.go. *)
Class Runtime := {
  Value : Type;
  strings_ToUpper : string -> string;
  json_Marshal : Value -> result string;
  url_Values_Encode : list (string * string) -> string;
  http_NewRequest_error : string -> string -> option error;
  multipart_escapeQuotes : string -> string;
  json_Unmarshal_error : string -> error;
  json_Unmarshal_Memory : string -> result Memory;
  json_Unmarshal_Glossary : string -> result Glossary;
  json_Unmarshal_Import : string -> result Import;
  json_Unmarshal_Document : string -> result Document }.

(** One exchange with the server: the clock reading of [httpDate], the
    boundary the multipart writer draws, and the answer to the request. *)
Record Exchange := {
  httpDate : string;
  randomBoundary : string;
  Do : Request -> DoResult }.

(** ** httpclient.go *)

Record Client := {
  accessKeyID : string;
  accessKeySecret : string;
  baseURL : string;
  sdkName : string;
  sdkVersion : string }.

Definition newClient (accessKeyID accessKeySecret baseURL : string) : Client :=
  {| accessKeyID := accessKeyID;
     accessKeySecret := accessKeySecret;
     baseURL := Strings.TrimRightSlash baseURL;
     sdkName := "lara-go";
     sdkVersion := "1.0.3" |}.

Definition NL : string := String "010" EmptyString.

(** The world of a wait loop, and what a loop does to it. *)

Definition Duration := Z.
Definition Second : Duration := 1000000000.

Record Poll := {
  since : nat -> Duration;   (** [time.Since(start)] in iteration [k] *)
  exchange : nat -> Exchange (** the exchange of status request [k] *) }.

Inductive event (T : Type) :=
| EvSleep (d : Duration)
| EvStatus (id : string) (r : result T)
| EvCallback (snapshot : T).
Arguments EvSleep {T} d.
Arguments EvStatus {T} id r.
Arguments EvCallback {T} snapshot.

Record LoopState (T : Type) := {
  iteration : nat;
  current : T;
  trace : list (event T) }.
Arguments iteration {T} l.
Arguments current {T} l.
Arguments trace {T} l.

(** What a wait returns: the pointer to [current], the error, and the
    trace. *)
Record Outcome (T : Type) := {
  snapshot : T;
  failure : option error;
  events : list (event T) }.
Arguments snapshot {T} o.
Arguments failure {T} o.
Arguments events {T} o.

Section WithRuntime.
Context {rt : Runtime}.

(** [Client.sign]. *)
Definition sign (c : Client) (method path contentMD5 contentType date : string)
  : string :=
  let stringToSign :=
    strings_ToUpper method +:+ NL +:+ path +:+ NL +:+ contentMD5 +:+ NL
      +:+ contentType +:+ NL +:+ date in
  let mac :=
    HMAC.New SHA256.Sum256 SHA256.BlockSize
      (Bytes.bytes_of_string (accessKeySecret c)) in
  let mac := HMAC.Write mac (Bytes.bytes_of_string stringToSign) in
  let signature := HMAC.Sum mac [] in
  Base64.EncodeToString signature.

(** The multipart branch of [request]: one form file per entry of [files],
    in the order the map yields them; the first reader that fails stops. *)
Fixpoint write_files (w : Multipart.Writer) (files : list (string * Reader))
  : result Multipart.Writer :=
  match files with
  | [] => inr w
  | (field, r) :: rest =>
      let fw := Multipart.CreateFormFile multipart_escapeQuotes w field field in
      match r with
      | inl err => inl (Errorf_w "failed to copy file data: " err)
      | inr data => write_files (Multipart.write fw data) rest
      end
  end.

(** The body of the request with its [contentMD5] and [contentType]
    (lines 53 to 92 of [request]). *)
Definition select_body (boundary : string) (body : option Value)
    (files : list (string * Reader)) : result (option string * string * string) :=
  if (0 <? List.length files)%nat then
    match write_files (Multipart.NewWriter boundary) files with
    | inl err => inl err
    | inr w =>
        let with_json :=
          match body with
          | Some b =>
              match json_Marshal b with
              | inl err => inl (Errorf_w "failed to marshal body for multipart: " err)
              | inr jsonBytes =>
                  inr (Multipart.WriteField multipart_escapeQuotes w "json" jsonBytes)
              end
          | None => inr w
          end in
        match with_json with
        | inl err => inl err
        | inr w =>
            let w := Multipart.Close w in
            let bodyBytes := Multipart.buf w in
            inr (Some bodyBytes,
                 Bytes.hex (MD5.Sum (Bytes.bytes_of_string bodyBytes)),
                 Multipart.FormDataContentType w)
        end
    end
  else
    match body with
    | Some b =>
        match json_Marshal b with
        | inl err => inl (Errorf_w "failed to marshal request body: " err)
        | inr bodyBytes =>
            inr (Some bodyBytes,
                 Bytes.hex (MD5.Sum (Bytes.bytes_of_string bodyBytes)),
                 "application/json"%string)
        end
    | None => inr (None, EmptyString, EmptyString)
    end.

Definition normalize_path (path : string) : string :=
  if negb (Strings.HasPrefix path "/") then "/" +:+ path else path.

Definition request_url (c : Client) (path : string) (params : list (string * string))
  : string :=
  if (0 <? List.length params)%nat
  then baseURL c +:+ path +:+ "?" +:+ url_Values_Encode params
  else baseURL c +:+ path.

(** The headers the transport sets itself (lines 99 to 108). *)
Definition fixed_headers (c : Client) (date method contentMD5 contentType : string)
  : gmap string string :=
  let h := Header.Set_ ∅ "X-HTTP-Method-Override" method in
  let h := Header.Set_ h "Date" date in
  let h := Header.Set_ h "X-Lara-SDK-Name" (sdkName c) in
  let h := Header.Set_ h "X-Lara-SDK-Version" (sdkVersion c) in
  let h := if negb (String.eqb contentType "")
           then Header.Set_ h "Content-Type" contentType else h in
  if negb (String.eqb contentMD5 "")
  then Header.Set_ h "Content-MD5" contentMD5 else h.

(** The caller's headers, in the order the map yields them (lines 110 to
    112). *)
Definition apply_headers (h : gmap string string) (headers : list (string * string))
  : gmap string string :=
  fold_left (fun h kv => Header.Set_ h (fst kv) (snd kv)) headers h.

(** The signature, when both credentials are there (lines 114 to 117). *)
Definition authorize (c : Client) (method path contentMD5 contentType : string)
    (h : gmap string string) : gmap string string :=
  if negb (String.eqb (accessKeyID c) "") && negb (String.eqb (accessKeySecret c) "")
  then
    let signature := sign c method path contentMD5 contentType (Header.Get h "Date") in
    Header.Set_ h "Authorization" ("Lara " +:+ accessKeyID c +:+ ":" +:+ signature)
  else h.

(** [request] up to the request that is sent (lines 40 to 117). *)
Definition new_request (c : Client) (x : Exchange) (method path : string)
    (params : list (string * string)) (body : option Value)
    (files : list (string * Reader)) (headers : list (string * string))
  : result Request :=
  let path := normalize_path path in
  let reqURL := request_url c path params in
  match select_body (randomBoundary x) body files with
  | inl err => inl err
  | inr (bodyReader, contentMD5, contentType) =>
      match http_NewRequest_error method reqURL with
      | Some err => inl (Errorf_w "failed to create request: " err)
      | None =>
          let h := fixed_headers c (httpDate x) method contentMD5 contentType in
          let h := apply_headers h headers in
          let h := authorize c method path contentMD5 contentType h in
          inr {| Method := method; URL := reqURL; Header_ := h; Body_ := bodyReader |}
      end
  end.

(** The error envelope [{status, error: {type, message}}]. *)
Record apiError := {
  apiError_Status : Z;
  apiError_Type : string;
  apiError_Message : string }.

Definition apiError_zero : apiError :=
  {| apiError_Status := 0; apiError_Type := ""; apiError_Message := "" |}.

(** A member value into a [string] field: [Some None] keeps the field
    ([null]), [None] is a type error. *)
Definition decode_string (v : Json.json) : option (option string) :=
  match v with
  | Json.JNull => Some None
  | Json.JString l => Some (Some (Decode.unquote l))
  | _ => None
  end.

Definition decode_int (v : Json.json) : option (option Z) :=
  match v with
  | Json.JNull => Some None
  | Json.JNumber l =>
      match Decode.int_of_number l with
      | Some z => Some (Some z)
      | None => None
      end
  | _ => None
  end.

(** The members of the inner [error] object, in order. *)
Definition decode_error_member (acc : option apiError) (kv : list ascii * Json.json)
  : option apiError :=
  match acc with
  | None => None
  | Some a =>
      if Decode.field_match "type" (fst kv) then
        match decode_string (snd kv) with
        | Some (Some s) =>
            Some {| apiError_Status := apiError_Status a; apiError_Type := s;
                    apiError_Message := apiError_Message a |}
        | Some None => Some a
        | None => None
        end
      else if Decode.field_match "message" (fst kv) then
        match decode_string (snd kv) with
        | Some (Some s) =>
            Some {| apiError_Status := apiError_Status a;
                    apiError_Type := apiError_Type a; apiError_Message := s |}
        | Some None => Some a
        | None => None
        end
      else Some a
  end.

Definition decode_apiError_member (acc : option apiError) (kv : list ascii * Json.json)
  : option apiError :=
  match acc with
  | None => None
  | Some a =>
      if Decode.field_match "status" (fst kv) then
        match decode_int (snd kv) with
        | Some (Some z) =>
            Some {| apiError_Status := z; apiError_Type := apiError_Type a;
                    apiError_Message := apiError_Message a |}
        | Some None => Some a
        | None => None
        end
      else if Decode.field_match "error" (fst kv) then
        match snd kv with
        | Json.JNull => Some a
        | Json.JObject ms => fold_left decode_error_member ms (Some a)
        | _ => None
        end
      else Some a
  end.

(** [json.Unmarshal(respBody, &apiError)]; [None] when it returns an
    error. *)
Definition json_Unmarshal_apiError (respBody : string) : option apiError :=
  match Json.parse (list_ascii_of_string respBody) with
  | Some Json.JNull => Some apiError_zero
  | Some (Json.JObject ms) => fold_left decode_apiError_member ms (Some apiError_zero)
  | _ => None
  end.

(** [request] from the answer on (lines 119 to 151). *)
Definition handle_response (r : DoResult) : result string :=
  match r with
  | DoError err =>
      if Strings.Contains (Error err) "timeout"
      then inl (LaraTimeoutError (Error err))
      else inl (LaraConnectionError (Error err))
  | DoResponse StatusCode (inl err) =>
      inl (Errorf_w "failed to read response body: " err)
  | DoResponse StatusCode (inr respBody) =>
      if (StatusCode <? 200) || (300 <=? StatusCode) then
        match json_Unmarshal_apiError respBody with
        | Some a =>
            if negb (String.eqb (apiError_Type a) "") then
              inl (LaraError (apiError_Status a) (apiError_Type a) (apiError_Message a))
            else inl (ErrorString ("API error: " +:+ respBody))
        | None => inl (ErrorString ("API error: " +:+ respBody))
        end
      else inr respBody
  end.

(** [Client.request]. *)
Definition request (c : Client) (x : Exchange) (method path : string)
    (params : list (string * string)) (body : option Value)
    (files : list (string * Reader)) (headers : list (string * string))
  : result string :=
  match new_request c x method path params body files headers with
  | inl err => inl err
  | inr req => handle_response (Do x req)
  end.

(** [Client.handleContent]; [unmarshal_result] is [json.Unmarshal] into the
    caller's destination. *)
Definition handleContent {T : Type} (respBytes : string)
    (unmarshal_result : string -> result T) : result T :=
  match Decode.Unmarshal_content (list_ascii_of_string respBytes) with
  | None =>
      inl (Errorf_w "failed to parse API response: " (json_Unmarshal_error respBytes))
  | Some content => unmarshal_result (string_of_list_ascii content)
  end.

Definition Client_Get {T : Type} (c : Client) (x : Exchange) (path : string)
    (params headers : list (string * string))
    (unmarshal_result : string -> result T) : result T :=
  match request c x "GET" path params None [] headers with
  | inl err => inl err
  | inr respBytes => handleContent respBytes unmarshal_result
  end.

Definition Client_Post {T : Type} (c : Client) (x : Exchange) (path : string)
    (body : option Value) (files : list (string * Reader))
    (headers : list (string * string))
    (unmarshal_result : string -> result T) : result T :=
  match request c x "POST" path [] body files headers with
  | inl err => inl err
  | inr respBytes => handleContent respBytes unmarshal_result
  end.

(** ** memories.go and glossaries.go: the getters *)

(** [MemoriesService.Get]: the returned pointer and error, [None] for
    [nil]. *)
Definition MemoriesService_Get (c : Client) (x : Exchange) (id : string)
  : option Memory * option error :=
  match Client_Get c x ("/memories/" +:+ id) [] [] json_Unmarshal_Memory with
  | inl err =>
      match err with
      | LaraError 404 _ _ => (None, None)
      | _ => (None, Some (Errorf_w "failed to get memory: " err))
      end
  | inr memory => (Some memory, None)
  end.

(** [GlossariesService.Get]. *)
Definition GlossariesService_Get (c : Client) (x : Exchange) (id : string)
  : option Glossary * option error :=
  match Client_Get c x ("/glossaries/" +:+ id) [] [] json_Unmarshal_Glossary with
  | inl err =>
      match err with
      | LaraError 404 _ _ => (None, None)
      | _ => (None, Some (Errorf_w "failed to get glossary: " err))
      end
  | inr glossary => (Some glossary, None)
  end.

(** ** The wait loops

    The loops of [MemoriesService.WaitForImport],
    [GlossariesService.WaitForImport] and
    [DocumentsService.waitForTranslation] are one skeleton.  The world of a
    loop is what the clock shows each time the loop reads it and the
    exchange behind each status request; what the loop does to the world
    (sleeps, status requests, callbacks) is recorded as a trace. *)

Section Skeleton.
Context {T : Type}.
(** The loop condition, the identifier polled, the poll interval, the
    timeout test on the clock reading with its error, the status request,
    what is returned for a failed status request, and the callback: it
    receives the address of [current] and may write through it. *)
Variable pending : T -> bool.
Variable ident : T -> string.
Variable pollingInterval : Duration.
Variable timed_out : Duration -> bool.
Variable timeout_error : error.
Variable getStatus : Exchange -> string -> result T.
Variable fetch_error : error -> error.
Variable updateCallback : option (T -> T).
Variable w : Poll.

(** One evaluation of the loop condition and, when it holds, one turn of
    the body. *)
Definition wait_step (st : LoopState T) : LoopState T + Outcome T :=
  if pending (current st) then
    if timed_out (since w (iteration st)) then
      inr {| snapshot := current st; failure := Some timeout_error;
             events := trace st |}
    else
      let id := ident (current st) in
      match getStatus (exchange w (iteration st)) id with
      | inl err =>
          inr {| snapshot := current st; failure := Some (fetch_error err);
                 events := trace st ++ [EvSleep pollingInterval; EvStatus id (inl err)] |}
      | inr updated =>
          let tr := trace st ++ [EvSleep pollingInterval; EvStatus id (inr updated)] in
          match updateCallback with
          | Some callback =>
              inl {| iteration := S (iteration st); current := callback updated;
                     trace := tr ++ [EvCallback updated] |}
          | None =>
              inl {| iteration := S (iteration st); current := updated; trace := tr |}
          end
      end
  else
    inr {| snapshot := current st; failure := None; events := trace st |}.

(** The loop, for at most [fuel] evaluations of its condition. *)
Fixpoint wait_loop (fuel : nat) (st : LoopState T) : option (Outcome T) :=
  match fuel with
  | O => None
  | S fuel' =>
      match wait_step st with
      | inr out => Some out
      | inl st' => wait_loop fuel' st'
      end
  end.

Definition wait (fuel : nat) (initial : T) : option (Outcome T) :=
  wait_loop fuel {| iteration := 0; current := initial; trace := [] |}.

End Skeleton.

(** [MemoriesService.GetImportStatus]. *)
Definition MemoriesService_GetImportStatus (c : Client) (x : Exchange) (id : string)
  : result MemoryImport :=
  match Client_Get c x ("/memories/imports/" +:+ id) [] [] json_Unmarshal_Import with
  | inl err => inl (Errorf_w "failed to get import status: " err)
  | inr memoryImport => inr memoryImport
  end.

(** [GlossariesService.GetImportStatus]. *)
Definition GlossariesService_GetImportStatus (c : Client) (x : Exchange) (id : string)
  : result GlossaryImport :=
  match Client_Get c x ("/glossaries/imports/" +:+ id) [] [] json_Unmarshal_Import with
  | inl err => inl (Errorf_w "failed to get glossary import status: " err)
  | inr glossaryImport => inr glossaryImport
  end.

(** [DocumentsService.Status]. *)
Definition DocumentsService_Status (c : Client) (x : Exchange) (id : string)
  : result Document :=
  match Client_Get c x ("/documents/" +:+ id) [] [] json_Unmarshal_Document with
  | inl err => inl (Errorf_w "failed to get document status: " err)
  | inr document => inr document
  end.

(** [current.Progress < 1.0]. *)
Definition in_progress (i : Import) : bool := (Progress i <? 1)%float.

(** [maxWaitTime != nil && time.Since(start) > *maxWaitTime]. *)
Definition past (maxWaitTime : option Duration) (elapsed : Duration) : bool :=
  match maxWaitTime with
  | Some m => m <? elapsed
  | None => false
  end.

(** [MemoriesService.WaitForImport]. *)
Definition MemoriesService_WaitForImport (fuel : nat) (c : Client) (w : Poll)
    (memoryImport : MemoryImport) (updateCallback : option (MemoryImport -> MemoryImport))
    (maxWaitTime : option Duration) : option (Outcome MemoryImport) :=
  wait in_progress ID (2 * Second) (past maxWaitTime)
       (ErrorString "timeout waiting for import to complete")
       (MemoriesService_GetImportStatus c) (fun err => err)
       updateCallback w fuel memoryImport.

Record GlossariesService := {
  client : Client;
  pollingInterval : Duration }.

Definition newGlossariesService (c : Client) : GlossariesService :=
  {| client := c; pollingInterval := 2 * Second |}.

(** [GlossariesService.WaitForImport]. *)
Definition GlossariesService_WaitForImport (fuel : nat) (g : GlossariesService)
    (w : Poll) (glossaryImport : GlossaryImport)
    (updateCallback : option (GlossaryImport -> GlossaryImport))
    (maxWaitTime : option Duration) : option (Outcome GlossaryImport) :=
  wait in_progress ID (pollingInterval g) (past maxWaitTime)
       (ErrorString "timeout waiting for glossary import to complete")
       (GlossariesService_GetImportStatus (client g))
       (Errorf_w "failed to get import status: ")
       updateCallback w fuel glossaryImport.

(** [current.Status != DocumentStatusTranslated &&
     current.Status != DocumentStatusError]. *)
Definition translating (d : Document) : bool :=
  negb (String.eqb (Status d) DocumentStatusTranslated)
  && negb (String.eqb (Status d) DocumentStatusError).

(** [DocumentsService.waitForTranslation]: [maxWaitTime] is the zero
    duration, and the loop has no callback. *)
Definition waitForTranslation (fuel : nat) (c : Client) (w : Poll) (document : Document)
  : option (Outcome Document) :=
  let maxWaitTime : Duration := 0 in
  wait translating Document_ID (2 * Second)
       (fun elapsed => (0 <? maxWaitTime) && (maxWaitTime <? elapsed))
       (ErrorString "timeout waiting for translation to complete")
       (DocumentsService_Status c) (fun err => err)
       None w fuel document.

Record DocumentTranslateOptions := {
  upload_options : DocumentUploadOptions;
  OutputFormat : string }.

(** [DocumentsService.TranslateWithOptions], given what the upload returned
    and what a download of a document in an output format returns. *)
Definition TranslateWithOptions (fuel : nat) (c : Client) (w : Poll)
    (upload : result Document) (download : string -> string -> result string)
    (options : option DocumentTranslateOptions) : option (result string) :=
  match upload with
  | inl err => Some (inl (Errorf_w "failed to upload document: " err))
  | inr document =>
      match waitForTranslation fuel c w document with
      | None => None
      | Some out =>
          match failure out with
          | Some err => Some (inl (Errorf_w "failed to wait for translation: " err))
          | None =>
              let document := snapshot out in
              if String.eqb (Status document) DocumentStatusError then
                let errorMsg :=
                  match ErrorReason document with
                  | Some reason => reason
                  | None => "translation failed"%string
                  end in
                Some (inl (ErrorString ("document translation failed: " +:+ errorMsg)))
              else
                let outputFormat :=
                  match options with
                  | Some o => OutputFormat o
                  | None => EmptyString
                  end in
                Some (download (Document_ID document) outputFormat)
          end
      end
  end.

End WithRuntime.

End Lara.

(** ** A runtime to run the client on

    Request bodies are JSON trees, marshalled to their compact text;
    upper-casing is the ASCII one; texts are decoded into the structs of
    types.go field by field, a member of another kind than its field being
    an error.  Numbers with an exponent or more than fifteen digits are
    not decoded into a [float64] here. *)

Module Model.
Import Json Lara.

Definition escapeQuotes (s : string) : string :=
  string_of_list_ascii
    (flat_map (fun c => if Ascii.eqb c "\" || Ascii.eqb c "034" then ["\"%char; c] else [c])
              (list_ascii_of_string s)).

(** The last member whose key names the field. *)
Definition member (name : string) (ms : list (list ascii * json)) : option json :=
  fold_left (fun acc kv => if Decode.field_match name (fst kv) then Some (snd kv) else acc)
            ms None.

Definition string_field (name : string) (ms : list (list ascii * json))
  : option (option string) :=
  match member name ms with
  | None => Some None
  | Some v => decode_string v
  end.

Definition int_field (name : string) (ms : list (list ascii * json))
  : option (option Z) :=
  match member name ms with
  | None => Some None
  | Some v => decode_int v
  end.

Fixpoint span_digits (s : list ascii) : list ascii * list ascii :=
  match s with
  | c :: r =>
      if is_digit c then let '(ds, rest) := span_digits r in (c :: ds, rest)
      else ([], s)
  | [] => ([], [])
  end.

Definition float_of_Z (z : Z) : float := PrimFloat.of_uint63 (Uint63.of_Z z).

(** A short decimal literal as the nearest [float64]: the quotient of two
    integers that are floats. *)
Definition float_of_number (lit : list ascii) : option float :=
  let '(neg, ds) :=
    match lit with
    | c :: r => if Ascii.eqb c "-" then (true, r) else (false, lit)
    | [] => (false, [])
    end in
  let '(ip, rest) := span_digits ds in
  let frac :=
    match rest with
    | [] => Some []
    | c :: fp =>
        if Ascii.eqb c "." then
          match span_digits fp with
          | (fs, []) => Some fs
          | _ => None
          end
        else None
    end in
  match frac, Decode.digits_val 0 ip with
  | Some fs, Some _ =>
      match Decode.digits_val 0 (ip ++ fs) with
      | Some m =>
          if (List.length (ip ++ fs) <=? 15)%nat then
            let q := (float_of_Z m / float_of_Z (10 ^ Z.of_nat (List.length fs)))%float in
            Some (if neg then (- q)%float else q)
          else None
      | None => None
      end
  | _, _ => None
  end.

Definition float_field (name : string) (ms : list (list ascii * json))
  : option (option float) :=
  match member name ms with
  | None | Some JNull => Some None
  | Some (JNumber l) =>
      match float_of_number l with
      | Some f => Some (Some f)
      | None => None
      end
  | Some _ => None
  end.

Definition type_error : error := ErrorString "json: cannot unmarshal into Go value".

Definition object_of (s : string) : result (list (list ascii * json)) :=
  match parse (list_ascii_of_string s) with
  | Some JNull => inr []
  | Some (JObject ms) => inr ms
  | _ => inl type_error
  end.

Definition or_default {A : Type} (d : A) (o : option A) : A := default d o.

Definition Unmarshal_Import (s : string) : result Import :=
  match object_of s with
  | inl err => inl err
  | inr ms =>
      match string_field "id" ms, int_field "begin" ms, int_field "end" ms,
            int_field "channel" ms, int_field "size" ms, float_field "progress" ms with
      | Some id, Some b, Some e, Some ch, Some sz, Some p =>
          inr {| ID := or_default EmptyString id; Begin := or_default 0 b;
                 End_ := or_default 0 e; Channel := or_default 0 ch;
                 Size := or_default 0 sz; Progress := or_default 0%float p |}
      | _, _, _, _, _, _ => inl type_error
      end
  end.

Definition Unmarshal_Memory (s : string) : result Memory :=
  match object_of s with
  | inl err => inl err
  | inr ms =>
      match string_field "id" ms, string_field "created_at" ms,
            string_field "updated_at" ms, string_field "name" ms,
            string_field "external_id" ms, string_field "secret" ms,
            string_field "owner_id" ms, int_field "collaborators_count" ms,
            string_field "shared_at" ms with
      | Some id, Some ca, Some ua, Some n, Some x, Some se, Some o, Some cc, Some sa =>
          inr {| Memory_ID := or_default EmptyString id;
                 Memory_CreatedAt := or_default EmptyString ca;
                 Memory_UpdatedAt := or_default EmptyString ua;
                 Memory_Name := or_default EmptyString n;
                 Memory_ExternalID := x; Memory_Secret := se;
                 Memory_OwnerID := or_default EmptyString o;
                 Memory_CollaboratorsCount := or_default 0 cc;
                 Memory_SharedAt := sa |}
      | _, _, _, _, _, _, _, _, _ => inl type_error
      end
  end.

Definition Unmarshal_Glossary (s : string) : result Glossary :=
  match object_of s with
  | inl err => inl err
  | inr ms =>
      match string_field "id" ms, string_field "name" ms, string_field "owner_id" ms,
            string_field "created_at" ms, string_field "updated_at" ms with
      | Some id, Some n, Some o, Some ca, Some ua =>
          inr {| Glossary_ID := or_default EmptyString id;
                 Glossary_Name := or_default EmptyString n;
                 Glossary_OwnerID := or_default EmptyString o;
                 Glossary_CreatedAt := or_default EmptyString ca;
                 Glossary_UpdatedAt := or_default EmptyString ua |}
      | _, _, _, _, _ => inl type_error
      end
  end.

(** The [options] member is left out. *)
Definition Unmarshal_Document (s : string) : result Document :=
  match object_of s with
  | inl err => inl err
  | inr ms =>
      match string_field "id" ms, string_field "status" ms, string_field "source" ms,
            string_field "target" ms, string_field "filename" ms,
            string_field "created_at" ms, string_field "updated_at" ms,
            int_field "translated_chars" ms, int_field "total_chars" ms,
            string_field "error_reason" ms with
      | Some id, Some st, Some src, Some tg, Some fn, Some ca, Some ua,
        Some tc, Some tot, Some er =>
          inr {| Document_ID := or_default EmptyString id;
                 Status := or_default EmptyString st;
                 Source := src; Target := or_default EmptyString tg;
                 Filename := or_default EmptyString fn;
                 Document_CreatedAt := or_default EmptyString ca;
                 Document_UpdatedAt := or_default EmptyString ua;
                 Options := None;
                 TranslatedChars := tc; TotalChars := tot; ErrorReason := er |}
      | _, _, _, _, _, _, _, _, _, _ => inl type_error
      end
  end.

#[export] Instance runtime : Runtime := {|
  Value := json;
  strings_ToUpper := Strings.ToUpperASCII;
  json_Marshal := fun v => inr (string_of_list_ascii (render v));
  url_Values_Encode :=
    fun params =>
      fold_right (fun kv acc =>
                    fst kv +:+ "=" +:+ snd kv
                      +:+ (if String.eqb acc "" then "" else "&" +:+ acc))
                 EmptyString params;
  http_NewRequest_error := fun _ _ => None;
  multipart_escapeQuotes := escapeQuotes;
  json_Unmarshal_error := fun _ => ErrorString "json: invalid input";
  json_Unmarshal_Memory := Unmarshal_Memory;
  json_Unmarshal_Glossary := Unmarshal_Glossary;
  json_Unmarshal_Import := Unmarshal_Import;
  json_Unmarshal_Document := Unmarshal_Document |}.

(** A server that answers each request with a fixed status and body. *)
Definition answers (StatusCode : Z) (body : string) : Exchange :=
  {| httpDate := "Mon, 02 Jan 2006 15:04:05 GMT";
     randomBoundary := "XXBOUNDARYXX";
     Do := fun _ => DoResponse StatusCode (inr body) |}.

(** A server out of reach. *)
Definition unreachable (msg : string) : Exchange :=
  {| httpDate := "Mon, 02 Jan 2006 15:04:05 GMT";
     randomBoundary := "XXBOUNDARYXX";
     Do := fun _ => DoError (ErrorString msg) |}.

Definition the_client : Client :=
  newClient "key" "secret" "https://api.laratranslate.com/".

End Model.

(** * The wait loops: what a run looks like *)

Section SkeletonLemmas.
Import Lara.
Context {T : Type}.
Variable pending : T -> bool.
Variable ident : T -> string.
Variable interval : Duration.
Variable timed_out : Duration -> bool.
Variable timeout_error : error.
Variable getStatus : Exchange -> string -> result T.
Variable fetch_error : error -> error.
Variable updateCallback : option (T -> T).
Variable w : Poll.

Abbreviation step :=
  (wait_step pending ident interval timed_out timeout_error getStatus fetch_error
             updateCallback w).
Abbreviation loop :=
  (wait_loop pending ident interval timed_out timeout_error getStatus fetch_error
             updateCallback w).

(** The state in which the loop evaluates its condition for the [k]-th time
    after [st], when it gets there. *)
Fixpoint wait_iter (k : nat) (st : LoopState T) : option (LoopState T) :=
  match k with
  | O => Some st
  | S k' =>
      match step st with
      | inl st' => wait_iter k' st'
      | inr _ => None
      end
  end.

(** What the callback leaves in [current]. *)
Definition seen (updated : T) : T :=
  match updateCallback with
  | Some callback => callback updated
  | None => updated
  end.

(** The events of one full turn of the loop body. *)
Definition turn_events (cur updated : T) : list (event T) :=
  [EvSleep interval; EvStatus (ident cur) (inr updated)]
    ++ match updateCallback with
       | Some _ => [EvCallback updated]
       | None => []
       end.

(** [turns cur tr cur']: [tr] is the trace of full turns that lead from the
    snapshot [cur] to the snapshot [cur']. *)
Inductive turns : T -> list (event T) -> T -> Prop :=
| turns_nil (cur : T) : turns cur [] cur
| turns_cons (cur updated cur' : T) (tr : list (event T)) :
    turns (seen updated) tr cur' ->
    turns cur (turn_events cur updated ++ tr) cur'.

Definition statuses (tr : list (event T)) : list T :=
  flat_map (fun e => match e with EvStatus _ (inr u) => [u] | _ => [] end) tr.

Definition callbacks (tr : list (event T)) : list T :=
  flat_map (fun e => match e with EvCallback u => [u] | _ => [] end) tr.

Definition sleeps (tr : list (event T)) : nat :=
  List.length
    (List.filter (fun e => match e with EvSleep _ => true | _ => false end) tr).

Definition requests (tr : list (event T)) : nat :=
  List.length
    (List.filter (fun e => match e with EvStatus _ _ => true | _ => false end) tr).

Lemma wait_loop_iter (fuel : nat) :
  forall st out,
    loop fuel st = Some out <->
    exists k st', (k < fuel)%nat /\ wait_iter k st = Some st' /\ step st' = inr out.
Proof.
  induction fuel as [|fuel IH]; intros st out; cbn [wait_loop].
  - split; [discriminate | intros (k & _ & Hk & _); lia].
  - destruct (step st) as [st1|out1] eqn:E.
    + rewrite IH. split.
      * intros (k & st' & Hk & Hi & Hs). exists (S k), st'.
        cbn [wait_iter]. rewrite E. repeat split; [lia | assumption | assumption].
      * intros (k & st' & Hk & Hi & Hs). destruct k as [|k]; cbn [wait_iter] in Hi.
        -- inversion Hi; subst. congruence.
        -- rewrite E in Hi. exists k, st'. repeat split; [lia | assumption | assumption].
    + split.
      * intros H; inversion H; subst. exists 0%nat, st. repeat split; [lia | assumption].
      * intros (k & st' & Hk & Hi & Hs). destruct k as [|k]; cbn [wait_iter] in Hi.
        -- inversion Hi; subst. congruence.
        -- rewrite E in Hi. discriminate.
Qed.

(** More fuel does not change the outcome. *)
Lemma wait_loop_mono (fuel fuel' : nat) (st : LoopState T) (out : Outcome T) :
  loop fuel st = Some out -> (fuel <= fuel')%nat -> loop fuel' st = Some out.
Proof.
  rewrite !wait_loop_iter. intros (k & st' & Hk & H) Hle.
  exists k, st'. split; [lia | exact H].
Qed.

Lemma turns_snoc (cur cur' updated : T) (tr : list (event T)) :
  turns cur tr cur' ->
  turns cur (tr ++ turn_events cur' updated) (seen updated).
Proof.
  induction 1 as [cur|cur u cur' tr H IH].
  - cbn [app]. rewrite <- (app_nil_r (turn_events cur updated)).
    apply turns_cons, turns_nil.
  - rewrite <- app_assoc. apply turns_cons, IH.
Qed.

Lemma turns_app (a b c : T) (tr1 tr2 : list (event T)) :
  turns a tr1 b -> turns b tr2 c -> turns a (tr1 ++ tr2) c.
Proof.
  induction 1 as [cur|cur u cur' tr H IH]; intros H2; [exact H2|].
  rewrite <- app_assoc. apply turns_cons, IH, H2.
Qed.

(** One turn of the body, when the condition holds, the clock has not
    passed the limit and the status request succeeds. *)
Lemma wait_step_turn (st : LoopState T) (updated : T) :
  pending (current st) = true ->
  timed_out (since w (iteration st)) = false ->
  getStatus (exchange w (iteration st)) (ident (current st)) = inr updated ->
  step st = inl {| iteration := S (iteration st); current := seen updated;
                   trace := trace st ++ turn_events (current st) updated |}.
Proof.
  intros Hp Ht Hg. unfold wait_step, seen, turn_events. rewrite Hp, Ht, Hg.
  destruct updateCallback; cbn [app]; [rewrite <- app_assoc|]; reflexivity.
Qed.

Lemma wait_step_inl (st st' : LoopState T) :
  step st = inl st' ->
  exists updated,
    pending (current st) = true /\
    timed_out (since w (iteration st)) = false /\
    getStatus (exchange w (iteration st)) (ident (current st)) = inr updated /\
    st' = {| iteration := S (iteration st); current := seen updated;
             trace := trace st ++ turn_events (current st) updated |}.
Proof.
  intros H.
  destruct (pending (current st)) eqn:Hp;
    [|unfold wait_step in H; rewrite Hp in H; discriminate].
  destruct (timed_out (since w (iteration st))) eqn:Ht;
    [unfold wait_step in H; rewrite Hp, Ht in H; discriminate|].
  destruct (getStatus (exchange w (iteration st)) (ident (current st)))
    as [err|updated] eqn:Hg;
    [unfold wait_step in H; rewrite Hp, Ht, Hg in H; discriminate|].
  exists updated. rewrite (wait_step_turn st updated Hp Ht Hg) in H.
  inversion H; subst. repeat split; reflexivity.
Qed.

(** The three ways the loop ends. *)
Lemma wait_step_inr (st : LoopState T) (out : Outcome T) :
  step st = inr out ->
  (pending (current st) = false /\
   out = {| snapshot := current st; failure := None; events := trace st |})
  \/ (pending (current st) = true /\
      timed_out (since w (iteration st)) = true /\
      out = {| snapshot := current st; failure := Some timeout_error;
               events := trace st |})
  \/ (exists err,
        pending (current st) = true /\
        timed_out (since w (iteration st)) = false /\
        getStatus (exchange w (iteration st)) (ident (current st)) = inl err /\
        out = {| snapshot := current st; failure := Some (fetch_error err);
                 events := trace st
                   ++ [EvSleep interval; EvStatus (ident (current st)) (inl err)] |}).
Proof.
  unfold wait_step. intros H.
  destruct (pending (current st)); [|left; inversion H; auto].
  destruct (timed_out (since w (iteration st)));
    [right; left; inversion H; auto|].
  destruct (getStatus (exchange w (iteration st)) (ident (current st)))
    as [err|updated] eqn:Hg.
  - right; right. exists err. inversion H; auto.
  - destruct updateCallback; discriminate.
Qed.

(** Every state the loop reaches: its trace is made of full turns, one for
    each iteration, and lead from the initial snapshot to the current
    one. *)
Lemma wait_iter_turns (k : nat) :
  forall st st',
    wait_iter k st = Some st' ->
    exists tr,
      trace st' = trace st ++ tr /\ turns (current st) tr (current st') /\
      iteration st' = (iteration st + k)%nat /\
      List.length (statuses tr) = k.
Proof.
  induction k as [|k IH]; intros st st' H; cbn [wait_iter] in H.
  - inversion H; subst. exists []. rewrite app_nil_r.
    repeat split; [constructor | lia].
  - destruct (step st) as [st1|] eqn:E; [|discriminate].
    destruct (wait_step_inl _ _ E) as (u & Hp & Ht & Hg & ->).
    destruct (IH _ _ H) as (tr & Htr & Hturns & Hit & Hlen).
    cbn [trace current iteration] in *.
    exists (turn_events (current st) u ++ tr). repeat split.
    + rewrite Htr, <- app_assoc. reflexivity.
    + apply turns_cons, Hturns.
    + lia.
    + unfold statuses in *. rewrite flat_map_app, length_app, Hlen.
      unfold turn_events. destruct updateCallback; reflexivity.
Qed.

Lemma turns_counts (a b : T) (tr : list (event T)) :
  turns a tr b ->
  sleeps tr = List.length (statuses tr) /\
  requests tr = List.length (statuses tr) /\
  callbacks tr = match updateCallback with Some _ => statuses tr | None => [] end.
Proof.
  unfold sleeps, requests, statuses, callbacks.
  induction 1 as [cur|cur u cur' tr H (IH1 & IH2 & IH3)].
  - destruct updateCallback; repeat split; reflexivity.
  - rewrite !List.filter_app, !flat_map_app, !length_app, IH1, IH2, IH3.
    unfold turn_events. destruct updateCallback; repeat split; reflexivity.
Qed.

(** The snapshot a sequence of turns ends on: the last one fetched, as the
    callback left it, or the first one when nothing was fetched. *)
Lemma turns_last (a b : T) (tr : list (event T)) :
  turns a tr b ->
  b = match last (statuses tr) with
      | Some u => seen u
      | None => a
      end.
Proof.
  induction 1 as [cur|cur u cur' tr H IH]; [reflexivity|].
  assert (statuses (turn_events cur u ++ tr) = u :: statuses tr) as ->.
  { unfold statuses, turn_events. rewrite flat_map_app.
    destruct updateCallback; reflexivity. }
  rewrite last_cons, IH. destruct (last (statuses tr)); reflexivity.
Qed.

End SkeletonLemmas.

(** * Comparisons of [float64] values with [1.0] *)

Lemma SF_ge_not_lt (m : positive) (e : Z) (y : spec_float) :
  SFleb (S754_finite false m e) y = true ->
  SFltb y (S754_finite false m e) = false.
Proof.
  unfold SFleb, SFltb, SFcompare.
  destruct y as [s'|s'| |s' m' e']; try destruct s'; try congruence.
  pose proof (Pos.compare_cont_antisym m' m Eq) as Hm. cbn [CompOpp] in Hm.
  rewrite (Z.compare_antisym e' e), <- Hm.
  destruct (e' ?= e)%Z; cbn [CompOpp]; try congruence.
  destruct (Pos.compare_cont Eq m' m); cbn [CompOpp]; congruence.
Qed.

(** A progress of at least [1.0] is not below [1.0]. *)
Lemma progress_ge_1_complete (i : Lara.Import) :
  (1 <=? Lara.Progress i)%float = true -> Lara.in_progress i = false.
Proof.
  unfold Lara.in_progress. rewrite leb_spec, ltb_spec.
  assert (Prim2SF 1 = S754_finite false 4503599627370496 (-52)) as ->
      by (vm_compute; reflexivity).
  apply SF_ge_not_lt.
Qed.

(** * The wait loops: from reached states to outcomes *)

Section WaitLemmas.
Import Lara.
Context {T : Type}.
Variable pending : T -> bool.
Variable ident : T -> string.
Variable interval : Duration.
Variable timed_out : Duration -> bool.
Variable timeout_error : error.
Variable getStatus : Exchange -> string -> result T.
Variable fetch_error : error -> error.
Variable updateCallback : option (T -> T).
Variable w : Poll.

Abbreviation step' :=
  (wait_step pending ident interval timed_out timeout_error getStatus fetch_error
             updateCallback w).
Abbreviation wait' :=
  (wait pending ident interval timed_out timeout_error getStatus fetch_error
        updateCallback w).

(** The state at the [k]-th evaluation of the loop condition of a wait
    that starts from [initial]. *)
Definition wait_state (k : nat) (initial : T) : option (LoopState T) :=
  wait_iter pending ident interval timed_out timeout_error getStatus fetch_error
            updateCallback w k
            {| iteration := 0; current := initial; trace := [] |}.

Lemma wait_immediate (initial : T) (fuel : nat) :
  pending initial = false ->
  wait' (S fuel) initial
  = Some {| snapshot := initial; failure := None; events := [] |}.
Proof.
  intros H. unfold wait. cbn [wait_loop]. unfold wait_step.
  cbn [current trace]. rewrite H. reflexivity.
Qed.

(** Enough fuel gives the outcome of the state the loop ends in. *)
Lemma wait_reaches (initial : T) (k fuel : nat) (st : LoopState T) (out : Outcome T) :
  wait_state k initial = Some st -> step' st = inr out -> (k < fuel)%nat ->
  wait' fuel initial = Some out.
Proof.
  intros Hk Hs Hf. unfold wait. apply wait_loop_iter. exists k, st. auto.
Qed.

Lemma wait_outcome (initial : T) (fuel : nat) (out : Outcome T) :
  wait' fuel initial = Some out ->
  exists k st,
    (k < fuel)%nat /\ wait_state k initial = Some st /\ step' st = inr out.
Proof. unfold wait. intros H. apply wait_loop_iter in H. exact H. Qed.

(** A reached state holds the last snapshot fetched, as the callback left
    it, after as many sleeps, requests and successful fetches as
    iterations. *)
Lemma wait_state_turns (initial : T) (k : nat) (st : LoopState T) :
  wait_state k initial = Some st ->
  turns ident interval updateCallback initial (trace st) (current st)
  /\ iteration st = k
  /\ List.length (statuses (trace st)) = k
  /\ sleeps (trace st) = k
  /\ requests (trace st) = k
  /\ callbacks (trace st)
     = match updateCallback with Some _ => statuses (trace st) | None => [] end
  /\ current st = match last (statuses (trace st)) with
                  | Some u => seen updateCallback u
                  | None => initial
                  end.
Proof.
  intros H. apply wait_iter_turns in H as (tr & Htr & Hturns & Hit & Hlen).
  cbn [trace current iteration app] in *. rewrite Htr.
  destruct (turns_counts _ _ _ _ _ _ Hturns) as (Hs & Hr & Hc).
  repeat split; try assumption; try lia.
  apply (turns_last _ _ _ _ _ _ Hturns).
Qed.

(** The trace of every outcome: full turns, then at most one sleep with a
    failed status request. *)
Lemma wait_outcome_shape (initial : T) (fuel : nat) (out : Outcome T) :
  wait' fuel initial = Some out ->
  exists tr,
    turns ident interval updateCallback initial tr (snapshot out)
    /\ (events out = tr
        \/ exists err,
             events out
             = tr ++ [EvSleep interval; EvStatus (ident (snapshot out)) (inl err)])
    /\ callbacks (events out)
       = match updateCallback with Some _ => statuses (events out) | None => [] end
    /\ sleeps (events out) = requests (events out).
Proof.
  intros H. apply wait_outcome in H as (k & st & _ & Hst & Hstep).
  apply wait_state_turns in Hst as (Hturns & _ & _ & Hs & Hr & Hc & _).
  exists (trace st).
  apply wait_step_inr in Hstep
      as [(_ & ->)|[(_ & _ & ->)|(err & _ & _ & _ & ->)]];
    cbn [snapshot events]; (split; [exact Hturns|]).
  - split; [left; reflexivity|]. split; [exact Hc | congruence].
  - split; [left; reflexivity|]. split; [exact Hc | congruence].
  - split; [right; exists err; reflexivity|].
    unfold callbacks, statuses, sleeps, requests in *.
    rewrite !flat_map_app, !List.filter_app, !length_app, Hs, Hr.
    cbn. rewrite !app_nil_r. split; [exact Hc | reflexivity].
Qed.

End WaitLemmas.

(** * The request signer *)

(** HMAC with SHA-256 as RFC 2104 writes it:
    [H((K0 xor opad) || H((K0 xor ipad) || text))], where [K0] is the key,
    hashed first when longer than a block, padded with zeros to a block. *)
Definition HMAC_SHA256 (key text : list byte) : list byte :=
  let k := if (64 <? List.length key)%nat then SHA256.Sum256 key else key in
  let k0 := k ++ repeat x00 (64 - List.length k) in
  SHA256.Sum256
    (map (HMAC.xor_byte 92) k0
       ++ SHA256.Sum256 (map (HMAC.xor_byte 54) k0 ++ text)).

(** The signature as the specification words it: the base64 text of the
    HMAC-SHA256, keyed by the secret, of the fields joined by newlines. *)
Definition signature_of (secret : string) (fields : list string) : string :=
  Base64.EncodeToString
    (HMAC_SHA256 (Bytes.bytes_of_string secret)
       (Bytes.bytes_of_string (String.concat Lara.NL fields))).

Example sign_known_answer :
  Lara.sign (rt := Model.runtime) Model.the_client "get" "/memories" "" "" "Mon, 02 Jan 2006 15:04:05 GMT"
  = "H3KbVIYT7O+efuhjMMAKkGmHO64Sf36psQGvQIvs8QE="%string.
Proof. vm_compute. reflexivity. Qed.

(** * The import wait loops *)

(** Worlds to run the loops in. *)
Module Scenario.
Import Lara.

Definition import_body (progress : string) : string :=
  requote "{'content':{'id':'imp_1','begin':0,'end':10,'channel':2,'size':10,'progress':"
    +:+ progress +:+ "}}".

Definition started : Import :=
  {| ID := "imp_1"; Begin := 0; End_ := 10; Channel := 2; Size := 10;
     Progress := 0%float |}.

Definition finished : Import :=
  {| ID := "imp_1"; Begin := 0; End_ := 10; Channel := 2; Size := 10;
     Progress := 1%float |}.

(** Successive status requests answer progress 0.3, 0.7 and 1.0; each turn
    of a loop takes 2.1 seconds. *)
Definition steady : Poll :=
  {| since := fun k => Z.of_nat k * 2100000000;
     exchange := fun k =>
       Model.answers 200 (import_body (nth k ["0.3"; "0.7"; "1.0"] "1.0")%string) |}.

(** The server cannot be reached. *)
Definition down : Poll :=
  {| since := fun k => Z.of_nat k * 2100000000;
     exchange := fun _ => Model.unreachable "dial tcp: connection refused" |}.

(** A callback that only looks at the snapshot. *)
Definition observe : option (Import -> Import) := Some (fun i => i).

(** A callback that writes through the pointer it receives. *)
Definition scribble : option (Import -> Import) :=
  Some (fun i => {| ID := ID i; Begin := Begin i; End_ := End_ i;
                    Channel := Channel i; Size := 99; Progress := Progress i |}).

Definition glossaries : GlossariesService := newGlossariesService Model.the_client.

End Scenario.

Section ImportLoops.
Import Lara.
Context {rt : Runtime}.

(** The state of [MemoriesService.WaitForImport] at the [k]-th evaluation
    of its loop condition. *)
Definition memories_state (c : Client) (w : Poll)
    (updateCallback : option (Import -> Import)) (maxWaitTime : option Duration)
    (k : nat) (memoryImport : Import) : option (LoopState Import) :=
  wait_state in_progress ID (2 * Second) (past maxWaitTime)
    (ErrorString "timeout waiting for import to complete")
    (MemoriesService_GetImportStatus c) (fun err => err) updateCallback w k
    memoryImport.

(** The same for [GlossariesService.WaitForImport]. *)
Definition glossaries_state (g : GlossariesService) (w : Poll)
    (updateCallback : option (Import -> Import)) (maxWaitTime : option Duration)
    (k : nat) (glossaryImport : Import) : option (LoopState Import) :=
  wait_state in_progress ID (pollingInterval g) (past maxWaitTime)
    (ErrorString "timeout waiting for glossary import to complete")
    (GlossariesService_GetImportStatus (client g))
    (Errorf_w "failed to get import status: ") updateCallback w k glossaryImport.

End ImportLoops.

Section ImportLoopLemmas.
Import Lara.
Context {rt : Runtime}.

(** A failed status request of either service is a wrapped error. *)
Lemma MemoriesService_GetImportStatus_error (c : Client) (x : Exchange) (id : string)
    (err : error) :
  MemoriesService_GetImportStatus c x id = inl err ->
  exists e, err = Errorf_w "failed to get import status: " e.
Proof.
  unfold MemoriesService_GetImportStatus.
  destruct (Client_Get c x _ [] [] json_Unmarshal_Import) as [e|i];
    intros H; inversion H; eauto.
Qed.

Lemma GlossariesService_GetImportStatus_error (c : Client) (x : Exchange) (id : string)
    (err : error) :
  GlossariesService_GetImportStatus c x id = inl err ->
  exists e, err = Errorf_w "failed to get glossary import status: " e.
Proof.
  unfold GlossariesService_GetImportStatus.
  destruct (Client_Get c x _ [] [] json_Unmarshal_Import) as [e|i];
    intros H; inversion H; eauto.
Qed.

Lemma past_true (m elapsed : Duration) : m < elapsed -> past (Some m) elapsed = true.
Proof. intros H. apply Z.ltb_lt, H. Qed.

Lemma past_inv (maxWaitTime : option Duration) (elapsed : Duration) :
  past maxWaitTime elapsed = true -> exists m, maxWaitTime = Some m /\ m < elapsed.
Proof.
  destruct maxWaitTime as [m|]; cbn; [|discriminate].
  intros H. exists m. split; [reflexivity | apply Z.ltb_lt, H].
Qed.

End ImportLoopLemmas.

(** An error is never the error it wraps. *)
Lemma WrapError_neq (err : Lara.error) (msg : string) : Lara.WrapError msg err <> err.
Proof.
  revert msg.
  induction err as [s t m0|m0|m0|m0|m0 e IH]; intros msg H; try discriminate H.
  inversion H as [[Hm He]]. exact (IH _ He).
Qed.

(** * The document wait loop *)

Module DocumentScenario.
Import Lara.

Definition uploaded : Document :=
  {| Document_ID := "doc_1"; Status := DocumentStatusTranslating; Source := None;
     Target := "it-IT"; Filename := "a.docx"; Document_CreatedAt := EmptyString;
     Document_UpdatedAt := EmptyString; Options := None; TranslatedChars := None;
     TotalChars := None; ErrorReason := None |}.

Definition document_body (status extra : string) : string :=
  requote "{'content':{'id':'doc_1','status':'" +:+ status
    +:+ requote "','target':'it-IT','filename':'a.docx'" +:+ extra +:+ "}}".

(** The translation goes wrong at the second status request. *)
Definition failing : Poll :=
  {| since := fun k => Z.of_nat k * 2100000000;
     exchange := fun k =>
       match k with
       | O => Model.answers 200 (document_body "translating" EmptyString)
       | _ =>
           Model.answers 200
             (document_body "error" (requote ",'error_reason':'unsupported file'"))
       end |}.

End DocumentScenario.

Section DocumentLoop.
Import Lara.
Context {rt : Runtime}.

(** The state of [waitForTranslation] at the [k]-th evaluation of its loop
    condition. *)
Definition documents_state (c : Client) (w : Poll) (k : nat) (document : Document)
  : option (LoopState Document) :=
  wait_state translating Document_ID (2 * Second)
    (fun elapsed => (0 <? 0) && (0 <? elapsed))
    (ErrorString "timeout waiting for translation to complete")
    (DocumentsService_Status c) (fun err => err) None w k document.

(** The terminal values of a document's status. *)
Definition terminal (d : Document) : Prop :=
  Status d = DocumentStatusTranslated \/ Status d = DocumentStatusError.

Lemma translating_false (d : Document) : translating d = false <-> terminal d.
Proof.
  unfold translating, terminal.
  destruct (String.eqb_spec (Status d) DocumentStatusTranslated) as [E1|N1];
    destruct (String.eqb_spec (Status d) DocumentStatusError) as [E2|N2];
    cbn; split; intros H; auto; try discriminate H.
  destruct H; contradiction.
Qed.

End DocumentLoop.

(** * The outcome of an exchange *)

Section Classification.
Import Lara.

(** The four kinds of failure of the specification. *)
Inductive kind := TimeoutFailure | ConnectionFailure | APIFailure | GenericAPIFailure.

(** The kind a failure value belongs to: the three error types of
    errors.go, and the plain error whose message starts with [API error: ]. *)
Definition failure_kind (e : error) : option kind :=
  match e with
  | LaraTimeoutError _ => Some TimeoutFailure
  | LaraConnectionError _ => Some ConnectionFailure
  | LaraError _ _ _ => Some APIFailure
  | ErrorString m =>
      if String.prefix "API error: " m then Some GenericAPIFailure else None
  | WrapError _ _ => None
  end.

(** [resp.StatusCode < 200 || resp.StatusCode >= 300]. *)
Definition not_2xx (StatusCode : Z) : Prop := StatusCode < 200 \/ 300 <= StatusCode.

Lemma not_2xx_test (StatusCode : Z) :
  not_2xx StatusCode -> (StatusCode <? 200) || (300 <=? StatusCode) = true.
Proof.
  unfold not_2xx. intros [H|H]; apply orb_true_iff; [left | right].
  - apply Z.ltb_lt, H.
  - apply Z.leb_le, H.
Qed.

Lemma prefix_append (p s : string) : String.prefix p (p +:+ s) = true.
Proof.
  induction p as [|c p IH]; [destruct s; reflexivity|].
  change (String c p +:+ s) with (String c (p +:+ s)).
  cbn [String.prefix].
  destruct (Ascii.ascii_dec c c) as [_|N]; [exact IH | contradiction].
Qed.

Definition not_found_body : string :=
  requote "{'status':404,'error':{'type':'NotFound','message':'nope'}}".

End Classification.

(** * The getters of memories and glossaries *)

Section Getters.
Import Lara.
Context {rt : Runtime}.

(** The test of both getters: the error is a [LaraError] and its status
    is 404. *)
Definition is_not_found (err : error) : bool :=
  match err with
  | LaraError Status _ _ => Status =? 404
  | _ => false
  end.

Lemma not_found_cases {A : Type} (err : error) (a b : A) :
  match err with
  | LaraError 404 _ _ => a
  | _ => b
  end = if is_not_found err then a else b.
Proof.
  destruct err as [s t m| | | |]; try reflexivity.
  cbn [is_not_found]. destruct (Z.eqb_spec s 404) as [->|N]; [reflexivity|].
  destruct s as [|p|p]; try reflexivity.
  repeat (destruct p as [p|p|]; try reflexivity).
  contradiction N; reflexivity.
Qed.

Lemma MemoriesService_Get_eq (c : Client) (x : Exchange) (id : string) :
  MemoriesService_Get c x id =
  match Client_Get c x ("/memories/" +:+ id) [] [] json_Unmarshal_Memory with
  | inl err =>
      if is_not_found err then (None, None)
      else (None, Some (Errorf_w "failed to get memory: " err))
  | inr memory => (Some memory, None)
  end.
Proof.
  unfold MemoriesService_Get.
  destruct (Client_Get c x _ [] [] json_Unmarshal_Memory) as [err|memory];
    [apply not_found_cases | reflexivity].
Qed.

Lemma GlossariesService_Get_eq (c : Client) (x : Exchange) (id : string) :
  GlossariesService_Get c x id =
  match Client_Get c x ("/glossaries/" +:+ id) [] [] json_Unmarshal_Glossary with
  | inl err =>
      if is_not_found err then (None, None)
      else (None, Some (Errorf_w "failed to get glossary: " err))
  | inr glossary => (Some glossary, None)
  end.
Proof.
  unfold GlossariesService_Get.
  destruct (Client_Get c x _ [] [] json_Unmarshal_Glossary) as [err|glossary];
    [apply not_found_cases | reflexivity].
Qed.

(** A [GET] without parameters, body, files or headers: the request that
    is sent, unless its construction fails. *)
Lemma Client_Get_eq {T : Type} (c : Client) (x : Exchange) (path : string)
    (unmarshal_result : string -> result T) :
  Client_Get c x path [] [] unmarshal_result =
  match new_request c x "GET" path [] None [] [] with
  | inl err => inl err
  | inr req =>
      match handle_response (Do x req) with
      | inl err => inl err
      | inr respBytes => handleContent respBytes unmarshal_result
      end
  end.
Proof.
  unfold Client_Get, request.
  destruct (new_request c x "GET" path [] None [] []); reflexivity.
Qed.

Lemma handle_response_api (StatusCode : Z) (respBody : string) (a : apiError) :
  not_2xx StatusCode ->
  json_Unmarshal_apiError respBody = Some a ->
  apiError_Type a <> EmptyString ->
  handle_response (DoResponse StatusCode (inr respBody))
  = inl (LaraError (apiError_Status a) (apiError_Type a) (apiError_Message a)).
Proof.
  intros Hs Ha Ht. cbn [handle_response].
  rewrite (not_2xx_test _ Hs), Ha.
  destruct (String.eqb_spec (apiError_Type a) ""); [contradiction | reflexivity].
Qed.

Lemma handle_response_2xx (StatusCode : Z) (respBody : string) :
  200 <= StatusCode < 300 ->
  handle_response (DoResponse StatusCode (inr respBody)) = inr respBody.
Proof.
  intros [H1 H2]. cbn [handle_response].
  rewrite (proj2 (Z.ltb_ge _ _) H1), (proj2 (Z.leb_gt _ _) H2). reflexivity.
Qed.

End Getters.

(** * The content envelope *)

Section Envelope.
Import Json.

(** The text [{"content": X}], with the white space JSON allows between
    its tokens. *)
Definition envelope (w1 w2 w3 w4 w5 w6 : list ascii) (X : list ascii) : list ascii :=
  w1 ++ "{"%char :: w2 ++ "034"%char :: list_ascii_of_string "content"
     ++ "034"%char :: w3 ++ ":"%char :: w4 ++ X ++ w5 ++ "}"%char :: w6.

(** The envelope as a server writes it. *)
Definition compact_envelope (X : list ascii) : list ascii :=
  envelope [] [] [] [] [] [] X.

(** [json.Unmarshal] into a destination that takes any value, which then
    holds the tree of the text. *)
Definition Unmarshal_tree (data : string) : Lara.result json :=
  match parse (list_ascii_of_string data) with
  | Some v => inr v
  | None => inl (Lara.ErrorString "invalid character")
  end.

Lemma raw_members_quote (fuel : nat) (r0 : list ascii) :
  raw_members (S fuel) ("034"%char :: r0) =
  match scan_string r0 with
  | Some (k, r1) =>
      match skip_ws r1 with
      | c1 :: r2 =>
          if Ascii.eqb c1 ":" then
            match parse_value (S (List.length (skip_ws r2))) (skip_ws r2) with
            | Some (_, r3) =>
                match skip_ws r3 with
                | c :: r4 =>
                    if Ascii.eqb c "," then
                      match raw_members fuel (skip_ws r4) with
                      | Some ms =>
                          Some ((k, firstn (List.length (skip_ws r2) - List.length r3)
                                      (skip_ws r2)) :: ms)
                      | None => None
                      end
                    else if Ascii.eqb c "}"
                         then Some [(k, firstn (List.length (skip_ws r2) - List.length r3)
                                          (skip_ws r2))]
                         else None
                | [] => None
                end
            | None => None
            end
          else None
      | [] => None
      end
  | None => None
  end.
Proof. reflexivity. Qed.

Lemma firstn_prefix (l k : list ascii) :
  firstn (List.length (l ++ k) - List.length k) (l ++ k) = l.
Proof.
  replace (List.length (l ++ k) - List.length k)%nat with (List.length l)
    by (rewrite List.length_app; lia).
  induction l as [|a l IH]; cbn; [destruct k; reflexivity | now rewrite IH].
Qed.

Lemma closing_stops (w5 w6 : list ascii) :
  forallb is_ws w5 = true -> stops (w5 ++ "}"%char :: w6) = true.
Proof.
  destruct w5 as [|c w5]; cbn [app stops forallb]; [reflexivity|].
  intros H. apply andb_prop in H as [Hc _]. apply is_ws_stop, Hc.
Qed.

Lemma closing_skip (w5 w6 : list ascii) :
  forallb is_ws w5 = true -> skip_ws (w5 ++ "}"%char :: w6) = "}"%char :: w6.
Proof. intros H. rewrite skip_ws_app by assumption. reflexivity. Qed.

(** The member [content] of an envelope, read as a tree and as raw text. *)
Lemma parse_members_content (w3 w4 w5 w6 : list ascii) (X : json) (fuel : nat) :
  wf X = true ->
  forallb is_ws w3 = true -> forallb is_ws w4 = true -> forallb is_ws w5 = true ->
  (List.length (render X) <= fuel)%nat ->
  parse_members (S fuel)
    ("034"%char :: list_ascii_of_string "content"
       ++ "034"%char :: w3 ++ ":"%char :: w4 ++ render X ++ w5 ++ "}"%char :: w6)
  = Some ([(list_ascii_of_string "content", X)], w6).
Proof.
  intros HX H3 H4 H5 Hfuel.
  rewrite parse_members_quote, valid_string_scan by reflexivity.
  rewrite (skip_ws_app w3) by assumption.
  rewrite (skip_ws_head ":"%char) by reflexivity. cbv beta iota.
  change (Ascii.eqb ":" ":") with true. cbv iota.
  rewrite (skip_ws_app w4), skip_ws_render by assumption.
  rewrite parse_value_render by (try assumption; apply closing_stops; assumption).
  rewrite closing_skip by assumption. reflexivity.
Qed.

Lemma raw_members_content (w3 w4 w5 w6 : list ascii) (X : json) (fuel : nat) :
  wf X = true ->
  forallb is_ws w3 = true -> forallb is_ws w4 = true -> forallb is_ws w5 = true ->
  raw_members (S fuel)
    ("034"%char :: list_ascii_of_string "content"
       ++ "034"%char :: w3 ++ ":"%char :: w4 ++ render X ++ w5 ++ "}"%char :: w6)
  = Some [(list_ascii_of_string "content", render X)].
Proof.
  intros HX H3 H4 H5.
  rewrite raw_members_quote, valid_string_scan by reflexivity.
  rewrite (skip_ws_app w3) by assumption.
  rewrite (skip_ws_head ":"%char) by reflexivity. cbv beta iota.
  change (Ascii.eqb ":" ":") with true. cbv iota.
  rewrite (skip_ws_app w4), skip_ws_render by assumption.
  rewrite parse_value_render;
    [|assumption | rewrite List.length_app; lia | apply closing_stops; assumption].
  rewrite closing_skip by assumption. cbv beta iota.
  change (Ascii.eqb "}" ",") with false. change (Ascii.eqb "}" "}") with true.
  cbv iota. rewrite firstn_prefix. reflexivity.
Qed.

(** Decoding the envelope into the struct with the raw field [Content]
    leaves in it the text of [X], byte for byte. *)
Lemma Unmarshal_content_envelope (w1 w2 w3 w4 w5 w6 : list ascii) (X : json) :
  wf X = true ->
  forallb is_ws w1 = true -> forallb is_ws w2 = true -> forallb is_ws w3 = true ->
  forallb is_ws w4 = true -> forallb is_ws w5 = true -> forallb is_ws w6 = true ->
  Decode.Unmarshal_content (envelope w1 w2 w3 w4 w5 w6 (render X)) = Some (render X).
Proof.
  intros HX H1 H2 H3 H4 H5 H6.
  unfold Decode.Unmarshal_content, parse, envelope.
  rewrite (skip_ws_app w1) by assumption.
  rewrite (skip_ws_head "{"%char) by reflexivity.
  rewrite parse_value_brace.
  rewrite (skip_ws_app w2) by assumption.
  rewrite (skip_ws_head "034"%char) by reflexivity. cbv beta iota.
  change (Ascii.eqb "034" "}") with false. cbv iota.
  cbn [List.length].
  rewrite parse_members_content;
    [|assumption ..
     | repeat (rewrite List.length_app || (progress cbn [List.length])); lia].
  rewrite (skip_ws_all w6) by assumption.
  rewrite raw_members_content by assumption.
  reflexivity.
Qed.

End Envelope.

(** * The headers of a request *)

Section Headers.
Import Lara.
Context {rt : Runtime}.

Abbreviation canon := Textproto.CanonicalMIMEHeaderKey.

Lemma Set_lookup_eq (h : gmap string string) (k v : string) :
  Header.Set_ h k v !! canon k = Some v.
Proof. unfold Header.Set_. apply lookup_insert_eq. Qed.

Lemma Set_lookup_ne (h : gmap string string) (k v key : string) :
  canon k <> key -> Header.Set_ h k v !! key = h !! key.
Proof. intros N. unfold Header.Set_. apply lookup_insert_ne, N. Qed.

Lemma apply_headers_app (h : gmap string string) (l1 l2 : list (string * string)) :
  apply_headers h (l1 ++ l2) = apply_headers (apply_headers h l1) l2.
Proof. unfold apply_headers. apply fold_left_app. Qed.

(** A key no caller header names keeps its value. *)
Lemma apply_headers_other (key : string) (headers : list (string * string)) :
  forall h,
    Forall (fun kv => canon (fst kv) <> key) headers ->
    apply_headers h headers !! key = h !! key.
Proof.
  induction headers as [|[k v] headers IH]; intros h H; [reflexivity|].
  inversion H as [|? ? Hk Hrest]; subst.
  change (apply_headers h ((k, v) :: headers))
    with (apply_headers (Header.Set_ h k v) headers).
  rewrite (IH _ Hrest). apply Set_lookup_ne, Hk.
Qed.

(** The last caller header of a key gives the key its value. *)
Lemma apply_headers_last (h : gmap string string) (l1 l2 : list (string * string))
    (k v : string) :
  Forall (fun kv => canon (fst kv) <> canon k) l2 ->
  apply_headers h (l1 ++ (k, v) :: l2) !! canon k = Some v.
Proof.
  intros H. rewrite apply_headers_app.
  change (apply_headers (apply_headers h l1) ((k, v) :: l2))
    with (apply_headers (Header.Set_ (apply_headers h l1) k v) l2).
  rewrite (apply_headers_other _ _ _ H). apply Set_lookup_eq.
Qed.

(** The two credentials are there. *)
Definition signing (c : Client) : bool :=
  negb (String.eqb (accessKeyID c) "") && negb (String.eqb (accessKeySecret c) "").

Lemma signing_true (c : Client) :
  signing c = true <-> accessKeyID c <> EmptyString /\ accessKeySecret c <> EmptyString.
Proof.
  unfold signing.
  destruct (String.eqb_spec (accessKeyID c) ""), (String.eqb_spec (accessKeySecret c) "");
    cbn; split; intros H; try discriminate H; try tauto.
Qed.

Lemma signing_false (c : Client) :
  signing c = false <-> accessKeyID c = EmptyString \/ accessKeySecret c = EmptyString.
Proof.
  unfold signing.
  destruct (String.eqb_spec (accessKeyID c) ""), (String.eqb_spec (accessKeySecret c) "");
    cbn; split; intros H; try discriminate H; try tauto.
Qed.

Lemma authorize_other (c : Client) (method path contentMD5 contentType key : string)
    (h : gmap string string) :
  key <> "Authorization"%string ->
  authorize c method path contentMD5 contentType h !! key = h !! key.
Proof.
  intros N. unfold authorize. fold (signing c).
  destruct (signing c); [|reflexivity].
  cbv zeta. apply Set_lookup_ne. intros E. apply N. rewrite <- E. reflexivity.
Qed.

Lemma authorize_signed (c : Client) (method path contentMD5 contentType : string)
    (h : gmap string string) :
  signing c = true ->
  authorize c method path contentMD5 contentType h !! "Authorization"
  = Some ("Lara " +:+ accessKeyID c +:+ ":"
            +:+ sign c method path contentMD5 contentType (Header.Get h "Date")).
Proof.
  intros S. unfold authorize. fold (signing c). rewrite S. cbv zeta.
  apply (Set_lookup_eq h "Authorization").
Qed.

Lemma authorize_anonymous (c : Client) (method path contentMD5 contentType : string)
    (h : gmap string string) :
  signing c = false -> authorize c method path contentMD5 contentType h = h.
Proof. intros S. unfold authorize. fold (signing c). rewrite S. reflexivity. Qed.

(** The six headers the transport sets. *)
Lemma fixed_headers_lookup (c : Client) (date method contentMD5 contentType : string) :
  let h := fixed_headers c date method contentMD5 contentType in
  h !! "X-Http-Method-Override" = Some method
  /\ h !! "Date" = Some date
  /\ h !! "X-Lara-Sdk-Name" = Some (sdkName c)
  /\ h !! "X-Lara-Sdk-Version" = Some (sdkVersion c)
  /\ h !! "Content-Type"
     = (if String.eqb contentType "" then None else Some contentType)
  /\ h !! "Content-Md5"
     = (if String.eqb contentMD5 "" then None else Some contentMD5)
  /\ h !! "Authorization" = None.
Proof.
  cbv zeta. unfold fixed_headers, Header.Set_.
  change (canon "X-HTTP-Method-Override") with "X-Http-Method-Override"%string.
  change (canon "Date") with "Date"%string.
  change (canon "X-Lara-SDK-Name") with "X-Lara-Sdk-Name"%string.
  change (canon "X-Lara-SDK-Version") with "X-Lara-Sdk-Version"%string.
  change (canon "Content-Type") with "Content-Type"%string.
  change (canon "Content-MD5") with "Content-Md5"%string.
  cbv zeta.
  destruct (String.eqb contentType ""), (String.eqb contentMD5 ""); cbn [negb];
    repeat split;
    repeat (first [ rewrite lookup_insert_eq; reflexivity
                  | rewrite lookup_insert_ne by discriminate
                  | apply lookup_empty ]).
Qed.

(** The request that is built, when its construction succeeds. *)
Lemma new_request_inr (c : Client) (x : Exchange) (method path : string)
    (params : list (string * string)) (body : option Value)
    (files : list (string * Reader)) (headers : list (string * string))
    (req : Request) :
  new_request c x method path params body files headers = inr req ->
  exists bodyReader contentMD5 contentType,
    select_body (randomBoundary x) body files
    = inr (bodyReader, contentMD5, contentType)
    /\ req
       = {| Method := method;
            URL := request_url c (normalize_path path) params;
            Header_ :=
              authorize c method (normalize_path path) contentMD5 contentType
                (apply_headers
                   (fixed_headers c (httpDate x) method contentMD5 contentType)
                   headers);
            Body_ := bodyReader |}.
Proof.
  unfold new_request. cbv zeta.
  destruct (select_body (randomBoundary x) body files)
    as [err|[[bodyReader contentMD5] contentType]]; [discriminate|].
  destruct (http_NewRequest_error method _); [discriminate|].
  intros H. inversion H. eauto.
Qed.

End Headers.

(** * The body of a request *)

Section Bodies.
Import Lara.
Context {rt : Runtime}.

Lemma append_assoc (a b c : string) : (a +:+ b) +:+ c = a +:+ b +:+ c.
Proof.
  induction a as [|x a IH]; [reflexivity|].
  change (String x ((a +:+ b) +:+ c) = String x (a +:+ b +:+ c)). now rewrite IH.
Qed.

Lemma append_nil_r (a : string) : a +:+ EmptyString = a.
Proof.
  induction a as [|x a IH]; [reflexivity|].
  change (String x (a +:+ EmptyString) = String x a). now rewrite IH.
Qed.

(** The text of a multipart body, as RFC 2046 lays it out: a delimiter line
    before each part, which opens with a line break except in front of the
    first part, the header lines of the part, an empty line, its data; and
    the closing delimiter at the end. *)
Definition delimiter (boundary : string) (first : bool) : string :=
  if first then "--" +:+ boundary +:+ Multipart.CRLF
  else Multipart.CRLF +:+ "--" +:+ boundary +:+ Multipart.CRLF.

(** The part of an attachment: its field key is the name and the file
    name. *)
Definition file_part (boundary : string) (first : bool) (field data : string) : string :=
  delimiter boundary first
    +:+ "Content-Disposition: form-data; name=" +:+ QS
    +:+ multipart_escapeQuotes field +:+ QS
    +:+ "; filename=" +:+ QS +:+ multipart_escapeQuotes field +:+ QS +:+ Multipart.CRLF
    +:+ "Content-Type: application/octet-stream" +:+ Multipart.CRLF
    +:+ Multipart.CRLF +:+ data.

Fixpoint file_parts (boundary : string) (first : bool) (files : list (string * string))
  : string :=
  match files with
  | [] => EmptyString
  | (field, data) :: rest =>
      file_part boundary first field data +:+ file_parts boundary false rest
  end.

(** A form field that follows other parts. *)
Definition field_part (boundary name value : string) : string :=
  delimiter boundary false
    +:+ "Content-Disposition: form-data; name=" +:+ QS
    +:+ multipart_escapeQuotes name +:+ QS +:+ Multipart.CRLF
    +:+ Multipart.CRLF +:+ value.

Definition closing (boundary : string) : string :=
  Multipart.CRLF +:+ "--" +:+ boundary +:+ "--" +:+ Multipart.CRLF.

(** One part per attachment, then the field [json] when there is a JSON
    text. *)
Definition multipart_text (boundary : string) (files : list (string * string))
    (jsonBytes : option string) : string :=
  file_parts boundary true files
    +:+ match jsonBytes with
        | Some j => field_part boundary "json" j
        | None => EmptyString
        end
    +:+ closing boundary.

(** The value of [Content-Type] that names the boundary. *)
Definition multipart_content_type (boundary : string) : string :=
  Multipart.FormDataContentType (Multipart.NewWriter boundary).

(** Attachments whose readers can all be read to their end. *)
Definition opened (files : list (string * string)) : list (string * Reader) :=
  map (fun fd => (fst fd, inr (snd fd))) files.

(** [json.Marshal] of the body, when there is one. *)
Definition marshalled (body : option Value) : result (option string) :=
  match body with
  | None => inr None
  | Some b =>
      match json_Marshal b with
      | inl err => inl err
      | inr jsonBytes => inr (Some jsonBytes)
      end
  end.

Definition md5_hex (bodyBytes : string) : string :=
  Bytes.hex (MD5.Sum (Bytes.bytes_of_string bodyBytes)).

Lemma write_files_text (files : list (string * string)) :
  forall w,
    write_files w (opened files)
    = inr {| Multipart.buf :=
               Multipart.buf w
                 +:+ file_parts (Multipart.boundary w) (negb (Multipart.lastpart w)) files;
             Multipart.boundary := Multipart.boundary w;
             Multipart.lastpart :=
               Multipart.lastpart w || (0 <? List.length files)%nat |}.
Proof.
  induction files as [|[field data] files IH]; intros [b bd lp].
  - cbn. rewrite append_nil_r, orb_false_r. reflexivity.
  - cbn [opened map write_files fst snd]. fold (opened files). rewrite IH.
    cbn [Multipart.buf Multipart.boundary Multipart.lastpart Multipart.write
         Multipart.CreateFormFile Multipart.CreatePart fold_right fst snd negb
         file_parts].
    rewrite orb_true_r. f_equal. f_equal.
    unfold file_part, delimiter.
    destruct lp; cbn [negb]; rewrite ?append_assoc; reflexivity.
Qed.

Lemma opened_length (files : list (string * string)) :
  List.length (opened files) = List.length files.
Proof. apply List.length_map. Qed.

Lemma select_body_multipart (boundary : string) (body : option Value)
    (files : list (string * string)) (jsonBytes : option string) :
  files <> [] ->
  marshalled body = inr jsonBytes ->
  select_body boundary body (opened files)
  = inr (Some (multipart_text boundary files jsonBytes),
         md5_hex (multipart_text boundary files jsonBytes),
         multipart_content_type boundary).
Proof.
  intros Hfiles Hj. unfold select_body.
  rewrite opened_length, write_files_text.
  destruct files as [|fd files]; [contradiction|].
  cbn [List.length Nat.ltb Nat.leb orb Multipart.buf Multipart.boundary
       Multipart.lastpart Multipart.NewWriter negb].
  unfold marshalled in Hj.
  destruct body as [b|].
  - destruct (json_Marshal b) as [err|j]; inversion Hj; subst jsonBytes.
    cbv zeta. unfold md5_hex, multipart_text, multipart_content_type.
    cbn [Multipart.Close Multipart.write Multipart.WriteField Multipart.CreatePart
         Multipart.buf Multipart.boundary Multipart.lastpart Multipart.NewWriter
         Multipart.FormDataContentType fold_right fst snd].
    unfold field_part, closing, delimiter.
    rewrite ?append_assoc. reflexivity.
  - inversion Hj; subst jsonBytes.
    cbv zeta. unfold md5_hex, multipart_text, multipart_content_type.
    cbn [Multipart.Close Multipart.write Multipart.buf Multipart.boundary
         Multipart.lastpart Multipart.NewWriter Multipart.FormDataContentType].
    unfold closing. rewrite ?append_assoc. reflexivity.
Qed.

Lemma md5_hex_set (bodyBytes : string) : String.eqb (md5_hex bodyBytes) "" = false.
Proof.
  destruct (String.eqb_spec (md5_hex bodyBytes) "") as [E|]; [|reflexivity].
  pose proof (hex_length (MD5.Sum (Bytes.bytes_of_string bodyBytes))) as H.
  fold (md5_hex bodyBytes) in H. rewrite E, md5_Sum_length in H. discriminate H.
Qed.

Lemma multipart_content_type_set (boundary : string) :
  String.eqb (multipart_content_type boundary) "" = false.
Proof. reflexivity. Qed.

End Bodies.

(** * The transport: the other verbs, the base URL, what a request can
      return *)

Section Transport.
Import Lara.
Context {rt : Runtime}.

(** [Client.Put]. *)
Definition Client_Put {T : Type} (c : Client) (x : Exchange) (path : string)
    (body : option Value) (files : list (string * Reader))
    (headers : list (string * string))
    (unmarshal_result : string -> result T) : result T :=
  match request c x "PUT" path [] body files headers with
  | inl err => inl err
  | inr respBytes => handleContent respBytes unmarshal_result
  end.

(** [Client.Delete]. *)
Definition Client_Delete {T : Type} (c : Client) (x : Exchange) (path : string)
    (body : option Value) (headers : list (string * string))
    (unmarshal_result : string -> result T) : result T :=
  match request c x "DELETE" path [] body [] headers with
  | inl err => inl err
  | inr respBytes => handleContent respBytes unmarshal_result
  end.

(** [Client.GetRaw]. *)
Definition Client_GetRaw (c : Client) (x : Exchange) (path : string)
    (params headers : list (string * string)) : result string :=
  request c x "GET" path params None [] headers.

(** A run of slashes. *)
Definition slashes (n : nat) : string := string_of_list_ascii (repeat "/"%char n).

(** The loop of [strings.TrimRight(s, "/")], on the reversed text. *)
Definition drop_slashes : list ascii -> list ascii :=
  fix drop (l : list ascii) : list ascii :=
    match l with
    | c :: r => if Ascii.eqb c "/" then drop r else l
    | [] => []
    end.

Lemma TrimRightSlash_eq (s : string) :
  Strings.TrimRightSlash s
  = string_of_list_ascii (rev (drop_slashes (rev (list_ascii_of_string s)))).
Proof. reflexivity. Qed.

Lemma list_ascii_of_string_app (a b : string) :
  list_ascii_of_string (a +:+ b) = list_ascii_of_string a ++ list_ascii_of_string b.
Proof.
  induction a as [|x a IH]; [reflexivity|].
  change (x :: list_ascii_of_string (a +:+ b)
          = x :: list_ascii_of_string a ++ list_ascii_of_string b).
  now rewrite IH.
Qed.

Lemma string_of_list_ascii_app (l k : list ascii) :
  string_of_list_ascii (l ++ k) = string_of_list_ascii l +:+ string_of_list_ascii k.
Proof.
  induction l as [|x l IH]; [reflexivity|].
  change (String x (string_of_list_ascii (l ++ k))
          = String x (string_of_list_ascii l +:+ string_of_list_ascii k)).
  now rewrite IH.
Qed.

Lemma rev_repeat_slash (n : nat) : rev (repeat "/"%char n) = repeat "/"%char n.
Proof.
  induction n as [|n IH]; [reflexivity|].
  cbn [repeat rev]. rewrite IH. symmetry. apply List.repeat_cons.
Qed.

Lemma drop_slashes_repeat (n : nat) (l : list ascii) :
  drop_slashes (repeat "/"%char n ++ l) = drop_slashes l.
Proof. induction n as [|n IH]; [reflexivity | exact IH]. Qed.

Lemma drop_slashes_decomp (l : list ascii) :
  exists k, l = repeat "/"%char k ++ drop_slashes l.
Proof.
  induction l as [|c r [k IH]]; [exists 0%nat; reflexivity|].
  cbn [drop_slashes]. destruct (Ascii.eqb_spec c "/") as [->|N].
  - exists (S k). cbn [repeat app]. now rewrite <- IH.
  - exists 0%nat. reflexivity.
Qed.

Lemma drop_slashes_head (l : list ascii) (c : ascii) (r : list ascii) :
  drop_slashes l = c :: r -> c <> "/"%char.
Proof.
  induction l as [|a l IH]; cbn [drop_slashes]; [discriminate|].
  destruct (Ascii.eqb_spec a "/") as [->|N]; [exact IH|].
  intros H. inversion H; subst. exact N.
Qed.

Lemma TrimRightSlash_slashes (s : string) (n : nat) :
  Strings.TrimRightSlash (s +:+ slashes n) = Strings.TrimRightSlash s.
Proof.
  rewrite !TrimRightSlash_eq. unfold slashes.
  rewrite list_ascii_of_string_app, list_ascii_of_string_of_list_ascii.
  rewrite rev_app_distr, rev_repeat_slash, drop_slashes_repeat. reflexivity.
Qed.

Lemma TrimRightSlash_decomp (s : string) :
  exists k, s = Strings.TrimRightSlash s +:+ slashes k.
Proof.
  rewrite TrimRightSlash_eq.
  destruct (drop_slashes_decomp (rev (list_ascii_of_string s))) as [k E].
  exists k. unfold slashes. rewrite <- string_of_list_ascii_app.
  rewrite <- (rev_repeat_slash k), <- rev_app_distr, <- E, rev_involutive.
  symmetry. apply string_of_list_ascii_of_string.
Qed.

Lemma TrimRightSlash_end (s t : string) : Strings.TrimRightSlash s <> t +:+ "/".
Proof.
  rewrite TrimRightSlash_eq. intros E.
  apply (f_equal list_ascii_of_string) in E.
  rewrite list_ascii_of_string_of_list_ascii, list_ascii_of_string_app in E.
  apply (f_equal (@rev ascii)) in E.
  rewrite rev_involutive, rev_app_distr in E. cbn in E.
  apply drop_slashes_head in E. congruence.
Qed.

Lemma normalize_path_bare (path : string) :
  Strings.HasPrefix path "/" = false ->
  normalize_path path = "/" +:+ path /\ normalize_path ("/" +:+ path) = "/" +:+ path.
Proof.
  intros H. unfold normalize_path. rewrite H. split; [reflexivity|].
  assert (Strings.HasPrefix ("/" +:+ path) "/" = true) as ->; [|reflexivity].
  unfold Strings.HasPrefix. change ("/" +:+ path) with (String "/" path).
  cbn [String.prefix]. destruct (Ascii.ascii_dec "/" "/") as [_|N]; [|contradiction].
  destruct path; reflexivity.
Qed.

(** ** What [request] returns *)

Lemma write_files_inl (files : list (string * Reader)) :
  forall (w : Multipart.Writer) (e : error),
    write_files w files = inl e -> exists msg cause, e = WrapError msg cause.
Proof.
  induction files as [|[field [err|data]] files IH]; intros w e H;
    cbn [write_files] in H.
  - discriminate H.
  - inversion H. unfold Errorf_w. eauto.
  - exact (IH _ _ H).
Qed.

Lemma select_body_inl (boundary : string) (body : option Value)
    (files : list (string * Reader)) (e : error) :
  select_body boundary body files = inl e -> exists msg cause, e = WrapError msg cause.
Proof.
  unfold select_body.
  destruct (0 <? List.length files)%nat.
  - destruct (write_files (Multipart.NewWriter boundary) files) as [err|w] eqn:E.
    + intros H. inversion H; subst. exact (write_files_inl _ _ _ E).
    + destruct body as [b|]; [|discriminate].
      destruct (json_Marshal b); [|discriminate].
      intros H. inversion H. unfold Errorf_w. eauto.
  - destruct body as [b|]; [|discriminate].
    destruct (json_Marshal b); [|discriminate].
    intros H. inversion H. unfold Errorf_w. eauto.
Qed.

(** A request that cannot be built fails with a wrapped error. *)
Lemma new_request_inl (c : Client) (x : Exchange) (method path : string)
    (params : list (string * string)) (body : option Value)
    (files : list (string * Reader)) (headers : list (string * string)) (e : error) :
  new_request c x method path params body files headers = inl e ->
  exists msg cause, e = WrapError msg cause.
Proof.
  unfold new_request. cbv zeta.
  destruct (select_body (randomBoundary x) body files)
    as [err|[[bodyReader contentMD5] contentType]] eqn:E.
  - intros H. inversion H; subst. exact (select_body_inl _ _ _ _ E).
  - destruct (http_NewRequest_error method _); [|discriminate].
    intros H. inversion H. unfold Errorf_w. eauto.
Qed.

Lemma handle_response_inr (r : DoResult) (respBody : string) :
  handle_response r = inr respBody <->
  exists StatusCode, r = DoResponse StatusCode (inr respBody) /\ 200 <= StatusCode < 300.
Proof.
  split.
  - destruct r as [err|StatusCode [err|body]]; cbn [handle_response].
    + destruct (Strings.Contains (Error err) "timeout"); discriminate.
    + discriminate.
    + destruct (Z.ltb_spec StatusCode 200) as [Hlo|Hlo]; cbn [orb];
        [|destruct (Z.leb_spec 300 StatusCode) as [Hhi|Hhi]].
      * destruct (json_Unmarshal_apiError body) as [a|];
          [destruct (negb _)|]; discriminate.
      * destruct (json_Unmarshal_apiError body) as [a|];
          [destruct (negb _)|]; discriminate.
      * intros H. inversion H; subst. exists StatusCode. split; [reflexivity | lia].
  - intros (StatusCode & -> & H1 & H2). cbn [handle_response].
    rewrite (proj2 (Z.ltb_ge _ _) H1), (proj2 (Z.leb_gt _ _) H2). reflexivity.
Qed.

(** Where each typed failure comes from. *)
Lemma handle_response_typed (r : DoResult) :
  (forall m,
      handle_response r = inl (LaraTimeoutError m) ->
      exists err, r = DoError err /\ m = Error err /\ Strings.Contains m "timeout" = true)
  /\ (forall m,
        handle_response r = inl (LaraConnectionError m) ->
        exists err,
          r = DoError err /\ m = Error err /\ Strings.Contains m "timeout" = false)
  /\ (forall s t m,
        handle_response r = inl (LaraError s t m) ->
        exists StatusCode respBody,
          r = DoResponse StatusCode (inr respBody)
          /\ not_2xx StatusCode
          /\ json_Unmarshal_apiError respBody
             = Some {| apiError_Status := s; apiError_Type := t; apiError_Message := m |}
          /\ t <> EmptyString).
Proof.
  destruct r as [err|StatusCode [err|body]]; cbn [handle_response].
  - destruct (Strings.Contains (Error err) "timeout") eqn:E; repeat split;
      intros; try discriminate.
    + exists err. inversion H; subst. auto.
    + exists err. inversion H; subst. auto.
  - repeat split; intros; discriminate.
  - destruct (Z.ltb_spec StatusCode 200) as [Hlo|Hlo]; cbn [orb];
      [|destruct (Z.leb_spec 300 StatusCode) as [Hhi|Hhi]];
      try (repeat split; intros; discriminate).
    + destruct (json_Unmarshal_apiError body) as [[s0 t0 m0]|] eqn:E;
        cbn [apiError_Type apiError_Status apiError_Message];
        [destruct (String.eqb_spec t0 "") as [Ht|Ht]; cbn [negb]|];
        repeat split; intros; try discriminate.
      inversion H; subst. exists StatusCode, body.
      repeat split; try assumption. left; exact Hlo.
    + destruct (json_Unmarshal_apiError body) as [[s0 t0 m0]|] eqn:E;
        cbn [apiError_Type apiError_Status apiError_Message];
        [destruct (String.eqb_spec t0 "") as [Ht|Ht]; cbn [negb]|];
        repeat split; intros; try discriminate.
      inversion H; subst. exists StatusCode, body.
      repeat split; try assumption. right; exact Hhi.
Qed.

(** ** The digest of the body *)

Lemma hex_digit_lower (n : Z) :
  0 <= n < 16 ->
  In (Bytes.hex_digit n) (list_ascii_of_string "0123456789abcdef").
Proof.
  intros H. unfold Bytes.hex_digit. apply nth_In. cbn. lia.
Qed.

Lemma hex_lower (l : list byte) :
  Forall (fun ch => In ch (list_ascii_of_string "0123456789abcdef"))
    (list_ascii_of_string (Bytes.hex l)).
Proof.
  induction l as [|b r IH]; [constructor|].
  pose proof (Z_of_byte_range b) as Hb.
  cbn [Bytes.hex list_ascii_of_string].
  constructor; [|constructor; [|exact IH]]; apply hex_digit_lower.
  - split; [apply Z.div_pos; lia | apply Z.div_lt_upper_bound; lia].
  - apply Z.mod_pos_bound; lia.
Qed.

Lemma md5_hex_length (bodyBytes : string) : String.length (md5_hex bodyBytes) = 32%nat.
Proof. unfold md5_hex. rewrite hex_length, md5_Sum_length. reflexivity. Qed.

Lemma write_files_boundary (files : list (string * Reader)) :
  forall w w' : Multipart.Writer,
    write_files w files = inr w' -> Multipart.boundary w' = Multipart.boundary w.
Proof.
  induction files as [|[field [err|data]] files IH]; intros w w' H;
    cbn [write_files] in H; [inversion H; reflexivity | discriminate |].
  rewrite (IH _ _ H). reflexivity.
Qed.

(** The digest and the content type go with the body. *)
Lemma select_body_inr (boundary : string) (body : option Value)
    (files : list (string * Reader)) (bodyReader : option string)
    (contentMD5 contentType : string) :
  select_body boundary body files = inr (bodyReader, contentMD5, contentType) ->
  match bodyReader with
  | Some bodyBytes =>
      contentMD5 = md5_hex bodyBytes
      /\ (contentType = "application/json"%string /\ files = []
          \/ contentType = multipart_content_type boundary /\ files <> [])
  | None =>
      contentMD5 = EmptyString /\ contentType = EmptyString
      /\ body = None /\ files = []
  end.
Proof.
  unfold select_body.
  destruct files as [|f files]; cbn [List.length Nat.ltb Nat.leb].
  - destruct body as [b|].
    + destruct (json_Marshal b); [discriminate|].
      intros H. inversion H; subst. split; [reflexivity | left; auto].
    + intros H. inversion H; subst. auto.
  - destruct (write_files _ _) as [err|w0] eqn:E; [discriminate|].
    assert (Multipart.boundary w0 = boundary) as Hb
        by (rewrite (write_files_boundary _ _ _ E); reflexivity).
    destruct body as [b|].
    + destruct (json_Marshal b); [discriminate|].
      intros H. inversion H; subst. split; [reflexivity|].
      right. split; [|discriminate].
      unfold multipart_content_type, Multipart.FormDataContentType.
      cbn [Multipart.boundary Multipart.Close Multipart.write Multipart.WriteField
           Multipart.CreatePart Multipart.NewWriter].
      reflexivity.
    + intros H. inversion H; subst. split; [reflexivity|].
      right. split; [|discriminate].
      unfold multipart_content_type, Multipart.FormDataContentType.
      cbn [Multipart.boundary Multipart.Close Multipart.write Multipart.NewWriter].
      reflexivity.
Qed.

End Transport.

(** * The envelope of any object, and absence *)

Section EnvelopeMembers.
Import Json.

(** The members of an object with each value as its text. *)
Definition raw_of (ms : list (list ascii * json)) : list (list ascii * list ascii) :=
  map (fun kv => (fst kv, render (snd kv))) ms.

(** No key of [ms] names the field [content]. *)
Definition no_content (ms : list (list ascii * json)) : Prop :=
  Forall (fun kv => Decode.field_match "content" (fst kv) = false) ms.

Lemma render_members_quote (kv : list ascii * json) (ms : list (list ascii * json)) :
  exists r, render_members render (kv :: ms) = "034"%char :: r.
Proof.
  rewrite render_members_cons. unfold render_member. destruct ms; cbn; eauto.
Qed.

Lemma raw_members_render (ms : list (list ascii * json)) :
  forall (rest : list ascii) (fuel : nat),
    ms <> [] -> forallb wf_member ms = true -> (List.length ms <= fuel)%nat ->
    raw_members fuel (render_members render ms ++ "}"%char :: rest) = Some (raw_of ms).
Proof.
  induction ms as [|[k v] ms IH]; intros rest fuel Hne Hwf Hfuel; [congruence|].
  destruct fuel as [|fuel]; [cbn in Hfuel; lia|].
  cbn [forallb] in Hwf. apply andb_prop in Hwf as [Hkv Hms].
  unfold wf_member in Hkv. cbn [fst snd] in Hkv. apply andb_prop in Hkv as [Hk Hv].
  rewrite render_members_cons. unfold render_member. cbn [fst snd].
  destruct ms as [|kv' ms].
  - cbn [app]. rewrite raw_members_quote.
    rewrite <- app_assoc. cbn [app].
    rewrite valid_string_scan by assumption.
    rewrite skip_ws_head by reflexivity.
    change (Ascii.eqb ":" ":") with true. cbv iota.
    rewrite skip_ws_render by assumption.
    rewrite parse_value_render;
      [|assumption | rewrite List.length_app; lia | reflexivity].
    rewrite skip_ws_head by reflexivity.
    change (Ascii.eqb "}" ",") with false. change (Ascii.eqb "}" "}") with true.
    cbv iota. rewrite firstn_prefix. reflexivity.
  - cbn [app]. rewrite raw_members_quote.
    rewrite <- !app_assoc. cbn [app].
    rewrite valid_string_scan by assumption.
    rewrite skip_ws_head by reflexivity.
    change (Ascii.eqb ":" ":") with true. cbv iota.
    rewrite <- ?app_assoc. cbn [app]. rewrite skip_ws_render by assumption.
    rewrite parse_value_render;
      [|assumption | rewrite List.length_app; lia | reflexivity].
    rewrite skip_ws_head by reflexivity.
    change (Ascii.eqb "," ",") with true. cbv iota.
    destruct (render_members_quote kv' ms) as [r E].
    rewrite E at 1. cbn [app]. rewrite skip_ws_head by reflexivity.
    change ("034"%char :: r ++ "}"%char :: rest)
      with (("034"%char :: r) ++ "}"%char :: rest).
    rewrite <- E.
    rewrite IH by (try assumption; try congruence; cbn [List.length] in *; lia).
    rewrite firstn_prefix. reflexivity.
Qed.

Lemma render_members_length (ms : list (list ascii * json)) :
  (List.length ms <= List.length (render_members render ms))%nat.
Proof.
  induction ms as [|kv ms IH]; [cbn; lia|].
  rewrite render_members_cons. unfold render_member.
  destruct ms as [|kv' ms]; cbn [List.length] in *; [lia|].
  rewrite List.length_app. cbn [List.length]. lia.
Qed.

(** Decoding an object into the struct with the raw field [Content]. *)
Lemma Unmarshal_content_object (ms : list (list ascii * json)) :
  wf (JObject ms) = true ->
  Decode.Unmarshal_content (render (JObject ms)) = Some (Decode.content_of (raw_of ms)).
Proof.
  intros Hwf. unfold Decode.Unmarshal_content.
  rewrite parse_render by assumption.
  cbn [render]. rewrite skip_ws_head by reflexivity.
  destruct ms as [|kv ms]; [reflexivity|].
  destruct (render_members_quote kv ms) as [r E].
  rewrite E at 1. cbn [app]. rewrite skip_ws_head by reflexivity.
  change (Ascii.eqb "034" "}") with false. cbv iota.
  change ("034"%char :: r ++ ["}"%char]) with (("034"%char :: r) ++ ["}"%char]).
  rewrite <- E.
  rewrite raw_members_render; [reflexivity | congruence | exact Hwf |].
  pose proof (render_members_length (kv :: ms)) as Hlen.
  cbn [List.length] in *. rewrite List.length_app. cbn [List.length]. lia.
Qed.

Lemma content_of_fold (ms : list (list ascii * json)) (acc : list ascii) :
  no_content ms ->
  fold_left (fun acc kr => if Decode.field_match "content" (fst kr) then snd kr else acc)
    (raw_of ms) acc = acc.
Proof.
  revert acc. induction ms as [|kv ms IH]; intros acc H; [reflexivity|].
  inversion H as [|? ? Hkv Hms]; subst.
  cbn [raw_of map fold_left fst snd]. rewrite Hkv. apply IH, Hms.
Qed.

Lemma content_of_none (ms : list (list ascii * json)) :
  no_content ms -> Decode.content_of (raw_of ms) = [].
Proof. apply content_of_fold. Qed.

(** The last member that names the field gives its value. *)
Lemma content_of_last (ms1 ms2 : list (list ascii * json)) (k : list ascii) (X : json) :
  Decode.field_match "content" k = true -> no_content ms2 ->
  Decode.content_of (raw_of (ms1 ++ (k, X) :: ms2)) = render X.
Proof.
  intros Hk H2. unfold Decode.content_of, raw_of.
  rewrite map_app, fold_left_app. cbn [map fold_left fst snd]. rewrite Hk.
  apply (content_of_fold ms2 (render X) H2).
Qed.

(** A value that is neither an object nor [null]. *)
Definition not_a_struct (v : json) : Prop :=
  match v with
  | JNull | JObject _ => False
  | _ => True
  end.

End EnvelopeMembers.

Section Absence.
Import Lara.
Context {rt : Runtime}.

(** Where the failures of [handleContent] come from. *)
Lemma handleContent_inl {T : Type} (respBytes : string)
    (unmarshal_result : string -> result T) (e : error) :
  handleContent respBytes unmarshal_result = inl e ->
  (exists msg cause, e = WrapError msg cause)
  \/ exists content, unmarshal_result content = inl e.
Proof.
  unfold handleContent.
  destruct (Decode.Unmarshal_content (list_ascii_of_string respBytes)) as [content|].
  - intros H. right. eauto.
  - intros H. inversion H. left. unfold Errorf_w. eauto.
Qed.

(** When the client's [Get] fails with a [LaraError]. *)
Lemma Client_Get_LaraError {T : Type} (c : Client) (x : Exchange) (path : string)
    (unmarshal_result : string -> result T) (req : Request) (s : Z) (t m : string) :
  new_request c x "GET" path [] None [] [] = inr req ->
  (forall content e, unmarshal_result content = inl e -> is_not_found e = false) ->
  s = 404 ->
  (Client_Get c x path [] [] unmarshal_result = inl (LaraError s t m) <->
   exists StatusCode respBody,
     Do x req = DoResponse StatusCode (inr respBody)
     /\ not_2xx StatusCode
     /\ json_Unmarshal_apiError respBody
        = Some {| apiError_Status := s; apiError_Type := t; apiError_Message := m |}
     /\ t <> EmptyString).
Proof.
  intros Hreq Hdec ->. rewrite Client_Get_eq, Hreq. split.
  - destruct (handle_response (Do x req)) as [e|respBytes] eqn:E.
    + intros H. inversion H; subst e.
      apply (proj2 (proj2 (handle_response_typed _))) in E. exact E.
    + intros H. apply handleContent_inl in H as [(msg & cause & H)|(content & H)];
        [discriminate H|].
      apply Hdec in H. discriminate H.
  - intros (StatusCode & respBody & -> & Hs & Ha & Ht).
    rewrite (handle_response_api _ _ _ Hs Ha Ht). reflexivity.
Qed.

Lemma is_not_found_true (e : error) :
  is_not_found e = true <-> exists t m, e = LaraError 404 t m.
Proof.
  split.
  - destruct e as [s t m| | | |]; try discriminate. cbn.
    intros H. apply Z.eqb_eq in H. subst. eauto.
  - intros (t & m & ->). reflexivity.
Qed.

End Absence.

(** The decoders of the model runtime fail with a plain error. *)
Lemma Model_Unmarshal_Memory_error (content : string) (e : Lara.error) :
  Model.Unmarshal_Memory content = inl e -> is_not_found e = false.
Proof.
  unfold Model.Unmarshal_Memory.
  destruct (Model.object_of content) as [err|ms] eqn:E.
  - intros H. inversion H; subst e. unfold Model.object_of in E.
    destruct (Json.parse (list_ascii_of_string content)) as [[| | | | |]|];
      inversion E; reflexivity.
  - repeat match goal with
           | |- context [match ?t with _ => _ end] => destruct t
           end;
      intros H; inversion H; reflexivity.
Qed.

(** * When the waits end well *)

(** A float that is not below a positive finite one is at least that one,
    or is not a number (it differs from itself). *)
Lemma SF_not_lt (m : positive) (e : Z) (y : spec_float) :
  SFltb y (S754_finite false m e) = false <->
  SFleb (S754_finite false m e) y = true \/ SFeqb y y = false.
Proof.
  unfold SFleb, SFltb, SFeqb, SFcompare.
  destruct y as [s'|s'| |s' m' e']; try destruct s';
    try (split; [intros H; try discriminate H; auto
                | intros [H|H]; try discriminate H; reflexivity]).
  - rewrite Z.compare_refl, Pos.compare_cont_refl. cbn [CompOpp].
    split; [discriminate | intros [H|H]; discriminate H].
  - pose proof (Pos.compare_cont_antisym m' m Eq) as Hm. cbn [CompOpp] in Hm.
    rewrite (Z.compare_antisym e' e), <- Hm, Z.compare_refl, Pos.compare_cont_refl.
    destruct (e' ?= e)%Z; cbn [CompOpp];
      try (split; [intros H; try discriminate H; auto
                  | intros [H|H]; try discriminate H; reflexivity]).
    destruct (Pos.compare_cont Eq m' m); cbn [CompOpp];
      (split; [intros H; try discriminate H; auto
              | intros [H|H]; try discriminate H; reflexivity]).
Qed.

(** [current.Progress < 1.0] is false for a progress of 1.0 or more, and
    for a progress that is not a number. *)
Lemma in_progress_false (i : Lara.Import) :
  Lara.in_progress i = false <->
  (1 <=? Lara.Progress i)%float = true
  \/ (Lara.Progress i =? Lara.Progress i)%float = false.
Proof.
  unfold Lara.in_progress.
  rewrite FloatAxioms.leb_spec, FloatAxioms.ltb_spec, FloatAxioms.eqb_spec.
  assert (Prim2SF 1 = S754_finite false 4503599627370496 (-52)) as ->
      by (vm_compute; reflexivity).
  apply SF_not_lt.
Qed.

Section Completion.
Import Lara.
Context {rt : Runtime}.
Context {T : Type}.
Variable pending : T -> bool.
Variable ident : T -> string.
Variable interval : Duration.
Variable timed_out : Duration -> bool.
Variable timeout_error : error.
Variable getStatus : Exchange -> string -> result T.
Variable fetch_error : error -> error.
Variable updateCallback : option (T -> T).
Variable w : Poll.

(** A wait ends well at the first state whose snapshot is not pending,
    and only there. *)
Lemma wait_completes (initial : T) (k : nat) (st : LoopState T) :
  wait_state pending ident interval timed_out timeout_error getStatus fetch_error
    updateCallback w k initial = Some st ->
  pending (current st) = false ->
  (forall fuel, (k < fuel)%nat ->
     wait pending ident interval timed_out timeout_error getStatus fetch_error
       updateCallback w fuel initial
     = Some {| snapshot := current st; failure := None; events := trace st |})
  /\ sleeps (trace st) = k /\ requests (trace st) = k.
Proof.
  intros Hst Hp.
  pose proof (wait_state_turns _ _ _ _ _ _ _ _ _ _ _ _ Hst)
    as (_ & _ & _ & Hs & Hr & _).
  split; [|split; assumption].
  intros fuel Hfuel. eapply wait_reaches; [exact Hst| |exact Hfuel].
  unfold wait_step. rewrite Hp. reflexivity.
Qed.

Lemma wait_success (initial : T) (fuel : nat) (out : Outcome T) :
  wait pending ident interval timed_out timeout_error getStatus fetch_error
    updateCallback w fuel initial = Some out ->
  failure out = None ->
  pending (snapshot out) = false
  /\ exists k st,
       (k < fuel)%nat
       /\ wait_state pending ident interval timed_out timeout_error getStatus
            fetch_error updateCallback w k initial = Some st
       /\ out = {| snapshot := current st; failure := None; events := trace st |}.
Proof.
  intros Hrun Hok.
  apply wait_outcome in Hrun as (k & st & Hk & Hst & Hstep).
  apply wait_step_inr in Hstep
      as [(Hp & ->)|[(_ & _ & ->)|(err & _ & _ & _ & ->)]];
    cbn [failure snapshot] in *; try discriminate Hok.
  split; [exact Hp|]. exists k, st. auto.
Qed.

End Completion.

(** A translation that is done at the second status request. *)
Definition eventually_translated : Lara.Poll :=
  {| Lara.since := fun k => Z.of_nat k * 2100000000;
     Lara.exchange := fun k =>
       match k with
       | O => Model.answers 200 (DocumentScenario.document_body "translating" EmptyString)
       | _ => Model.answers 200 (DocumentScenario.document_body "translated" EmptyString)
       end |}.

(** * The services: exports, imports of files, connecting memories *)

From Stdlib Require DecimalString.
From stdpp Require sorting.

(** [TextBlock] of types.go. *)
Record TextBlock := {
  Text : string;
  Translatable : bool }.

(** What the services put into the maps they send. *)
Inductive GoValue :=
| GoString (s : string)
| GoStrings (l : list string)
| GoInt (n : Z)
| GoBool (b : bool)
| GoTextBlocks (l : list TextBlock).

(** An [*os.File]: its name and what reading it yields. *)
Record File := {
  Name : string;
  read : Lara.Reader }.

(** [Translation], [NGMemoryMatch], [NGGlossaryMatch] and [TextResult] of
    translator.go and types.go; a slice that is [nil] is [None]. *)
Record Translation := {
  String_ : option string;
  Strings : option (list string);
  TextBlocks : option (list TextBlock) }.

Record NGMemoryMatch := {
  Memory_ : string;
  TUID : option string;
  NGMemoryMatch_Language : string * string;
  Sentence : string;
  NGMemoryMatch_Translation : string;
  Score : float }.

Record NGGlossaryMatch := {
  Glossary_ : string;
  NGGlossaryMatch_Language : string * string;
  Term : string;
  NGGlossaryMatch_Translation : string }.

Record TextResult := {
  ContentType : string;
  SourceLanguage : string;
  Translation_ : Translation;
  AdaptedTo : list string;
  TextResult_Glossaries : list string;
  AdaptedToMatches : list (list NGMemoryMatch);
  GlossariesMatches : list (list NGGlossaryMatch) }.

(** [s3UploadFields], and the answers to the requests for an upload and
    for a download URL. *)
Definition s3UploadFields := gmap string string.

Record uploadResponse := {
  uploadResponse_URL : string;
  Fields : s3UploadFields }.

Record downloadResponse := {
  downloadResponse_URL : string }.

(** What the services need besides the runtime of the transport: the
    conversion of the maps they build to the [interface{}] that [request]
    takes, the order in which [range] yields a map of strings (some
    order of its entries), [strings.ToLower] on text that is not ASCII,
    [os.Open], the text [fmt.Sprint] gives for a header value of any
    type, and [json.Unmarshal] into the destinations of the services. *)
Class Services {rt : Lara.Runtime} := {
  interface_of_map : gmap string GoValue -> Lara.Value;
  interface_of_strings : gmap string string -> Lara.Value;
  range_strings : gmap string string -> list (string * string);
  range_strings_perm : forall m, range_strings m ≡ₚ map_to_list m;
  unicode_ToLower : string -> string;
  os_Open : string -> Lara.result Lara.Reader;
  Any : Type;
  fmt_Sprint : Any -> string;
  json_Unmarshal_Memories : string -> Lara.result (list Lara.Memory);
  json_Unmarshal_TextResult : string -> Lara.result TextResult;
  json_Unmarshal_Languages : string -> Lara.result (list string);
  json_Unmarshal_uploadResponse : string -> Lara.result uploadResponse;
  json_Unmarshal_downloadResponse : string -> Lara.result downloadResponse }.

(** ** Package strings: suffixes and lower case *)

(** [strings.HasSuffix]. *)
Definition strings_HasSuffix (s suffix : string) : bool :=
  (String.length suffix <=? String.length s)%nat
  && String.eqb
       (substring (String.length s - String.length suffix) (String.length suffix) s)
       suffix.

Fixpoint all_ascii (s : string) : bool :=
  match s with
  | EmptyString => true
  | String c r => (nat_of_ascii c <? 128)%nat && all_ascii r
  end.

Section Services.
Import Lara.
Context {rt : Runtime} {sv : Services}.

(** [strings.ToLower]: ASCII text is lowered byte by byte; other text goes
    through [unicode.ToLower]. *)
Definition strings_ToLower (s : string) : string :=
  if all_ascii s then Strings.map_string Strings.lower_ascii s else unicode_ToLower s.

(** ** glossaries.go: [Export] *)

Definition GlossariesService_Export (c : Client) (x : Exchange)
    (id contentType : string) (source : option string) : result string :=
  let params : gmap string string := {["content_type" := contentType]} in
  let params :=
    match source with
    | Some s => <["source" := s]> params
    | None => params
    end in
  match Client_GetRaw c x ("/glossaries/" +:+ id +:+ "/export") (range_strings params) []
  with
  | inl err => inl (Errorf_w "failed to export glossary: " err)
  | inr content => inr content
  end.

(** ** memories.go and glossaries.go: imports of files *)

(** The options sent with a file: [compression] when the name of the file
    ends in [.gz], in any case of the letters. *)
Definition isGzipped (fileName : string) : bool :=
  strings_HasSuffix (strings_ToLower fileName) ".gz".

(** [MemoriesService.ImportTmx]. *)
Definition MemoriesService_ImportTmx (c : Client) (x : Exchange) (id : string)
    (tmx : File) : result MemoryImport :=
  let fileName := Name tmx in
  let body : gmap string string :=
    if isGzipped fileName then {["compression" := "gzip"%string]} else ∅ in
  let files := [("tmx"%string, read tmx)] in
  match Client_Post c x ("/memories/" +:+ id +:+ "/import")
          (Some (interface_of_strings body)) files [] json_Unmarshal_Import with
  | inl err => inl (Errorf_w "failed to import TMX: " err)
  | inr memoryImport => inr memoryImport
  end.

(** [MemoriesService.ImportTmxFromPath]. *)
Definition MemoriesService_ImportTmxFromPath (c : Client) (x : Exchange)
    (id tmxPath : string) : result MemoryImport :=
  match os_Open tmxPath with
  | inl err => inl err
  | inr file => MemoriesService_ImportTmx c x id {| Name := tmxPath; read := file |}
  end.

(** [GlossariesService.ImportCsv]. *)
Definition GlossariesService_ImportCsv (c : Client) (x : Exchange) (id : string)
    (csv : File) : result GlossaryImport :=
  let fileName := Name csv in
  let body : gmap string GoValue :=
    if isGzipped fileName then {["compression" := GoString "gzip"]} else ∅ in
  let files := [("csv"%string, read csv)] in
  match Client_Post c x ("/glossaries/" +:+ id +:+ "/import")
          (Some (interface_of_map body)) files [] json_Unmarshal_Import with
  | inl err => inl (Errorf_w "failed to import CSV to glossary: " err)
  | inr glossaryImport => inr glossaryImport
  end.

(** [GlossariesService.ImportCsvFromPath]. *)
Definition GlossariesService_ImportCsvFromPath (c : Client) (x : Exchange)
    (id csvPath : string) : result GlossaryImport :=
  match os_Open csvPath with
  | inl err => inl (Errorf_w "failed to open CSV file: " err)
  | inr file => GlossariesService_ImportCsv c x id {| Name := csvPath; read := file |}
  end.

(** ** memories.go: connecting memories *)

(** [MemoriesService.ConnectMultiple]. *)
Definition MemoriesService_ConnectMultiple (c : Client) (x : Exchange)
    (ids : list string) : result (list Memory) :=
  let body : gmap string GoValue := {["ids" := GoStrings ids]} in
  match Client_Post c x "/memories/connect" (Some (interface_of_map body)) [] []
          json_Unmarshal_Memories with
  | inl err => inl (Errorf_w "failed to connect memories: " err)
  | inr memories => inr memories
  end.

(** [MemoriesService.Connect]. *)
Definition MemoriesService_Connect (c : Client) (x : Exchange) (id : string)
  : result Memory :=
  match MemoriesService_ConnectMultiple c x [id] with
  | inl err => inl err
  | inr memories =>
      match memories with
      | [] => inl (ErrorString ("no memory returned for id " +:+ id))
      | memory :: _ => inr memory
      end
  end.

(** ** Lemmas *)

Lemma length_append (a b : string) :
  String.length (a +:+ b) = (String.length a + String.length b)%nat.
Proof.
  induction a as [|x a IH]; [reflexivity|].
  change (S (String.length (a +:+ b)) = S (String.length a + String.length b)).
  now rewrite IH.
Qed.

Lemma substring_all (s : string) : substring 0 (String.length s) s = s.
Proof. induction s as [|c s IH]; [reflexivity|]. cbn. now rewrite IH. Qed.

Lemma substring_skip (stem suffix : string) :
  substring (String.length stem) (String.length suffix) (stem +:+ suffix) = suffix.
Proof.
  induction stem as [|c stem IH]; [apply substring_all|].
  change (substring (String.length stem) (String.length suffix) (stem +:+ suffix)
          = suffix).
  exact IH.
Qed.

Lemma substring_split (s : string) :
  forall n, (n <= String.length s)%nat ->
            s = substring 0 n s +:+ substring n (String.length s - n) s.
Proof.
  induction s as [|c s IH]; intros [|n] H; cbn in H |- *; try reflexivity; try lia.
  - now rewrite substring_all.
  - change (String c s
            = String c (substring 0 n s +:+ substring n (String.length s - n) s)).
    rewrite <- IH by lia. reflexivity.
Qed.

(** A text has a suffix when it is some text followed by the suffix. *)
Lemma strings_HasSuffix_spec (s suffix : string) :
  strings_HasSuffix s suffix = true <-> exists stem, s = stem +:+ suffix.
Proof.
  unfold strings_HasSuffix. split.
  - intros H. apply andb_prop in H as [Hlen Heq].
    apply Nat.leb_le in Hlen. apply String.eqb_eq in Heq.
    exists (substring 0 (String.length s - String.length suffix) s).
    pose proof (substring_split s (String.length s - String.length suffix)
                  ltac:(lia)) as E.
    replace (String.length s - (String.length s - String.length suffix))%nat
      with (String.length suffix) in E by lia.
    rewrite Heq in E. exact E.
  - intros [stem ->]. rewrite length_append. apply andb_true_intro. split.
    + apply Nat.leb_le. lia.
    + replace (String.length stem + String.length suffix - String.length suffix)%nat
        with (String.length stem) by lia.
      rewrite substring_skip. apply String.eqb_refl.
Qed.

Lemma map_string_append (f : ascii -> ascii) (a b : string) :
  Strings.map_string f (a +:+ b) = Strings.map_string f a +:+ Strings.map_string f b.
Proof.
  induction a as [|x a IH]; [reflexivity|].
  change (String (f x) (Strings.map_string f (a +:+ b))
          = String (f x) (Strings.map_string f a +:+ Strings.map_string f b)).
  now rewrite IH.
Qed.

Lemma map_string_split (f : ascii -> ascii) (a b : string) :
  forall s,
    Strings.map_string f s = a +:+ b ->
    exists sa sb,
      s = sa +:+ sb /\ Strings.map_string f sa = a /\ Strings.map_string f sb = b.
Proof.
  induction a as [|x a IH]; intros s H.
  - exists EmptyString, s. auto.
  - destruct s as [|c s]; [discriminate H|].
    change (String (f c) (Strings.map_string f s) = String x (a +:+ b)) in H.
    inversion H as [[Hc Hs]]. destruct (IH _ Hs) as (sa & sb & -> & Ha & Hb).
    exists (String c sa), sb. repeat split; [|exact Hb].
    cbn. now rewrite Ha.
Qed.

Lemma lower_ascii_dot (c : ascii) :
  Strings.lower_ascii c = "."%char <-> c = "."%char.
Proof.
  destruct c as [[] [] [] [] [] [] [] []]; vm_compute;
    split; intros H; solve [reflexivity | discriminate H].
Qed.

Lemma lower_ascii_g (c : ascii) :
  Strings.lower_ascii c = "g"%char <-> c = "g"%char \/ c = "G"%char.
Proof.
  destruct c as [[] [] [] [] [] [] [] []]; vm_compute;
    (split; [intros H; try discriminate H; auto
            | intros [H|H]; solve [reflexivity | discriminate H]]).
Qed.

Lemma lower_ascii_z (c : ascii) :
  Strings.lower_ascii c = "z"%char <-> c = "z"%char \/ c = "Z"%char.
Proof.
  destruct c as [[] [] [] [] [] [] [] []]; vm_compute;
    (split; [intros H; try discriminate H; auto
            | intros [H|H]; solve [reflexivity | discriminate H]]).
Qed.

(** The names that are taken for compressed files, among ASCII names. *)
Lemma isGzipped_spec (fileName : string) :
  all_ascii fileName = true ->
  (isGzipped fileName = true <->
   exists stem c2 c3,
     fileName = stem +:+ String "." (String c2 (String c3 EmptyString))
     /\ (c2 = "g"%char \/ c2 = "G"%char) /\ (c3 = "z"%char \/ c3 = "Z"%char)).
Proof.
  intros Hascii. unfold isGzipped, strings_ToLower. rewrite Hascii.
  rewrite strings_HasSuffix_spec. split.
  - intros [stem' H].
    apply map_string_split in H as (stem & sb & -> & _ & Hb).
    destruct sb as [|c1 [|c2 [|c3 [|c4 sb]]]]; try discriminate Hb.
    change (String (Strings.lower_ascii c1)
              (String (Strings.lower_ascii c2)
                 (String (Strings.lower_ascii c3) EmptyString))
            = String "." (String "g" (String "z" EmptyString))) in Hb.
    injection Hb as H1 H2 H3.
    apply (proj1 (lower_ascii_dot _)) in H1.
    apply (proj1 (lower_ascii_g _)) in H2. apply (proj1 (lower_ascii_z _)) in H3.
    subst c1. exists stem, c2, c3. auto.
  - intros (stem & c2 & c3 & -> & H2 & H3).
    exists (Strings.map_string Strings.lower_ascii stem).
    rewrite map_string_append. f_equal. cbn.
    rewrite (proj2 (lower_ascii_g c2) H2), (proj2 (lower_ascii_z c3) H3).
    reflexivity.
Qed.

(** [Post], [Put] and [request] from the request that is sent. *)
Lemma request_eq (c : Client) (x : Exchange) (method path : string)
    (params headers : list (string * string)) (body : option Value)
    (files : list (string * Reader)) (req : Request) :
  new_request c x method path params body files headers = inr req ->
  request c x method path params body files headers = handle_response (Do x req).
Proof. intros H. unfold request. rewrite H. reflexivity. Qed.

(** The request of an upload of one readable file with its options. *)
Lemma upload_request (c : Client) (x : Exchange) (method path field data : string)
    (body : Value) (jsonBytes : string) (req : Request) :
  json_Marshal body = inr jsonBytes ->
  new_request c x method path [] (Some body) [(field, inr data)] [] = inr req ->
  Body_ req = Some (multipart_text (randomBoundary x) [(field, data)] (Some jsonBytes))
  /\ Header_ req !! "Content-Type"
     = Some (multipart_content_type (randomBoundary x))
  /\ Header_ req !! "Content-Md5"
     = Some (md5_hex (multipart_text (randomBoundary x) [(field, data)]
                        (Some jsonBytes))).
Proof.
  intros Hj Hreq.
  apply new_request_inr in Hreq as (bodyReader & contentMD5 & contentType & Hbody & ->).
  change [(field, @inr error string data)] with (opened [(field, data)]) in Hbody.
  rewrite (select_body_multipart (randomBoundary x) (Some body) [(field, data)]
             (Some jsonBytes)) in Hbody;
    [|discriminate | unfold marshalled; rewrite Hj; reflexivity].
  inversion Hbody; subst bodyReader contentMD5 contentType.
  cbn [Body_ Header_]. split; [reflexivity|].
  pose proof (fixed_headers_lookup c (httpDate x) method
                (md5_hex (multipart_text (randomBoundary x) [(field, data)]
                            (Some jsonBytes)))
                (multipart_content_type (randomBoundary x)))
    as (_ & _ & _ & _ & Hct & Hmd5 & _).
  rewrite multipart_content_type_set in Hct. rewrite md5_hex_set in Hmd5.
  rewrite !authorize_other by discriminate.
  split; assumption.
Qed.

End Services.

(** ** A world to run the services in *)

Module ServicesModel.
Import Json.

Definition json_of_string (s : string) : json := JString (list_ascii_of_string s).

(** Plain texts only: nothing is escaped. *)
Definition json_of_value (v : GoValue) : json :=
  match v with
  | GoString s => json_of_string s
  | GoStrings l => JArray (map json_of_string l)
  | GoInt n =>
      JNumber (list_ascii_of_string
                 (DecimalString.NilZero.string_of_int (Z.to_int n)))
  | GoBool b => JBool b
  | GoTextBlocks l =>
      JArray (map (fun b =>
                     JObject [(list_ascii_of_string "text", json_of_string (Text b));
                              (list_ascii_of_string "translatable",
                               JBool (Translatable b))]) l)
  end.

Definition json_of_map {A : Type} (f : A -> json) (m : gmap string A) : json :=
  JObject (map (fun kv => (list_ascii_of_string (fst kv), f (snd kv)))
               (sorting.merge_sort (fun a b => Is_true (String.leb (fst a) (fst b)))
                           (map_to_list m))).

Definition zero_TextResult : TextResult :=
  {| ContentType := EmptyString; SourceLanguage := EmptyString;
     Translation_ := {| String_ := None; Strings := None; TextBlocks := None |};
     AdaptedTo := []; TextResult_Glossaries := [];
     AdaptedToMatches := []; GlossariesMatches := [] |}.

(** The members [url] and [fields] of an upload answer, the fields being
    strings. *)
Definition Unmarshal_uploadResponse (s : string) : Lara.result uploadResponse :=
  match Model.object_of s with
  | inl err => inl err
  | inr ms =>
      match Model.string_field "url" ms, Model.member "fields" ms with
      | Some url, Some (JObject fs) =>
          match
            fold_left
              (fun acc kv =>
                 match acc, Lara.decode_string (snd kv) with
                 | Some m, Some (Some v) =>
                     Some (<[Decode.unquote (fst kv) := v]> m)
                 | _, _ => None
                 end) fs (Some (∅ : gmap string string))
          with
          | Some m =>
              inr {| uploadResponse_URL := Model.or_default EmptyString url;
                     Fields := m |}
          | None => inl Model.type_error
          end
      | Some url, None =>
          inr {| uploadResponse_URL := Model.or_default EmptyString url; Fields := ∅ |}
      | _, _ => inl Model.type_error
      end
  end.

Definition Unmarshal_downloadResponse (s : string) : Lara.result downloadResponse :=
  match Model.object_of s with
  | inl err => inl err
  | inr ms =>
      match Model.string_field "url" ms with
      | Some url => inr {| downloadResponse_URL := Model.or_default EmptyString url |}
      | None => inl Model.type_error
      end
  end.

(** No file can be opened but [/tmp/a.docx]; of the lists only the empty
    one is decoded, and no text result is. *)
#[export] Instance services : Services (rt := Model.runtime) := {|
  interface_of_map :=
    (json_of_map json_of_value : gmap string GoValue -> @Lara.Value Model.runtime);
  interface_of_strings :=
    (json_of_map json_of_string : gmap string string -> @Lara.Value Model.runtime);
  range_strings := map_to_list;
  range_strings_perm := fun m => reflexivity (map_to_list m);
  unicode_ToLower := fun s => s;
  os_Open :=
    fun path =>
      if String.eqb path "/tmp/a.docx" then inr (inr "docx bytes"%string)
      else inl (Lara.ErrorString ("open " +:+ path +:+ ": no such file or directory"));
  Any := string;
  fmt_Sprint := fun s => s;
  json_Unmarshal_Memories :=
    fun s => if String.eqb s "[]" then inr [] else inl Model.type_error;
  json_Unmarshal_TextResult := fun _ => inl Model.type_error;
  json_Unmarshal_Languages :=
    fun s => if String.eqb s "[]" then inr [] else inl Model.type_error;
  json_Unmarshal_uploadResponse := Unmarshal_uploadResponse;
  json_Unmarshal_downloadResponse := Unmarshal_downloadResponse |}.

End ServicesModel.

(** * translator.go: the translator, text translation, translations as
      they are decoded *)

(** [Credentials] and [NewCredentials]. *)
Record Credentials := {
  Credentials_accessKeyID : string;
  Credentials_accessKeySecret : string }.

Definition NewCredentials (accessKeyID accessKeySecret : string) : Credentials :=
  {| Credentials_accessKeyID := accessKeyID;
     Credentials_accessKeySecret := accessKeySecret |}.

Record TranslatorOptions := {
  ServerURL : string }.

(** The services hold the client; the S3 client holds an HTTP client of
    its own and nothing else. *)
Record MemoriesService := {
  MemoriesService_client : Lara.Client }.

Definition newMemoriesService (client : Lara.Client) : MemoriesService :=
  {| MemoriesService_client := client |}.

Inductive S3Client := newS3Client.

Record DocumentsService := {
  DocumentsService_client : Lara.Client;
  s3Client : S3Client }.

Module Translator.
Record t := {
  client : Lara.Client;
  Documents : DocumentsService;
  Memories : MemoriesService;
  Glossaries : Lara.GlossariesService }.
End Translator.

(** [NewTranslator]; [None] is a [nil] pointer. *)
Definition NewTranslator (credentials : option Credentials)
    (options : option TranslatorOptions) : Translator.t :=
  let credentials :=
    match credentials with
    | Some credentials => credentials
    | None => NewCredentials "" ""
    end in
  let serverURL :=
    match options with
    | Some o =>
        if negb (String.eqb (ServerURL o) "") then ServerURL o
        else "https://api.laratranslate.com"%string
    | None => "https://api.laratranslate.com"%string
    end in
  let client :=
    Lara.newClient (Credentials_accessKeyID credentials)
      (Credentials_accessKeySecret credentials) serverURL in
  let s3Client := newS3Client in
  {| Translator.client := client;
     Translator.Documents := {| DocumentsService_client := client; s3Client := s3Client |};
     Translator.Memories := newMemoriesService client;
     Translator.Glossaries := Lara.newGlossariesService client |}.

Module TranslateOptions.
(** A [nil] map of headers is the empty map; a header whose value is
    [nil] is [None]. *)
Record t {rt : Lara.Runtime} {sv : Services} := {
  AdaptTo : list string;
  Glossaries : list string;
  Instructions : list string;
  ContentType : string;
  Multiline : option bool;
  TimeoutMs : Z;
  Priority : string;
  UseCache : option bool;
  CacheTTL : option Z;
  SourceHint : string;
  NoTrace : option bool;
  Verbose : option bool;
  Headers : gmap string (option Any) }.
End TranslateOptions.

Section Translator.
Context {rt : Lara.Runtime} {sv : Services}.

(** The body of [Translator.Translate] once the text [q] is in it. *)
Definition Translate_fields (q : GoValue) (source target : string)
    (opts : TranslateOptions.t) : gmap string GoValue :=
      let body : gmap string GoValue := {["q" := q]} in
      let body := <["target" := GoString target]> body in
      let body :=
        if negb (String.eqb source "") then <["source" := GoString source]> body
        else body in
      let body :=
        if negb (String.eqb (TranslateOptions.SourceHint opts) "")
        then <["source_hint" := GoString (TranslateOptions.SourceHint opts)]> body
        else body in
      let body :=
        if (0 <? List.length (TranslateOptions.AdaptTo opts))%nat
        then <["adapt_to" := GoStrings (TranslateOptions.AdaptTo opts)]> body
        else body in
      let body :=
        if (0 <? List.length (TranslateOptions.Glossaries opts))%nat
        then <["glossaries" := GoStrings (TranslateOptions.Glossaries opts)]> body
        else body in
      let body :=
        if (0 <? List.length (TranslateOptions.Instructions opts))%nat
        then <["instructions" := GoStrings (TranslateOptions.Instructions opts)]> body
        else body in
      let body :=
        if negb (String.eqb (TranslateOptions.ContentType opts) "")
        then <["content_type" := GoString (TranslateOptions.ContentType opts)]> body
        else body in
      let body :=
        match TranslateOptions.Multiline opts with
        | Some b => <["multiline" := GoBool b]> body
        | None => body
        end in
      let body :=
        if 0 <? TranslateOptions.TimeoutMs opts
        then <["timeout" := GoInt (TranslateOptions.TimeoutMs opts)]> body
        else body in
      let body :=
        if negb (String.eqb (TranslateOptions.Priority opts) "")
        then <["priority" := GoString (TranslateOptions.Priority opts)]> body
        else body in
      let body :=
        match TranslateOptions.UseCache opts with
        | Some b => <["use_cache" := GoBool b]> body
        | None => body
        end in
      let body :=
        match TranslateOptions.CacheTTL opts with
        | Some n => <["cache_ttl" := GoInt n]> body
        | None => body
        end in
      let body :=
        match TranslateOptions.Verbose opts with
        | Some b => <["verbose" := GoBool b]> body
        | None => body
        end in
      body.

(** The body of [Translator.Translate], or its refusal of a text that is
    neither a string, a list of strings nor a list of text blocks. *)
Definition Translate_body (text : GoValue) (source target : string)
    (opts : TranslateOptions.t) : Lara.result (gmap string GoValue) :=
  match text with
  | GoString _ | GoStrings _ | GoTextBlocks _ =>
      inr (Translate_fields text source target opts)
  | GoInt _ | GoBool _ =>
      inl (Lara.ErrorString "text must be string, []string, or []TextBlock")
  end.

(** The headers of [Translator.Translate]: the caller's headers whose
    value is not [nil], as [fmt.Sprint] prints them, and [X-No-Trace] when
    asked for. *)
Definition Translate_headers (opts : TranslateOptions.t) : gmap string string :=
  let headers : gmap string string :=
    omap (fun value : option Any => fmt_Sprint <$> value)
         (TranslateOptions.Headers opts) in
  match TranslateOptions.NoTrace opts with
  | Some true => <["X-No-Trace" := "true"%string]> headers
  | _ => headers
  end.

(** [Translator.Translate]. *)
Definition Translator_Translate (t : Translator.t) (x : Lara.Exchange)
    (text : GoValue) (source target : string) (opts : TranslateOptions.t)
  : Lara.result TextResult :=
  match Translate_body text source target opts with
  | inl err => inl err
  | inr body =>
      let headers := Translate_headers opts in
      match Lara.Client_Post (Translator.client t) x "/translate"
              (Some (interface_of_map body)) [] (range_strings headers)
              json_Unmarshal_TextResult with
      | inl err => inl (Lara.Errorf_w "failed to translate text: " err)
      | inr result => inr result
      end
  end.

(** [Translator.Languages]. *)
Definition Translator_Languages (t : Translator.t) (x : Lara.Exchange)
  : Lara.result (list string) :=
  match Lara.Client_Get (Translator.client t) x "/languages" [] []
          json_Unmarshal_Languages with
  | inl err => inl (Lara.Errorf_w "failed to get languages: " err)
  | inr languages => inr languages
  end.

(** ** Lemmas on headers that come from a map *)

Lemma range_strings_elem (m : gmap string string) (k v : string) :
  (k, v) ∈ range_strings m <-> m !! k = Some v.
Proof. rewrite (range_strings_perm m). apply elem_of_map_to_list. Qed.

Lemma range_strings_NoDup (m : gmap string string) : NoDup (range_strings m).
Proof. rewrite (range_strings_perm m). apply NoDup_map_to_list. Qed.

(** A header that is alone with its canonical name among the caller's
    reaches the request. *)
Lemma apply_headers_alone (h : gmap string string) (l : list (string * string))
    (k v : string) :
  NoDup l -> (k, v) ∈ l ->
  (forall k' v',
      (k', v') ∈ l ->
      Textproto.CanonicalMIMEHeaderKey k' = Textproto.CanonicalMIMEHeaderKey k ->
      (k', v') = (k, v)) ->
  Lara.apply_headers h l !! Textproto.CanonicalMIMEHeaderKey k = Some v.
Proof.
  intros Hnd Hin Halone.
  apply list_elem_of_split in Hin as (l1 & l2 & ->).
  apply apply_headers_last. apply List.Forall_forall. intros [k' v'] Hin' Hcanon.
  apply list_elem_of_In in Hin'.
  assert ((k', v') = (k, v)) as E
      by (apply Halone; [apply elem_of_app; right; right; exact Hin' | exact Hcanon]).
  apply NoDup_app in Hnd as (_ & _ & Hnd). apply NoDup_cons in Hnd as [Hnot _].
  rewrite E in Hin'. contradiction.
Qed.

Lemma apply_headers_absent (h : gmap string string) (l : list (string * string))
    (key : string) :
  (forall k v, (k, v) ∈ l -> Textproto.CanonicalMIMEHeaderKey k <> key) ->
  Lara.apply_headers h l !! key = h !! key.
Proof.
  intros H. apply apply_headers_other. apply List.Forall_forall.
  intros [k v] Hin. apply (H k v). apply list_elem_of_In. exact Hin.
Qed.

Lemma Translate_headers_lookup (opts : TranslateOptions.t) (name : string) :
  Translate_headers opts !! name
  = if String.eqb name "X-No-Trace"
       && match TranslateOptions.NoTrace opts with Some true => true | _ => false end
    then Some "true"%string
    else match TranslateOptions.Headers opts !! name with
         | Some (Some value) => Some (fmt_Sprint value)
         | _ => None
         end.
Proof.
  unfold Translate_headers. cbv zeta.
  assert (omap (fun value : option Any => fmt_Sprint <$> value)
               (TranslateOptions.Headers opts) !! name
          = match TranslateOptions.Headers opts !! name with
            | Some (Some value) => Some (fmt_Sprint value)
            | _ => None
            end) as Hbase.
  { rewrite lookup_omap.
    destruct (TranslateOptions.Headers opts !! name) as [[value|]|]; reflexivity. }
  destruct (String.eqb_spec name "X-No-Trace") as [->|N]; cbn [andb].
  - destruct (TranslateOptions.NoTrace opts) as [[|]|];
      [apply lookup_insert_eq | exact Hbase | exact Hbase].
  - destruct (TranslateOptions.NoTrace opts) as [[|]|];
      [rewrite lookup_insert_ne by congruence; exact Hbase | exact Hbase | exact Hbase].
Qed.

(** Lookups through the conditional insertions of a body. *)
Lemma lookup_if_insert_ne {A : Type} (b : bool) (k k' : string) (v : A)
    (m : gmap string A) :
  k <> k' -> (if b then <[k := v]> m else m) !! k' = m !! k'.
Proof. intros N. destruct b; [apply lookup_insert_ne, N | reflexivity]. Qed.

Lemma lookup_if_insert_eq {A : Type} (b : bool) (k : string) (v : A)
    (m : gmap string A) :
  (if b then <[k := v]> m else m) !! k = if b then Some v else m !! k.
Proof. destruct b; [apply lookup_insert_eq | reflexivity]. Qed.

Lemma lookup_match_insert_ne {A B : Type} (o : option B) (f : B -> A) (k k' : string)
    (m : gmap string A) :
  k <> k' ->
  match o with Some x => <[k := f x]> m | None => m end !! k' = m !! k'.
Proof. intros N. destruct o; [apply lookup_insert_ne, N | reflexivity]. Qed.

Lemma lookup_match_insert_eq {A B : Type} (o : option B) (f : B -> A) (k : string)
    (m : gmap string A) :
  match o with Some x => <[k := f x]> m | None => m end !! k
  = match o with Some x => Some (f x) | None => m !! k end.
Proof. destruct o; [apply lookup_insert_eq | reflexivity]. Qed.

End Translator.

Ltac body_lookup :=
  repeat first
    [ rewrite lookup_match_insert_ne by discriminate
    | rewrite lookup_if_insert_ne by discriminate
    | rewrite lookup_insert_ne by discriminate ].

Section TranslateFields.
Context {rt : Lara.Runtime} {sv : Services}.
Variables (q : GoValue) (source target : string) (opts : TranslateOptions.t).

Lemma Translate_fields_q : Translate_fields q source target opts !! "q" = Some q.
Proof.
  unfold Translate_fields. cbv zeta. body_lookup. apply lookup_singleton_eq.
Qed.

Lemma Translate_fields_target :
  Translate_fields q source target opts !! "target" = Some (GoString target).
Proof. unfold Translate_fields. cbv zeta. body_lookup. apply lookup_insert_eq. Qed.

Lemma Translate_fields_source :
  Translate_fields q source target opts !! "source"
  = if String.eqb source "" then None else Some (GoString source).
Proof.
  unfold Translate_fields. cbv zeta. body_lookup. rewrite lookup_if_insert_eq.
  destruct (String.eqb source ""); cbn [negb]; [|reflexivity].
  body_lookup. apply lookup_singleton_ne. discriminate.
Qed.

Lemma Translate_fields_timeout :
  Translate_fields q source target opts !! "timeout"
  = if 0 <? TranslateOptions.TimeoutMs opts
    then Some (GoInt (TranslateOptions.TimeoutMs opts)) else None.
Proof.
  unfold Translate_fields. cbv zeta. body_lookup. rewrite lookup_if_insert_eq.
  destruct (0 <? TranslateOptions.TimeoutMs opts); [reflexivity|].
  body_lookup. apply lookup_singleton_ne. discriminate.
Qed.

Lemma Translate_fields_adapt_to :
  Translate_fields q source target opts !! "adapt_to"
  = match TranslateOptions.AdaptTo opts with
    | [] => None
    | _ :: _ => Some (GoStrings (TranslateOptions.AdaptTo opts))
    end.
Proof.
  unfold Translate_fields. cbv zeta. body_lookup. rewrite lookup_if_insert_eq.
  destruct (TranslateOptions.AdaptTo opts); cbn; [|reflexivity].
  body_lookup. apply lookup_singleton_ne. discriminate.
Qed.

Lemma Translate_fields_multiline :
  Translate_fields q source target opts !! "multiline"
  = GoBool <$> TranslateOptions.Multiline opts.
Proof.
  unfold Translate_fields. cbv zeta. body_lookup. rewrite lookup_match_insert_eq.
  destruct (TranslateOptions.Multiline opts); [reflexivity|].
  body_lookup. apply lookup_singleton_ne. discriminate.
Qed.

Lemma Translate_fields_use_cache :
  Translate_fields q source target opts !! "use_cache"
  = GoBool <$> TranslateOptions.UseCache opts.
Proof.
  unfold Translate_fields. cbv zeta. body_lookup. rewrite lookup_match_insert_eq.
  destruct (TranslateOptions.UseCache opts); [reflexivity|].
  body_lookup. apply lookup_singleton_ne. discriminate.
Qed.

Lemma Translate_fields_verbose :
  Translate_fields q source target opts !! "verbose"
  = GoBool <$> TranslateOptions.Verbose opts.
Proof.
  unfold Translate_fields. cbv zeta. rewrite lookup_match_insert_eq.
  destruct (TranslateOptions.Verbose opts); [reflexivity|].
  body_lookup. apply lookup_singleton_ne. discriminate.
Qed.

Lemma Translate_fields_no_trace :
  Translate_fields q source target opts !! "no_trace" = None.
Proof.
  unfold Translate_fields. cbv zeta. body_lookup. apply lookup_singleton_ne.
  discriminate.
Qed.

Lemma Translate_body_inr (body : gmap string GoValue) :
  Translate_body q source target opts = inr body ->
  body = Translate_fields q source target opts.
Proof.
  unfold Translate_body. destruct q; intros H; inversion H; reflexivity.
Qed.

End TranslateFields.

(** ** [Translation.UnmarshalJSON] *)

Section TranslationDecoding.
Import Json.

(** [json.Unmarshal] of a value into a string that holds the empty
    string: [null] leaves it as it is. *)
Definition Unmarshal_string (v : json) : option string :=
  match v with
  | JString l => Some (Decode.unquote l)
  | JNull => Some EmptyString
  | _ => None
  end.

(** Into a slice of strings; [Some None] is the [nil] slice. *)
Definition Unmarshal_strings (v : json) : option (option (list string)) :=
  match v with
  | JArray vs => Some <$> mapM Unmarshal_string vs
  | JNull => Some None
  | _ => None
  end.

Definition decode_bool (v : json) : option (option bool) :=
  match v with
  | JNull => Some None
  | JBool b => Some (Some b)
  | _ => None
  end.

(** The members of a text block, in order. *)
Definition decode_TextBlock_member (acc : option TextBlock) (kv : list ascii * json)
  : option TextBlock :=
  match acc with
  | None => None
  | Some b =>
      if Decode.field_match "text" (fst kv) then
        match Lara.decode_string (snd kv) with
        | Some (Some s) => Some {| Text := s; Translatable := Translatable b |}
        | Some None => Some b
        | None => None
        end
      else if Decode.field_match "translatable" (fst kv) then
        match decode_bool (snd kv) with
        | Some (Some t) => Some {| Text := Text b; Translatable := t |}
        | Some None => Some b
        | None => None
        end
      else Some b
  end.

Definition Unmarshal_TextBlock (v : json) : option TextBlock :=
  match v with
  | JObject ms =>
      fold_left decode_TextBlock_member ms
        (Some {| Text := EmptyString; Translatable := false |})
  | JNull => Some {| Text := EmptyString; Translatable := false |}
  | _ => None
  end.

Definition Unmarshal_TextBlocks (v : json) : option (option (list TextBlock)) :=
  match v with
  | JArray vs => Some <$> mapM Unmarshal_TextBlock vs
  | JNull => Some None
  | _ => None
  end.

(** [Translation.UnmarshalJSON]: the three attempts in turn, each on the
    whole text. *)
Definition Translation_UnmarshalJSON (t : Translation) (data : string)
  : Lara.result Translation :=
  let v := parse (list_ascii_of_string data) in
  match v ≫= Unmarshal_string with
  | Some singleString =>
      inr {| String_ := Some singleString; Strings := Strings t;
             TextBlocks := TextBlocks t |}
  | None =>
      match v ≫= Unmarshal_strings with
      | Some stringSlice =>
          inr {| String_ := String_ t; Strings := stringSlice;
                 TextBlocks := TextBlocks t |}
      | None =>
          match v ≫= Unmarshal_TextBlocks with
          | Some textBlocks =>
              inr {| String_ := String_ t; Strings := Strings t;
                     TextBlocks := textBlocks |}
          | None => inl (Lara.ErrorString "translation: unsupported data type")
          end
      end
  end.

Definition is_string_or_null (v : json) : bool :=
  match v with JString _ | JNull => true | _ => false end.

Definition is_object_or_null (v : json) : bool :=
  match v with JObject _ | JNull => true | _ => false end.

(** The string an element of an array of strings stands for. *)
Definition string_of_element (v : json) : string :=
  match v with JString l => Decode.unquote l | _ => EmptyString end.

Lemma mapM_Unmarshal_string (vs : list json) :
  mapM Unmarshal_string vs
  = if forallb is_string_or_null vs then Some (map string_of_element vs) else None.
Proof.
  induction vs as [|v vs IH]; [reflexivity|].
  cbn [mapM forallb map]. change (mapM Unmarshal_string vs) with (mapM Unmarshal_string vs).
  destruct v as [|b|l|l|es|ms]; cbn [Unmarshal_string is_string_or_null andb mbind
                                       option_bind string_of_element];
    try reflexivity.
  - cbn. rewrite IH. destruct (forallb is_string_or_null vs); reflexivity.
  - cbn. rewrite IH. destruct (forallb is_string_or_null vs); reflexivity.
Qed.

Lemma mapM_Unmarshal_TextBlock_other (vs : list json) :
  forallb is_object_or_null vs = false -> mapM Unmarshal_TextBlock vs = None.
Proof.
  induction vs as [|v vs IH]; [discriminate|].
  cbn [forallb]. intros H. apply andb_false_iff in H.
  destruct v as [|b|l|l|es|ms]; cbn in H |- *; try reflexivity.
  - destruct H as [H|H]; [discriminate|]. rewrite (IH H). reflexivity.
  - destruct H as [H|H]; [discriminate|]. rewrite (IH H).
    destruct (fold_left decode_TextBlock_member ms _); reflexivity.
Qed.

End TranslationDecoding.

(** Options to run the translator with: one line only, no trace, and a
    header of the caller's. *)
Definition traceless : TranslateOptions.t (sv := ServicesModel.services) :=
  {| TranslateOptions.AdaptTo := []; TranslateOptions.Glossaries := [];
     TranslateOptions.Instructions := []; TranslateOptions.ContentType := EmptyString;
     TranslateOptions.Multiline := Some false; TranslateOptions.TimeoutMs := 0;
     TranslateOptions.Priority := EmptyString; TranslateOptions.UseCache := None;
     TranslateOptions.CacheTTL := None; TranslateOptions.SourceHint := EmptyString;
     TranslateOptions.NoTrace := Some true; TranslateOptions.Verbose := None;
     TranslateOptions.Headers :=
       ({["X-Request-Id"%string := Some ("42"%string : @Any _ ServicesModel.services)]}
        : gmap string (option (@Any _ ServicesModel.services))) |}.

(** * The properties of the specification *)

(** C1. For every method, path, content hash, content type and date, and
    whatever upper-casing the runtime provides, [Client.sign] returns the
    base64 text of the HMAC-SHA256, keyed by the secret, of
    [UPPERCASE(method)], path, content hash, content type and date joined
    by newlines in this order; empty fields stay in as empty strings, so
    that a request without body signs [METHOD\npath\n\n\ndate]; the
    function is total, and decoding the signature gives 32 bytes. *)
Theorem C1_sign_is_base64_hmac_sha256 :
  forall (rt : Lara.Runtime) (c : Lara.Client)
         (method path contentHash contentType date : string),
    Lara.sign c method path contentHash contentType date
    = signature_of (Lara.accessKeySecret c)
        [Lara.strings_ToUpper method; path; contentHash; contentType; date]
    /\ String.concat Lara.NL [Lara.strings_ToUpper method; path; ""; ""; date]%string
       = (Lara.strings_ToUpper method +:+ Lara.NL +:+ path +:+ Lara.NL +:+ Lara.NL
            +:+ Lara.NL +:+ date)
    /\ exists digest : list byte,
         Base64.DecodeString (Lara.sign c method path contentHash contentType date)
         = Some digest
         /\ List.length digest = 32%nat.
Proof.
  intros rt c method path contentHash contentType date.
  split; [reflexivity|]. split; [reflexivity|].
  unfold Lara.sign. rewrite DecodeString_EncodeToString.
  eexists. split; [reflexivity|]. apply sha256_Sum256_length.
Qed.

(** C2, as the code has it.  A failed exchange is a timeout failure when
    the message of the transport error contains [timeout], a connection
    failure for any other transport error; an answer whose status is
    outside [200, 300) is an API failure with the status, type and message
    of its body when the body decodes as an error envelope whose type is
    not empty, and otherwise a plain error that carries the raw body after
    [API error: ].  These failures have exactly one of the four kinds.  A
    response body that cannot be read is none of them: the read error comes
    back wrapped after [failed to read response body: ], whatever its
    message.  A 404 answer with the envelope of type [NotFound] and message
    [nope] is the API failure with these three values; a 500 answer that is
    no JSON is the plain error with its text. *)
Theorem C2_failures_of_an_exchange :
  (forall err,
      Lara.handle_response (Lara.DoError err)
      = inl (if Strings.Contains (Lara.Error err) "timeout"
             then Lara.LaraTimeoutError (Lara.Error err)
             else Lara.LaraConnectionError (Lara.Error err)))
  /\ (forall StatusCode respBody a,
        not_2xx StatusCode ->
        Lara.json_Unmarshal_apiError respBody = Some a ->
        Lara.apiError_Type a <> EmptyString ->
        Lara.handle_response (Lara.DoResponse StatusCode (inr respBody))
        = inl (Lara.LaraError (Lara.apiError_Status a) (Lara.apiError_Type a)
                 (Lara.apiError_Message a)))
  /\ (forall StatusCode respBody,
        not_2xx StatusCode ->
        Lara.json_Unmarshal_apiError respBody = None
        \/ (exists a, Lara.json_Unmarshal_apiError respBody = Some a
                      /\ Lara.apiError_Type a = EmptyString) ->
        Lara.handle_response (Lara.DoResponse StatusCode (inr respBody))
        = inl (Lara.ErrorString ("API error: " +:+ respBody)))
  /\ (forall StatusCode respBody,
        200 <= StatusCode < 300 ->
        Lara.handle_response (Lara.DoResponse StatusCode (inr respBody)) = inr respBody)
  /\ (forall r e,
        Lara.handle_response r = inl e ->
        (forall StatusCode err, r <> Lara.DoResponse StatusCode (inl err)) ->
        exists k, failure_kind e = Some k)
  /\ (forall StatusCode err,
        Lara.handle_response (Lara.DoResponse StatusCode (inl err))
        = inl (Lara.WrapError ("failed to read response body: " +:+ Lara.Error err) err)
        /\ failure_kind
             (Lara.WrapError ("failed to read response body: " +:+ Lara.Error err) err)
           = None)
  /\ Lara.handle_response (Lara.DoResponse 404 (inr not_found_body))
     = inl (Lara.LaraError 404 "NotFound" "nope")
  /\ Lara.handle_response (Lara.DoResponse 500 (inr "<html>Bad Gateway</html>"%string))
     = inl (Lara.ErrorString "API error: <html>Bad Gateway</html>").
Proof.
  repeat apply conj.
  - intros err. cbn [Lara.handle_response].
    destruct (Strings.Contains (Lara.Error err) "timeout"); reflexivity.
  - intros StatusCode respBody a Hs Ha Ht. cbn [Lara.handle_response].
    rewrite (not_2xx_test _ Hs), Ha.
    destruct (String.eqb_spec (Lara.apiError_Type a) ""); [contradiction | reflexivity].
  - intros StatusCode respBody Hs [Ha|(a & Ha & Ht)]; cbn [Lara.handle_response];
      rewrite (not_2xx_test _ Hs), Ha; [reflexivity|].
    rewrite Ht. reflexivity.
  - intros StatusCode respBody [H1 H2]. cbn [Lara.handle_response].
    rewrite (proj2 (Z.ltb_ge _ _) H1), (proj2 (Z.leb_gt _ _) H2). reflexivity.
  - intros r e H Hread. destruct r as [err|StatusCode [err|respBody]];
      cbn [Lara.handle_response] in H.
    + destruct (Strings.Contains (Lara.Error err) "timeout"); inversion H; cbn; eauto.
    + exfalso. exact (Hread _ _ eq_refl).
    + destruct ((StatusCode <? 200) || (300 <=? StatusCode)); [|discriminate H].
      destruct (Lara.json_Unmarshal_apiError respBody) as [a|].
      * destruct (negb (String.eqb (Lara.apiError_Type a) "")); inversion H; cbn.
        -- eauto.
        -- rewrite (prefix_append "API error: " respBody). eauto.
      * inversion H. cbn. rewrite (prefix_append "API error: " respBody). eauto.
  - intros StatusCode err. split; reflexivity.
  - vm_compute. reflexivity.
  - vm_compute. reflexivity.
Qed.

(** The theorem at work on the answers of the specification. *)
Lemma C2_witness :
  not_2xx 404
  /\ Lara.handle_response (Lara.DoResponse 404 (inr not_found_body))
     = inl (Lara.LaraError 404 "NotFound" "nope")
  /\ Lara.handle_response (Lara.DoResponse 502 (inr "<html>Bad Gateway</html>"%string))
     = inl (Lara.ErrorString "API error: <html>Bad Gateway</html>")
  /\ Lara.handle_response (Lara.DoResponse 204 (inr EmptyString)) = inr EmptyString.
Proof.
  pose proof C2_failures_of_an_exchange as (_ & Hapi & Hgeneric & Hok & _).
  split; [right; lia|]. split; [|split].
  - apply (Hapi 404 not_found_body
             {| Lara.apiError_Status := 404; Lara.apiError_Type := "NotFound";
                Lara.apiError_Message := "nope" |}).
    + right; lia.
    + vm_compute; reflexivity.
    + intros H; discriminate H.
  - apply Hgeneric; [right; lia | left; vm_compute; reflexivity].
  - apply Hok. lia.
Defined.

(** C2 as the specification words it fails: a request whose response body
    cannot be read fails with an error of none of the four kinds, even when
    the message of the read error speaks of a timeout. *)
Lemma C2_counterexample :
  exists e,
    Lara.handle_response
      (Lara.DoResponse 200 (inl (Lara.ErrorString "read tcp 10.0.0.7:443: i/o timeout")))
    = inl e
    /\ Strings.Contains "read tcp 10.0.0.7:443: i/o timeout" "timeout" = true
    /\ failure_kind e = None
    /\ (forall msg, e <> Lara.LaraTimeoutError msg)
    /\ (forall msg, e <> Lara.LaraConnectionError msg)
    /\ (forall s t m, e <> Lara.LaraError s t m)
    /\ (forall body, e <> Lara.ErrorString ("API error: " +:+ body)).
Proof.
  eexists. split; [reflexivity|]. split; [vm_compute; reflexivity|].
  split; [reflexivity|]. repeat split; intros; discriminate.
Qed.

(** C3, as the code has it.  When an import loop evaluates its condition for
    the [k]-th time on a snapshot still in progress and the time elapsed
    since the call began exceeds the maximum wait, every run with enough
    fuel stops there: it returns the snapshot it holds and a plain error
    whose message is [timeout waiting for import to complete] (memories) or
    [timeout waiting for glossary import to complete] (glossaries), not a
    [LaraTimeoutError]; the check comes before the sleep, so the trace has
    its [k] sleeps, each followed by a successful status request, and
    nothing more.  The snapshot returned is the initial one when nothing was
    fetched, otherwise the last one fetched, as the callback left it.
    Conversely a run reports this error only at such a check. *)
Theorem C3_timeout_is_a_plain_error :
  forall (rt : Lara.Runtime) (c : Lara.Client) (g : Lara.GlossariesService)
         (w : Lara.Poll) (updateCallback : option (Lara.Import -> Lara.Import))
         (initial : Lara.Import),
    (forall m k st,
        memories_state c w updateCallback (Some m) k initial = Some st ->
        Lara.in_progress (Lara.current st) = true ->
        m < Lara.since w k ->
        (forall fuel, (k < fuel)%nat ->
           Lara.MemoriesService_WaitForImport fuel c w initial updateCallback (Some m)
           = Some {| Lara.snapshot := Lara.current st;
                     Lara.failure :=
                       Some (Lara.ErrorString "timeout waiting for import to complete");
                     Lara.events := Lara.trace st |})
        /\ sleeps (Lara.trace st) = k
        /\ requests (Lara.trace st) = k
        /\ List.length (statuses (Lara.trace st)) = k
        /\ Lara.current st
           = match last (statuses (Lara.trace st)) with
             | Some u => seen updateCallback u
             | None => initial
             end)
    /\ (forall m k st,
          glossaries_state g w updateCallback (Some m) k initial = Some st ->
          Lara.in_progress (Lara.current st) = true ->
          m < Lara.since w k ->
          (forall fuel, (k < fuel)%nat ->
             Lara.GlossariesService_WaitForImport fuel g w initial updateCallback
               (Some m)
             = Some {| Lara.snapshot := Lara.current st;
                       Lara.failure :=
                         Some (Lara.ErrorString
                                 "timeout waiting for glossary import to complete");
                       Lara.events := Lara.trace st |})
          /\ sleeps (Lara.trace st) = k
          /\ requests (Lara.trace st) = k
          /\ List.length (statuses (Lara.trace st)) = k
          /\ Lara.current st
             = match last (statuses (Lara.trace st)) with
               | Some u => seen updateCallback u
               | None => initial
               end)
    /\ (forall fuel maxWaitTime out,
          Lara.MemoriesService_WaitForImport fuel c w initial updateCallback maxWaitTime
          = Some out ->
          Lara.failure out
          = Some (Lara.ErrorString "timeout waiting for import to complete") ->
          exists m k st,
            maxWaitTime = Some m /\ (k < fuel)%nat
            /\ memories_state c w updateCallback maxWaitTime k initial = Some st
            /\ Lara.in_progress (Lara.current st) = true
            /\ m < Lara.since w k
            /\ Lara.snapshot out = Lara.current st
            /\ Lara.events out = Lara.trace st)
    /\ (forall fuel maxWaitTime out,
          Lara.GlossariesService_WaitForImport fuel g w initial updateCallback
            maxWaitTime = Some out ->
          Lara.failure out
          = Some (Lara.ErrorString "timeout waiting for glossary import to complete") ->
          exists m k st,
            maxWaitTime = Some m /\ (k < fuel)%nat
            /\ glossaries_state g w updateCallback maxWaitTime k initial = Some st
            /\ Lara.in_progress (Lara.current st) = true
            /\ m < Lara.since w k
            /\ Lara.snapshot out = Lara.current st
            /\ Lara.events out = Lara.trace st).
Proof.
  intros rt c g w updateCallback initial.
  assert (forall interval timeout_error getStatus fetch_error m k st,
             wait_state Lara.in_progress Lara.ID interval (Lara.past (Some m))
               timeout_error getStatus fetch_error updateCallback w k initial
             = Some st ->
             Lara.in_progress (Lara.current st) = true ->
             m < Lara.since w k ->
             (forall fuel, (k < fuel)%nat ->
                Lara.wait Lara.in_progress Lara.ID interval (Lara.past (Some m))
                  timeout_error getStatus fetch_error updateCallback w fuel initial
                = Some {| Lara.snapshot := Lara.current st;
                          Lara.failure := Some timeout_error;
                          Lara.events := Lara.trace st |})
             /\ sleeps (Lara.trace st) = k
             /\ requests (Lara.trace st) = k
             /\ List.length (statuses (Lara.trace st)) = k
             /\ Lara.current st
                = match last (statuses (Lara.trace st)) with
                  | Some u => seen updateCallback u
                  | None => initial
                  end) as Forward.
  { intros interval timeout_error getStatus fetch_error m k st Hst Hp Hm.
    pose proof (wait_state_turns _ _ _ _ _ _ _ _ _ _ _ _ Hst)
      as (_ & Hit & Hlen & Hs & Hr & _ & Hcur).
    repeat split; try assumption.
    intros fuel Hfuel. eapply wait_reaches; [exact Hst| |exact Hfuel].
    unfold Lara.wait_step. rewrite Hp, Hit, (past_true _ _ Hm). reflexivity. }
  split; [|split; [|split]].
  - intros m k st. apply Forward.
  - intros m k st. apply Forward.
  - intros fuel maxWaitTime out Hrun Hfail.
    apply wait_outcome in Hrun as (k & st & Hk & Hst & Hstep).
    pose proof (wait_state_turns _ _ _ _ _ _ _ _ _ _ _ _ Hst) as (_ & Hit & _).
    apply wait_step_inr in Hstep
        as [(_ & ->)|[(Hp & Ht & ->)|(err & _ & _ & Hg & ->)]];
      cbn [Lara.failure Lara.snapshot Lara.events] in *.
    + discriminate.
    + rewrite Hit in Ht. apply past_inv in Ht as (m & -> & Hm).
      exists m, k, st. repeat split; assumption.
    + apply MemoriesService_GetImportStatus_error in Hg as (e & ->). discriminate.
  - intros fuel maxWaitTime out Hrun Hfail.
    apply wait_outcome in Hrun as (k & st & Hk & Hst & Hstep).
    pose proof (wait_state_turns _ _ _ _ _ _ _ _ _ _ _ _ Hst) as (_ & Hit & _).
    apply wait_step_inr in Hstep
        as [(_ & ->)|[(Hp & Ht & ->)|(err & _ & _ & Hg & ->)]];
      cbn [Lara.failure Lara.snapshot Lara.events] in *.
    + discriminate.
    + rewrite Hit in Ht. apply past_inv in Ht as (m & -> & Hm).
      exists m, k, st. repeat split; assumption.
    + discriminate.
Qed.

(** The theorem at work: three seconds of patience, turns of 2.1 seconds and
    an import that needs three of them. *)
Lemma C3_witness :
  exists st,
    memories_state (rt := Model.runtime) Model.the_client Scenario.steady
      Scenario.observe (Some 3000000000) 2 Scenario.started = Some st
    /\ Lara.in_progress (Lara.current st) = true
    /\ 3000000000 < Lara.since Scenario.steady 2
    /\ Lara.MemoriesService_WaitForImport (rt := Model.runtime) 3 Model.the_client
         Scenario.steady Scenario.started Scenario.observe (Some 3000000000)
       = Some {| Lara.snapshot := Lara.current st;
                 Lara.failure :=
                   Some (Lara.ErrorString "timeout waiting for import to complete");
                 Lara.events := Lara.trace st |}
    /\ sleeps (Lara.trace st) = 2%nat.
Proof.
  eexists.
  assert (memories_state (rt := Model.runtime) Model.the_client Scenario.steady
            Scenario.observe (Some 3000000000) 2 Scenario.started = Some _) as Hst
      by (vm_compute; reflexivity).
  assert (3000000000 < Lara.since Scenario.steady 2) as Hm by (vm_compute; reflexivity).
  split; [exact Hst|]. split; [vm_compute; reflexivity|]. split; [exact Hm|].
  destruct (proj1 (C3_timeout_is_a_plain_error Model.runtime Model.the_client
                     Scenario.glossaries Scenario.steady Scenario.observe
                     Scenario.started)
              3000000000 2%nat _ Hst ltac:(vm_compute; reflexivity) Hm)
    as (Hrun & Hs & _).
  split; [apply Hrun; lia | exact Hs].
Defined.

(** C3 as the specification words it fails: the failure of a wait that runs
    out of time is no [LaraTimeoutError], and with a callback that writes
    through its pointer the snapshot returned is not the one last
    fetched. *)
Lemma C3_counterexample :
  exists out fetched,
    Lara.MemoriesService_WaitForImport (rt := Model.runtime) 10 Model.the_client
      Scenario.steady Scenario.started Scenario.scribble (Some 3000000000)
    = Some out
    /\ 3000000000 < Lara.since Scenario.steady 2
    /\ Lara.failure out
       = Some (Lara.ErrorString "timeout waiting for import to complete")
    /\ (forall msg, Lara.failure out <> Some (Lara.LaraTimeoutError msg))
    /\ last (statuses (Lara.events out)) = Some fetched
    /\ Lara.snapshot out <> fetched.
Proof.
  eexists. eexists.
  split; [vm_compute; reflexivity|].
  split; [vm_compute; reflexivity|].
  split; [reflexivity|].
  split; [intros msg H; discriminate H|].
  split; [vm_compute; reflexivity|].
  intros H. discriminate H.
Qed.

(** C4, as the code has it.  When an import loop evaluates its condition for
    the [k]-th time on a snapshot still in progress, the time is not up and
    the status request fails, every run with enough fuel stops there, after
    one sleep and that one request: it returns the snapshot it holds (the
    initial one, or the last one fetched, as the callback left it) and, for
    memories, the error of the status request itself; for glossaries, a new
    error that wraps it, with the message [failed to get import status: ]
    before its message. *)
Theorem C4_failed_fetch_stops_the_wait :
  forall (rt : Lara.Runtime) (c : Lara.Client) (g : Lara.GlossariesService)
         (w : Lara.Poll) (updateCallback : option (Lara.Import -> Lara.Import))
         (maxWaitTime : option Lara.Duration) (initial : Lara.Import)
         (k : nat) (st : Lara.LoopState Lara.Import) (err : Lara.error),
    (memories_state c w updateCallback maxWaitTime k initial = Some st ->
     Lara.in_progress (Lara.current st) = true ->
     Lara.past maxWaitTime (Lara.since w k) = false ->
     Lara.MemoriesService_GetImportStatus c (Lara.exchange w k)
       (Lara.ID (Lara.current st)) = inl err ->
     (forall fuel, (k < fuel)%nat ->
        Lara.MemoriesService_WaitForImport fuel c w initial updateCallback maxWaitTime
        = Some {| Lara.snapshot := Lara.current st;
                  Lara.failure := Some err;
                  Lara.events :=
                    Lara.trace st
                      ++ [Lara.EvSleep (2 * Lara.Second);
                          Lara.EvStatus (Lara.ID (Lara.current st)) (inl err)] |})
     /\ requests (Lara.trace st) = k
     /\ List.length (statuses (Lara.trace st)) = k
     /\ Lara.current st
        = match last (statuses (Lara.trace st)) with
          | Some u => seen updateCallback u
          | None => initial
          end)
    /\ (glossaries_state g w updateCallback maxWaitTime k initial = Some st ->
        Lara.in_progress (Lara.current st) = true ->
        Lara.past maxWaitTime (Lara.since w k) = false ->
        Lara.GlossariesService_GetImportStatus (Lara.client g) (Lara.exchange w k)
          (Lara.ID (Lara.current st)) = inl err ->
        (forall fuel, (k < fuel)%nat ->
           Lara.GlossariesService_WaitForImport fuel g w initial updateCallback
             maxWaitTime
           = Some {| Lara.snapshot := Lara.current st;
                     Lara.failure :=
                       Some (Lara.WrapError
                               ("failed to get import status: " +:+ Lara.Error err) err);
                     Lara.events :=
                       Lara.trace st
                         ++ [Lara.EvSleep (Lara.pollingInterval g);
                             Lara.EvStatus (Lara.ID (Lara.current st)) (inl err)] |})
        /\ Lara.WrapError ("failed to get import status: " +:+ Lara.Error err) err
           <> err
        /\ requests (Lara.trace st) = k
        /\ List.length (statuses (Lara.trace st)) = k
        /\ Lara.current st
           = match last (statuses (Lara.trace st)) with
             | Some u => seen updateCallback u
             | None => initial
             end).
Proof.
  intros rt c g w updateCallback maxWaitTime initial k st err.
  assert (forall interval timeout_error getStatus fetch_error,
             wait_state Lara.in_progress Lara.ID interval (Lara.past maxWaitTime)
               timeout_error getStatus fetch_error updateCallback w k initial
             = Some st ->
             Lara.in_progress (Lara.current st) = true ->
             Lara.past maxWaitTime (Lara.since w k) = false ->
             getStatus (Lara.exchange w k) (Lara.ID (Lara.current st)) = inl err ->
             (forall fuel, (k < fuel)%nat ->
                Lara.wait Lara.in_progress Lara.ID interval (Lara.past maxWaitTime)
                  timeout_error getStatus fetch_error updateCallback w fuel initial
                = Some {| Lara.snapshot := Lara.current st;
                          Lara.failure := Some (fetch_error err);
                          Lara.events :=
                            Lara.trace st
                              ++ [Lara.EvSleep interval;
                                  Lara.EvStatus (Lara.ID (Lara.current st)) (inl err)] |})
             /\ requests (Lara.trace st) = k
             /\ List.length (statuses (Lara.trace st)) = k
             /\ Lara.current st
                = match last (statuses (Lara.trace st)) with
                  | Some u => seen updateCallback u
                  | None => initial
                  end) as Forward.
  { intros interval timeout_error getStatus fetch_error Hst Hp Ht Hg.
    pose proof (wait_state_turns _ _ _ _ _ _ _ _ _ _ _ _ Hst)
      as (_ & Hit & Hlen & _ & Hr & _ & Hcur).
    repeat split; try assumption.
    intros fuel Hfuel. eapply wait_reaches; [exact Hst| |exact Hfuel].
    unfold Lara.wait_step. rewrite Hp, Hit, Ht, Hg. reflexivity. }
  split.
  - apply (Forward (2 * Lara.Second) _ _ (fun e => e)).
  - intros Hst Hp Ht Hg.
    destruct (Forward (Lara.pollingInterval g) _ _
                (Lara.Errorf_w "failed to get import status: ") Hst Hp Ht Hg)
      as (Hrun & Hr & Hlen & Hcur).
    repeat split; try assumption. apply WrapError_neq.
Qed.

(** The theorem at work: the server is out of reach at the first status
    request of either service. *)
Lemma C4_witness :
  exists err st,
    glossaries_state (rt := Model.runtime) Scenario.glossaries Scenario.down
      Scenario.observe None 0 Scenario.started = Some st
    /\ Lara.in_progress (Lara.current st) = true
    /\ Lara.past None (Lara.since Scenario.down 0) = false
    /\ Lara.GlossariesService_GetImportStatus (rt := Model.runtime)
         (Lara.client Scenario.glossaries) (Lara.exchange Scenario.down 0)
         (Lara.ID (Lara.current st)) = inl err
    /\ Lara.GlossariesService_WaitForImport (rt := Model.runtime) 1 Scenario.glossaries
         Scenario.down Scenario.started Scenario.observe None
       = Some {| Lara.snapshot := Lara.current st;
                 Lara.failure :=
                   Some (Lara.WrapError
                           ("failed to get import status: " +:+ Lara.Error err) err);
                 Lara.events :=
                   Lara.trace st
                     ++ [Lara.EvSleep (Lara.pollingInterval Scenario.glossaries);
                         Lara.EvStatus (Lara.ID (Lara.current st)) (inl err)] |}.
Proof.
  eexists. eexists.
  assert (glossaries_state (rt := Model.runtime) Scenario.glossaries Scenario.down
            Scenario.observe None 0 Scenario.started = Some _) as Hst
      by (vm_compute; reflexivity).
  assert (Lara.GlossariesService_GetImportStatus (rt := Model.runtime)
            (Lara.client Scenario.glossaries) (Lara.exchange Scenario.down 0)
            (Lara.ID Scenario.started) = inl _) as Hg
      by (vm_compute; reflexivity).
  split; [exact Hst|]. split; [vm_compute; reflexivity|].
  split; [reflexivity|]. split; [exact Hg|].
  apply (proj1 (proj2 (C4_failed_fetch_stops_the_wait Model.runtime Model.the_client
                         Scenario.glossaries Scenario.down Scenario.observe None
                         Scenario.started 0%nat _ _)
                  Hst ltac:(vm_compute; reflexivity) eq_refl Hg)).
  lia.
Defined.

(** C4 as the specification words it fails: the glossary loop does not
    report the failure of its status request unchanged. *)
Lemma C4_counterexample :
  exists err out,
    Lara.GlossariesService_GetImportStatus (rt := Model.runtime)
      (Lara.client Scenario.glossaries) (Lara.exchange Scenario.down 0) "imp_1"
    = inl err
    /\ Lara.GlossariesService_WaitForImport (rt := Model.runtime) 10 Scenario.glossaries
         Scenario.down Scenario.started None None = Some out
    /\ Lara.failure out = Some (Lara.Errorf_w "failed to get import status: " err)
    /\ Lara.failure out <> Some err.
Proof.
  eexists. eexists.
  split; [vm_compute; reflexivity|].
  split; [vm_compute; reflexivity|].
  split; [vm_compute; reflexivity|].
  intros H. discriminate H.
Qed.

(** C5. A snapshot that is already complete (progress at least 1.0) is
    returned at once, with no failure and an empty trace: no sleep, no
    status request, no callback.  Otherwise the trace of every outcome, of
    the memory and of the glossary loop, is a sequence of full turns, each
    one a sleep of the poll interval, a status request for the identifier
    of the current snapshot whose answer becomes the current snapshot, and
    the callback on that answer when there is a callback; after the turns
    comes at most one sleep with a failed status request.  So the callbacks
    are exactly the snapshots fetched, in order, and none is the initial
    one.  With answers of progress 0.3, 0.7 and 1.0 the memory loop returns
    the snapshot of progress 1.0 after three callbacks. *)
Theorem C5_callback_once_per_successful_fetch :
  (forall (rt : Lara.Runtime) (c : Lara.Client) (g : Lara.GlossariesService)
          (w : Lara.Poll) (updateCallback : option (Lara.Import -> Lara.Import))
          (maxWaitTime : option Lara.Duration) (initial : Lara.Import),
      ((1 <=? Lara.Progress initial)%float = true ->
       forall fuel,
         Lara.MemoriesService_WaitForImport (S fuel) c w initial updateCallback
           maxWaitTime
         = Some {| Lara.snapshot := initial; Lara.failure := None; Lara.events := [] |}
         /\ Lara.GlossariesService_WaitForImport (S fuel) g w initial updateCallback
              maxWaitTime
            = Some {| Lara.snapshot := initial; Lara.failure := None;
                      Lara.events := [] |})
      /\ (forall fuel out interval,
             (Lara.MemoriesService_WaitForImport fuel c w initial updateCallback
                maxWaitTime = Some out /\ interval = 2 * Lara.Second)
             \/ (Lara.GlossariesService_WaitForImport fuel g w initial updateCallback
                   maxWaitTime = Some out /\ interval = Lara.pollingInterval g) ->
             exists tr,
               turns Lara.ID interval updateCallback initial tr (Lara.snapshot out)
               /\ (Lara.events out = tr
                   \/ exists err,
                        Lara.events out
                        = tr ++ [Lara.EvSleep interval;
                                 Lara.EvStatus (Lara.ID (Lara.snapshot out)) (inl err)])
               /\ callbacks (Lara.events out)
                  = match updateCallback with
                    | Some _ => statuses (Lara.events out)
                    | None => []
                    end
               /\ sleeps (Lara.events out) = requests (Lara.events out)))
  /\ (forall fuel, (4 <= fuel)%nat ->
        exists out,
          Lara.MemoriesService_WaitForImport (rt := Model.runtime) fuel
            Model.the_client Scenario.steady Scenario.started Scenario.observe None
          = Some out
          /\ Lara.snapshot out = Scenario.finished
          /\ Lara.failure out = None
          /\ List.length (callbacks (Lara.events out)) = 3%nat
          /\ callbacks (Lara.events out) = statuses (Lara.events out)
          /\ map Lara.Progress (callbacks (Lara.events out))
             = [0x1.3333333333333p-2; 0x1.6666666666666p-1; 1]%float).
Proof.
  split.
  - intros rt c g w updateCallback maxWaitTime initial. split.
    + intros Hp fuel. apply progress_ge_1_complete in Hp.
      split; apply wait_immediate; exact Hp.
    + intros fuel out interval [[H ->]|[H ->]];
        apply wait_outcome_shape in H; exact H.
  - intros fuel Hfuel.
    assert (exists out,
               Lara.MemoriesService_WaitForImport (rt := Model.runtime) 4
                 Model.the_client Scenario.steady Scenario.started Scenario.observe
                 None = Some out
               /\ Lara.snapshot out = Scenario.finished
               /\ Lara.failure out = None
               /\ List.length (callbacks (Lara.events out)) = 3%nat
               /\ callbacks (Lara.events out) = statuses (Lara.events out)
               /\ map Lara.Progress (callbacks (Lara.events out))
                  = [0x1.3333333333333p-2; 0x1.6666666666666p-1; 1]%float)
      as (out & Hrun & Hrest).
    { eexists. split; [vm_compute; reflexivity|]. vm_compute. repeat split. }
    exists out. split; [|exact Hrest].
    unfold Lara.MemoriesService_WaitForImport, Lara.wait in *.
    eapply wait_loop_mono; eassumption.
Qed.

(** The theorem at work: a finished import, polled by both services. *)
Lemma C5_witness :
  (1 <=? Lara.Progress Scenario.finished)%float = true
  /\ Lara.MemoriesService_WaitForImport (rt := Model.runtime) 1 Model.the_client
       Scenario.steady Scenario.finished Scenario.observe None
     = Some {| Lara.snapshot := Scenario.finished; Lara.failure := None;
               Lara.events := [] |}
  /\ Lara.GlossariesService_WaitForImport (rt := Model.runtime) 1 Scenario.glossaries
       Scenario.steady Scenario.finished Scenario.observe None
     = Some {| Lara.snapshot := Scenario.finished; Lara.failure := None;
               Lara.events := [] |}.
Proof.
  split; [vm_compute; reflexivity|].
  apply (proj1 (proj1 C5_callback_once_per_successful_fetch Model.runtime
                  Model.the_client Scenario.glossaries Scenario.steady
                  Scenario.observe None Scenario.finished)).
  vm_compute; reflexivity.
Defined.

(** C6.  For every request the transport builds:
    - with attachments (all readable, and a body that can be serialised
      when there is one) the body is the multipart text of one part per
      attachment, named by its field key, followed by a form field [json]
      with the serialised body exactly when a body is supplied;
      [Content-Type] names the boundary and [Content-MD5] is the MD5 of the
      whole multipart text in lower-case hexadecimal, with or without a
      JSON body;
    - with a JSON body only, the body is its serialisation, [Content-Type]
      is [application/json] and [Content-MD5] the hexadecimal MD5 of the
      serialised bytes;
    - with neither, there is no body, the content MD5 is empty and neither
      header is set.
    The request that is sent carries that body, and these two headers
    unless a caller header names them. *)
Theorem C6_body_content_type_and_md5 :
  forall (rt : Lara.Runtime) (c : Lara.Client) (x : Lara.Exchange)
         (method path : string) (params headers : list (string * string))
         (body : option Lara.Value),
    (forall (files : list (string * string)) (jsonBytes : option string),
        files <> [] ->
        marshalled body = inr jsonBytes ->
        let text := multipart_text (Lara.randomBoundary x) files jsonBytes in
        let contentType := multipart_content_type (Lara.randomBoundary x) in
        let h := Lara.fixed_headers c (Lara.httpDate x) method (md5_hex text)
                   contentType in
        Lara.select_body (Lara.randomBoundary x) body (opened files)
        = inr (Some text, md5_hex text, contentType)
        /\ h !! "Content-Type" = Some contentType
        /\ h !! "Content-Md5" = Some (md5_hex text))
    /\ (forall (b : Lara.Value) (bodyBytes : string),
          Lara.json_Marshal b = inr bodyBytes ->
          let h := Lara.fixed_headers c (Lara.httpDate x) method (md5_hex bodyBytes)
                     "application/json" in
          Lara.select_body (Lara.randomBoundary x) (Some b) []
          = inr (Some bodyBytes, md5_hex bodyBytes, "application/json"%string)
          /\ h !! "Content-Type" = Some "application/json"%string
          /\ h !! "Content-Md5" = Some (md5_hex bodyBytes))
    /\ (let h := Lara.fixed_headers c (Lara.httpDate x) method "" "" in
        Lara.select_body (Lara.randomBoundary x) None []
        = inr (None, EmptyString, EmptyString)
        /\ h !! "Content-Type" = None
        /\ h !! "Content-Md5" = None)
    /\ (forall (files : list (string * Lara.Reader)) (req : Lara.Request),
          Lara.new_request c x method path params body files headers = inr req ->
          exists bodyReader contentMD5 contentType,
            Lara.select_body (Lara.randomBoundary x) body files
            = inr (bodyReader, contentMD5, contentType)
            /\ Lara.Body_ req = bodyReader
            /\ (Forall (fun kv => Textproto.CanonicalMIMEHeaderKey (fst kv)
                                  <> "Content-Type"%string) headers ->
                Lara.Header_ req !! "Content-Type"
                = if String.eqb contentType "" then None else Some contentType)
            /\ (Forall (fun kv => Textproto.CanonicalMIMEHeaderKey (fst kv)
                                  <> "Content-Md5"%string) headers ->
                Lara.Header_ req !! "Content-Md5"
                = if String.eqb contentMD5 "" then None else Some contentMD5)).
Proof.
  intros rt c x method path params headers body. split; [|split; [|split]].
  - intros files jsonBytes Hfiles Hj. cbv zeta.
    pose proof (fixed_headers_lookup c (Lara.httpDate x) method
                  (md5_hex (multipart_text (Lara.randomBoundary x) files jsonBytes))
                  (multipart_content_type (Lara.randomBoundary x)))
      as (_ & _ & _ & _ & Hct & Hmd5 & _).
    rewrite multipart_content_type_set in Hct. rewrite md5_hex_set in Hmd5.
    split; [apply select_body_multipart; assumption | split; assumption].
  - intros b bodyBytes Hb. cbv zeta.
    pose proof (fixed_headers_lookup c (Lara.httpDate x) method (md5_hex bodyBytes)
                  "application/json") as (_ & _ & _ & _ & Hct & Hmd5 & _).
    rewrite md5_hex_set in Hmd5.
    split; [|split; assumption].
    unfold Lara.select_body. cbn [List.length Nat.ltb Nat.leb]. rewrite Hb. reflexivity.
  - cbv zeta.
    pose proof (fixed_headers_lookup c (Lara.httpDate x) method "" "")
      as (_ & _ & _ & _ & Hct & Hmd5 & _).
    split; [reflexivity | split; assumption].
  - intros files req Hreq.
    apply new_request_inr in Hreq
        as (bodyReader & contentMD5 & contentType & Hbody & ->).
    exists bodyReader, contentMD5, contentType.
    pose proof (fixed_headers_lookup c (Lara.httpDate x) method contentMD5 contentType)
      as (_ & _ & _ & _ & Hct & Hmd5 & _).
    cbn [Lara.Body_ Lara.Header_].
    split; [exact Hbody|]. split; [reflexivity|]. split; intros Hcaller.
    + rewrite authorize_other by discriminate.
      rewrite (apply_headers_other _ _ _ Hcaller). exact Hct.
    + rewrite authorize_other by discriminate.
      rewrite (apply_headers_other _ _ _ Hcaller). exact Hmd5.
Qed.

(** The theorem at work: an upload of two attachments with a JSON body. *)
Lemma C6_witness :
  let files := [("file", "%PDF-1.7 ..."); ("glossary", "en,it")]%string in
  let body := Json.JObject [(list_ascii_of_string "target",
                             Json.JString (list_ascii_of_string "it-IT"))] in
  let text :=
    multipart_text (rt := Model.runtime) "XXBOUNDARYXX" files
      (Some (requote "{'target':'it-IT'}")) in
  files <> []
  /\ Lara.select_body (rt := Model.runtime) "XXBOUNDARYXX" (Some body) (opened files)
     = inr (Some text, md5_hex text, "multipart/form-data; boundary=XXBOUNDARYXX"%string)
  /\ String.length (md5_hex text) = 32%nat.
Proof.
  cbv zeta.
  split; [discriminate|].
  split; [|vm_compute; reflexivity].
  apply (proj1 (C6_body_content_type_and_md5 Model.runtime Model.the_client
                  (Model.answers 200 EmptyString) "POST" "/documents" [] []
                  (Some (Json.JObject [(list_ascii_of_string "target",
                                        Json.JString (list_ascii_of_string "it-IT"))])))
           [("file", "%PDF-1.7 ..."); ("glossary", "en,it")]%string
           (Some (requote "{'target':'it-IT'}"))).
  - discriminate.
  - vm_compute; reflexivity.
Defined.

(** C7. For every JSON value [X] (null, a boolean, a number, a string, an
    array or an object whose literals are valid), [handleContent] on the
    body [{"content": X}], written with any white space between its
    tokens, hands the destination's decoder the text of [X] byte for byte;
    a destination that takes any value then holds exactly [X], and the call
    reports no error. *)
Theorem C7_envelope_unwrap_round_trip :
  forall (rt : Lara.Runtime) (X : Json.json) (w1 w2 w3 w4 w5 w6 : list ascii),
    Json.wf X = true ->
    forallb Json.is_ws (w1 ++ w2 ++ w3 ++ w4 ++ w5 ++ w6) = true ->
    (forall (T : Type) (unmarshal_result : string -> Lara.result T),
        Lara.handleContent
          (string_of_list_ascii (envelope w1 w2 w3 w4 w5 w6 (Json.render X)))
          unmarshal_result
        = unmarshal_result (string_of_list_ascii (Json.render X)))
    /\ Lara.handleContent
         (string_of_list_ascii (envelope w1 w2 w3 w4 w5 w6 (Json.render X)))
         Unmarshal_tree
       = inr X.
Proof.
  intros rt X w1 w2 w3 w4 w5 w6 HX Hw.
  rewrite !forallb_app in Hw.
  repeat (apply andb_prop in Hw as [? Hw]).
  assert (forall (T : Type) (unmarshal_result : string -> Lara.result T),
             Lara.handleContent
               (string_of_list_ascii (envelope w1 w2 w3 w4 w5 w6 (Json.render X)))
               unmarshal_result
             = unmarshal_result (string_of_list_ascii (Json.render X))) as Hraw.
  { intros T unmarshal_result. unfold Lara.handleContent.
    rewrite list_ascii_of_string_of_list_ascii, Unmarshal_content_envelope
      by assumption.
    reflexivity. }
  split; [exact Hraw|].
  rewrite Hraw. unfold Unmarshal_tree.
  rewrite list_ascii_of_string_of_list_ascii, parse_render by assumption.
  reflexivity.
Qed.

(** The theorem at work on an object inside the envelope. *)
Lemma C7_witness :
  Lara.handleContent (rt := Model.runtime)
    (requote "{'content': {'id':'mem_1','tags':['a',2.5e3,null]} }")
    Unmarshal_tree
  = inr (Json.JObject
           [(list_ascii_of_string "id",
             Json.JString (list_ascii_of_string "mem_1"));
            (list_ascii_of_string "tags",
             Json.JArray [Json.JString (list_ascii_of_string "a");
                          Json.JNumber (list_ascii_of_string "2.5e3");
                          Json.JNull])]).
Proof.
  exact (proj2 (C7_envelope_unwrap_round_trip Model.runtime
                  (Json.JObject
                     [(list_ascii_of_string "id",
                       Json.JString (list_ascii_of_string "mem_1"));
                      (list_ascii_of_string "tags",
                       Json.JArray [Json.JString (list_ascii_of_string "a");
                                    Json.JNumber (list_ascii_of_string "2.5e3");
                                    Json.JNull])])
                  [] [] [] [" "%char] [" "%char] [] eq_refl eq_refl)).
Defined.

(** C8.  On every request the transport builds, with [fixed] the headers it
    sets itself and [sent] these headers after the caller's were applied
    in turn:
    - when both the access key ID and the secret are non-empty, the
      [Authorization] header is [Lara <accessKeyID>:<signature>], the
      signature being computed over the [Date] header as the caller's
      headers left it, whatever headers the caller supplies;
    - when either is empty nothing is signed: the headers are [sent], and
      there is no [Authorization] header unless the caller supplied one;
    - the transport's own headers are the method override, the date, the
      SDK name and version, and the content type and MD5 when not empty;
    - a key the caller does not name keeps the transport's value, and the
      last caller header of a key other than [Authorization] gives the key
      its value in the request, also when the transport had set it. *)
Theorem C8_authorization_and_caller_headers :
  forall (rt : Lara.Runtime) (c : Lara.Client) (x : Lara.Exchange)
         (method path : string) (params headers : list (string * string))
         (body : option Lara.Value) (files : list (string * Lara.Reader))
         (req : Lara.Request),
    Lara.new_request c x method path params body files headers = inr req ->
    exists bodyReader contentMD5 contentType,
      Lara.select_body (Lara.randomBoundary x) body files
      = inr (bodyReader, contentMD5, contentType)
      /\ let fixed :=
           Lara.fixed_headers c (Lara.httpDate x) method contentMD5 contentType in
         let sent := Lara.apply_headers fixed headers in
         (Lara.accessKeyID c <> EmptyString /\ Lara.accessKeySecret c <> EmptyString ->
          Lara.Header_ req !! "Authorization"
          = Some ("Lara " +:+ Lara.accessKeyID c +:+ ":"
                    +:+ Lara.sign c method (Lara.normalize_path path) contentMD5
                          contentType (Header.Get sent "Date")))
         /\ (Lara.accessKeyID c = EmptyString \/ Lara.accessKeySecret c = EmptyString ->
             Lara.Header_ req = sent
             /\ (Forall (fun kv => Textproto.CanonicalMIMEHeaderKey (fst kv)
                                   <> "Authorization"%string) headers ->
                 Lara.Header_ req !! "Authorization" = None))
         /\ (fixed !! "X-Http-Method-Override" = Some method
             /\ fixed !! "Date" = Some (Lara.httpDate x)
             /\ fixed !! "X-Lara-Sdk-Name" = Some (Lara.sdkName c)
             /\ fixed !! "X-Lara-Sdk-Version" = Some (Lara.sdkVersion c)
             /\ fixed !! "Content-Type"
                = (if String.eqb contentType "" then None else Some contentType)
             /\ fixed !! "Content-Md5"
                = (if String.eqb contentMD5 "" then None else Some contentMD5)
             /\ fixed !! "Authorization" = None)
         /\ (forall key,
                key <> "Authorization"%string ->
                Forall (fun kv => Textproto.CanonicalMIMEHeaderKey (fst kv) <> key)
                  headers ->
                Lara.Header_ req !! key = fixed !! key)
         /\ (forall l1 k v l2,
                headers = l1 ++ (k, v) :: l2 ->
                Forall (fun kv => Textproto.CanonicalMIMEHeaderKey (fst kv)
                                  <> Textproto.CanonicalMIMEHeaderKey k) l2 ->
                sent !! Textproto.CanonicalMIMEHeaderKey k = Some v
                /\ (Textproto.CanonicalMIMEHeaderKey k <> "Authorization"%string ->
                    Lara.Header_ req !! Textproto.CanonicalMIMEHeaderKey k = Some v)).
Proof.
  intros rt c x method path params headers body files req Hreq.
  apply new_request_inr in Hreq as (bodyReader & contentMD5 & contentType & Hbody & ->).
  exists bodyReader, contentMD5, contentType.
  split; [exact Hbody|]. cbv zeta. cbn [Lara.Header_].
  pose proof (fixed_headers_lookup c (Lara.httpDate x) method contentMD5 contentType)
    as Hfixed.
  cbv zeta in Hfixed.
  split; [|split; [|split; [|split]]].
  - intros Hboth. apply authorize_signed, signing_true, Hboth.
  - intros Heither. apply signing_false in Heither.
    rewrite (authorize_anonymous _ _ _ _ _ _ Heither).
    split; [reflexivity|].
    intros Hcaller. rewrite (apply_headers_other _ _ _ Hcaller).
    apply Hfixed.
  - exact Hfixed.
  - intros key Hkey Hcaller.
    rewrite authorize_other by assumption.
    apply apply_headers_other, Hcaller.
  - intros l1 k v l2 -> Hlast.
    split; [apply apply_headers_last, Hlast|].
    intros Hkey. rewrite authorize_other by assumption.
    apply apply_headers_last, Hlast.
Qed.

(** The theorem at work: a caller that supplies a date and an
    authorization of its own to a client that signs. *)
Lemma C8_witness :
  exists req,
    Lara.new_request (rt := Model.runtime) Model.the_client
      (Model.answers 200 EmptyString) "GET" "memories" [] None []
      [("authorization", "Bearer caller"); ("date", "Thu, 01 Jan 1970 00:00:00 GMT")]%string
    = inr req
    /\ Lara.Header_ req !! "Authorization"
       = Some ("Lara key:"
                 +:+ Lara.sign (rt := Model.runtime) Model.the_client "GET" "/memories"
                       "" "" "Thu, 01 Jan 1970 00:00:00 GMT")
    /\ Lara.Header_ req !! "Date" = Some "Thu, 01 Jan 1970 00:00:00 GMT"%string.
Proof.
  eexists. split; [reflexivity|].
  destruct (C8_authorization_and_caller_headers Model.runtime Model.the_client
              (Model.answers 200 EmptyString) "GET" "memories" []
              [("authorization", "Bearer caller"); ("date", "Thu, 01 Jan 1970 00:00:00 GMT")]%string
              None [] _ eq_refl)
    as (bodyReader & contentMD5 & contentType & Hbody & Hsigned & _ & _ & _ & Hlast).
  inversion Hbody; subst bodyReader contentMD5 contentType.
  split.
  - rewrite Hsigned by (split; discriminate). reflexivity.
  - apply (proj2 (Hlast [("authorization", "Bearer caller")]%string "date"%string
                    "Thu, 01 Jan 1970 00:00:00 GMT"%string [] eq_refl (List.Forall_nil _))).
    discriminate.
Defined.

(** C9, as the code has it.  [waitForTranslation] returns without failure
    exactly when the status of the snapshot it returns is [translated] or
    [error]: it does so as soon as a snapshot with such a status is the
    current one, and a failure it returns is the failure of a status
    request, unchanged, on a snapshot whose status is not terminal; the
    clock never stops it.  Its trace is made of turns, each a sleep of two
    seconds and a status request for the identifier of the current
    document.  When the loop ends without failure on the status [error],
    [TranslateWithOptions] fails with the message
    [document translation failed: ] followed by the error reason of the
    document, or by [translation failed] when there is none; it downloads
    nothing. *)
Theorem C9_document_wait_ends_on_terminal_status_or_failed_fetch :
  forall (rt : Lara.Runtime) (c : Lara.Client) (w : Lara.Poll)
         (document : Lara.Document),
    (forall fuel out,
        Lara.waitForTranslation fuel c w document = Some out ->
        (Lara.failure out = None <-> terminal (Lara.snapshot out))
        /\ (forall err,
              Lara.failure out = Some err ->
              exists k st,
                documents_state c w k document = Some st
                /\ Lara.snapshot out = Lara.current st
                /\ Lara.DocumentsService_Status c (Lara.exchange w k)
                     (Lara.Document_ID (Lara.current st)) = inl err)
        /\ exists tr,
             turns Lara.Document_ID (2 * Lara.Second) None document tr
               (Lara.snapshot out)
             /\ (Lara.events out = tr
                 \/ exists err,
                      Lara.events out
                      = tr ++ [Lara.EvSleep (2 * Lara.Second);
                               Lara.EvStatus (Lara.Document_ID (Lara.snapshot out))
                                 (inl err)]))
    /\ (forall k st,
          documents_state c w k document = Some st ->
          terminal (Lara.current st) ->
          forall fuel, (k < fuel)%nat ->
            Lara.waitForTranslation fuel c w document
            = Some {| Lara.snapshot := Lara.current st; Lara.failure := None;
                      Lara.events := Lara.trace st |})
    /\ (forall fuel out download options,
          Lara.waitForTranslation fuel c w document = Some out ->
          Lara.failure out = None ->
          Lara.Status (Lara.snapshot out) = Lara.DocumentStatusError ->
          Lara.TranslateWithOptions fuel c w (inr document) download options
          = Some (inl (Lara.ErrorString
                         ("document translation failed: "
                            +:+ match Lara.ErrorReason (Lara.snapshot out) with
                                | Some reason => reason
                                | None => "translation failed"%string
                                end)))).
Proof.
  intros rt c w document. split; [|split].
  - intros fuel out Hrun. unfold Lara.waitForTranslation in Hrun. cbv zeta in Hrun.
    pose proof (wait_outcome_shape _ _ _ _ _ _ _ _ _ _ _ _ Hrun)
      as (tr & Hturns & Hev & _).
    apply wait_outcome in Hrun as (k & st & Hk & Hst & Hstep).
    pose proof (wait_state_turns _ _ _ _ _ _ _ _ _ _ _ _ Hst) as (_ & Hit & _).
    apply wait_step_inr in Hstep
        as [(Hp & ->)|[(_ & Ht & _)|(err & Hp & _ & Hg & ->)]];
      cbn [Lara.failure Lara.snapshot Lara.events] in *.
    + apply translating_false in Hp. split; [tauto|].
      split; [intros err H; discriminate H|].
      exists tr. split; assumption.
    + discriminate Ht.
    + split.
      * split; [intros H; discriminate H|].
        intros H. apply translating_false in H. congruence.
      * split.
        -- intros err' H. inversion H; subst err'. exists k, st.
           rewrite Hit in Hg. repeat split; assumption.
        -- exists tr. split; assumption.
  - intros k st Hst Hterm fuel Hfuel. apply translating_false in Hterm.
    unfold Lara.waitForTranslation. cbv zeta.
    eapply wait_reaches; [exact Hst| |exact Hfuel].
    unfold Lara.wait_step. rewrite Hterm. reflexivity.
  - intros fuel out download options Hrun Hok Herr.
    unfold Lara.TranslateWithOptions. rewrite Hrun, Hok, Herr. reflexivity.
Qed.

(** The theorem at work: a translation that ends in error at the second
    status request. *)
Lemma C9_witness :
  exists st,
    documents_state (rt := Model.runtime) Model.the_client DocumentScenario.failing 2
      DocumentScenario.uploaded = Some st
    /\ terminal (Lara.current st)
    /\ Lara.waitForTranslation (rt := Model.runtime) 3 Model.the_client
         DocumentScenario.failing DocumentScenario.uploaded
       = Some {| Lara.snapshot := Lara.current st; Lara.failure := None;
                 Lara.events := Lara.trace st |}
    /\ Lara.TranslateWithOptions (rt := Model.runtime) 3 Model.the_client
         DocumentScenario.failing (inr DocumentScenario.uploaded)
         (fun _ _ => inr "translated bytes"%string) None
       = Some (inl (Lara.ErrorString "document translation failed: unsupported file")).
Proof.
  eexists.
  assert (documents_state (rt := Model.runtime) Model.the_client
            DocumentScenario.failing 2 DocumentScenario.uploaded = Some _) as Hst
      by (vm_compute; reflexivity).
  pose proof (C9_document_wait_ends_on_terminal_status_or_failed_fetch Model.runtime
                Model.the_client DocumentScenario.failing DocumentScenario.uploaded)
    as (_ & Hdone & Htranslate).
  pose proof (Hdone 2%nat _ Hst ltac:(right; reflexivity) 3%nat ltac:(lia)) as Hrun.
  split; [exact Hst|]. split; [right; reflexivity|]. split; [exact Hrun|].
  exact (Htranslate 3%nat _ (fun _ _ => inr "translated bytes"%string) None Hrun
           eq_refl eq_refl).
Defined.

(** C9 as the specification words it fails: the loop also ends when a status
    request fails, on a document whose status is not terminal. *)
Lemma C9_counterexample :
  exists out,
    Lara.waitForTranslation (rt := Model.runtime) 10 Model.the_client Scenario.down
      DocumentScenario.uploaded = Some out
    /\ Lara.Status (Lara.snapshot out) = Lara.DocumentStatusTranslating
    /\ Lara.Status (Lara.snapshot out) <> Lara.DocumentStatusTranslated
    /\ Lara.Status (Lara.snapshot out) <> Lara.DocumentStatusError
    /\ Lara.failure out <> None.
Proof.
  eexists. split; [vm_compute; reflexivity|].
  cbn [Lara.snapshot Lara.failure].
  repeat split; try reflexivity; intros H; discriminate H.
Qed.

(** C10. For every identifier, [MemoriesService.Get] and
    [GlossariesService.Get] return neither a value nor an error when the
    client's [Get] fails with a [LaraError] of status 404; any other
    failure of the client's [Get] comes back as an error that wraps it,
    with no value; a success comes back as the value, with no error.  In
    terms of the exchange: an answer outside [200, 300) whose error
    envelope has a type and the status 404 gives (nil, nil), one with
    another status gives an error that wraps the API failure; a transport
    error gives an error that wraps the timeout or connection failure; a
    2xx answer whose content cannot be decoded gives an error that wraps
    the decode failure. *)
Theorem C10_get_reports_404_as_absence :
  forall (rt : Lara.Runtime) (c : Lara.Client) (x : Lara.Exchange) (id : string),
    (forall t m,
        Lara.Client_Get c x ("/memories/" +:+ id) [] [] Lara.json_Unmarshal_Memory
        = inl (Lara.LaraError 404 t m) ->
        Lara.MemoriesService_Get c x id = (None, None))
    /\ (forall err,
          Lara.Client_Get c x ("/memories/" +:+ id) [] [] Lara.json_Unmarshal_Memory
          = inl err ->
          (forall t m, err <> Lara.LaraError 404 t m) ->
          Lara.MemoriesService_Get c x id
          = (None, Some (Lara.WrapError ("failed to get memory: " +:+ Lara.Error err) err)))
    /\ (forall memory,
          Lara.Client_Get c x ("/memories/" +:+ id) [] [] Lara.json_Unmarshal_Memory
          = inr memory ->
          Lara.MemoriesService_Get c x id = (Some memory, None))
    /\ (forall t m,
          Lara.Client_Get c x ("/glossaries/" +:+ id) [] [] Lara.json_Unmarshal_Glossary
          = inl (Lara.LaraError 404 t m) ->
          Lara.GlossariesService_Get c x id = (None, None))
    /\ (forall err,
          Lara.Client_Get c x ("/glossaries/" +:+ id) [] [] Lara.json_Unmarshal_Glossary
          = inl err ->
          (forall t m, err <> Lara.LaraError 404 t m) ->
          Lara.GlossariesService_Get c x id
          = (None,
             Some (Lara.WrapError ("failed to get glossary: " +:+ Lara.Error err) err)))
    /\ (forall glossary,
          Lara.Client_Get c x ("/glossaries/" +:+ id) [] [] Lara.json_Unmarshal_Glossary
          = inr glossary ->
          Lara.GlossariesService_Get c x id = (Some glossary, None))
    /\ (forall req,
          Lara.new_request c x "GET" ("/memories/" +:+ id) [] None [] [] = inr req ->
          (forall StatusCode respBody a,
              Lara.Do x req = Lara.DoResponse StatusCode (inr respBody) ->
              not_2xx StatusCode ->
              Lara.json_Unmarshal_apiError respBody = Some a ->
              Lara.apiError_Type a <> EmptyString ->
              (Lara.apiError_Status a = 404 ->
               Lara.MemoriesService_Get c x id = (None, None))
              /\ (Lara.apiError_Status a <> 404 ->
                  exists msg,
                    Lara.MemoriesService_Get c x id
                    = (None,
                       Some (Lara.WrapError msg
                               (Lara.LaraError (Lara.apiError_Status a)
                                  (Lara.apiError_Type a) (Lara.apiError_Message a))))))
          /\ (forall err,
                Lara.Do x req = Lara.DoError err ->
                exists msg,
                  Lara.MemoriesService_Get c x id
                  = (None,
                     Some (Lara.WrapError msg
                             (if Strings.Contains (Lara.Error err) "timeout"
                              then Lara.LaraTimeoutError (Lara.Error err)
                              else Lara.LaraConnectionError (Lara.Error err)))))
          /\ (forall StatusCode respBody err,
                Lara.Do x req = Lara.DoResponse StatusCode (inr respBody) ->
                200 <= StatusCode < 300 ->
                Lara.handleContent respBody Lara.json_Unmarshal_Memory = inl err ->
                Lara.MemoriesService_Get c x id
                = (None,
                   if is_not_found err then None
                   else Some (Lara.WrapError
                                ("failed to get memory: " +:+ Lara.Error err) err)))).
Proof.
  intros rt c x id.
  assert (forall err, (forall t m, err <> Lara.LaraError 404 t m) ->
                      is_not_found err = false) as Hother.
  { intros err H. destruct err as [s t m| | | |]; try reflexivity.
    cbn. destruct (Z.eqb_spec s 404) as [->|N]; [|reflexivity].
    contradiction (H t m); reflexivity. }
  repeat apply conj.
  - intros t m H. rewrite MemoriesService_Get_eq, H. reflexivity.
  - intros err H Hn. rewrite MemoriesService_Get_eq, H, (Hother _ Hn). reflexivity.
  - intros memory H. rewrite MemoriesService_Get_eq, H. reflexivity.
  - intros t m H. rewrite GlossariesService_Get_eq, H. reflexivity.
  - intros err H Hn. rewrite GlossariesService_Get_eq, H, (Hother _ Hn). reflexivity.
  - intros glossary H. rewrite GlossariesService_Get_eq, H. reflexivity.
  - intros req Hreq.
    repeat apply conj.
    + intros StatusCode respBody a Hx Hs Ha Ht.
      rewrite MemoriesService_Get_eq, Client_Get_eq, Hreq, Hx,
        (handle_response_api _ _ _ Hs Ha Ht).
      cbn [is_not_found]. split.
      * intros ->. reflexivity.
      * intros N. destruct (Z.eqb_spec (Lara.apiError_Status a) 404);
          [contradiction|]. eexists. reflexivity.
    + intros err Hx.
      rewrite MemoriesService_Get_eq, Client_Get_eq, Hreq, Hx.
      cbn [Lara.handle_response].
      destruct (Strings.Contains (Lara.Error err) "timeout"); eexists; reflexivity.
    + intros StatusCode respBody err Hx Hs Hc.
      rewrite MemoriesService_Get_eq, Client_Get_eq, Hreq, Hx,
        (handle_response_2xx _ _ Hs), Hc.
      destruct (is_not_found err); reflexivity.
Qed.

(** The theorem at work: a memory that is not there, and a server that
    cannot be reached. *)
Lemma C10_witness :
  Lara.MemoriesService_Get (rt := Model.runtime) Model.the_client
    (Model.answers 404 not_found_body) "mem_1" = (None, None)
  /\ Lara.GlossariesService_Get (rt := Model.runtime) Model.the_client
       (Model.answers 404 not_found_body) "gls_1" = (None, None)
  /\ Lara.MemoriesService_Get (rt := Model.runtime) Model.the_client
       (Model.unreachable "dial tcp: connection refused") "mem_1"
     = (None,
        Some (Lara.Errorf_w "failed to get memory: "
                (Lara.LaraConnectionError "dial tcp: connection refused"))).
Proof.
  pose proof (C10_get_reports_404_as_absence Model.runtime Model.the_client
                (Model.answers 404 not_found_body)) as H404.
  pose proof (C10_get_reports_404_as_absence Model.runtime Model.the_client
                (Model.unreachable "dial tcp: connection refused") "mem_1")
    as (_ & Hother & _).
  split; [|split].
  - apply (proj1 (H404 "mem_1"%string) "NotFound"%string "nope"%string).
    vm_compute; reflexivity.
  - apply (proj1 (proj2 (proj2 (proj2 (H404 "gls_1"%string))))
             "NotFound"%string "nope"%string).
    vm_compute; reflexivity.
  - apply (Hother (Lara.LaraConnectionError "dial tcp: connection refused")).
    + vm_compute; reflexivity.
    + intros t m H; discriminate H.
Defined.

(** * Further properties of the client *)

(** X1. [newClient] strips every trailing slash from the base URL and
    nothing else: a base URL followed by any number of slashes gives the
    same client, the base URL kept is never one that ends in a slash, and
    the text given is the base URL kept followed by slashes only.  A path
    without a leading slash gets one.  So a request for [path] with the
    base URL [base] followed by slashes is the request for [/path] with
    [base], and its URL is the base URL kept, a slash, the path, and the
    encoded query after a question mark when there are parameters. *)
Theorem X1_base_url_and_path_are_normalised :
  forall (rt : Lara.Runtime) (accessKeyID accessKeySecret base : string) (n : nat),
    let c := Lara.newClient accessKeyID accessKeySecret base in
    Lara.newClient accessKeyID accessKeySecret (base +:+ slashes n) = c
    /\ (exists k, base = Lara.baseURL c +:+ slashes k)
    /\ (forall t, Lara.baseURL c <> t +:+ "/")
    /\ (forall (x : Lara.Exchange) (method path : string)
               (params headers : list (string * string)) (body : option Lara.Value)
               (files : list (string * Lara.Reader)),
           Strings.HasPrefix path "/" = false ->
           Lara.new_request
             (Lara.newClient accessKeyID accessKeySecret (base +:+ slashes n))
             x method path params body files headers
           = Lara.new_request c x method ("/" +:+ path) params body files headers
           /\ forall req,
                Lara.new_request c x method path params body files headers = inr req ->
                Lara.URL req
                = Lara.baseURL c +:+ "/" +:+ path
                    +:+ (if (0 <? List.length params)%nat
                         then "?" +:+ Lara.url_Values_Encode params
                         else EmptyString)).
Proof.
  intros rt accessKeyID accessKeySecret base n. cbv zeta.
  assert (Lara.newClient accessKeyID accessKeySecret (base +:+ slashes n)
          = Lara.newClient accessKeyID accessKeySecret base) as Hc.
  { unfold Lara.newClient. rewrite TrimRightSlash_slashes. reflexivity. }
  split; [exact Hc|]. split; [apply TrimRightSlash_decomp|].
  split; [apply TrimRightSlash_end|].
  intros x method path params headers body files Hpath.
  destruct (normalize_path_bare path Hpath) as [E1 E2].
  split.
  - rewrite Hc. unfold Lara.new_request. rewrite E1, E2. reflexivity.
  - intros req Hreq. apply new_request_inr in Hreq as (b & md5 & ct & _ & ->).
    cbn [Lara.URL]. unfold Lara.request_url. rewrite E1.
    destruct (0 <? List.length params)%nat.
    + rewrite !append_assoc. reflexivity.
    + rewrite append_nil_r. reflexivity.
Qed.

(** The theorem at work: three trailing slashes and a bare path. *)
Lemma X1_witness :
  exists req,
    Lara.new_request (rt := Model.runtime)
      (Lara.newClient "key" "secret" "https://api.laratranslate.com///")
      (Model.answers 200 EmptyString) "GET" "memories" [("page", "2")]%string None [] []
    = inr req
    /\ Lara.URL req = "https://api.laratranslate.com/memories?page=2"%string.
Proof.
  destruct (X1_base_url_and_path_are_normalised Model.runtime "key" "secret"
              "https://api.laratranslate.com" 3)
    as (_ & _ & _ & H).
  destruct (H (Model.answers 200 EmptyString) "GET"%string "memories"%string
              [("page", "2")]%string [] None [] eq_refl) as [Hsame Hurl].
  eexists. split.
  - exact (eq_trans Hsame eq_refl).
  - reflexivity.
Defined.

(** X2. The signature covers neither the base URL nor the query: two
    requests that differ only in the client's base URL and in their
    parameters carry the same headers, the [Authorization] header
    included, and the same body. *)
Theorem X2_query_and_host_are_not_signed :
  forall (rt : Lara.Runtime) (c1 c2 : Lara.Client) (x : Lara.Exchange)
         (method path : string) (params1 params2 headers : list (string * string))
         (body : option Lara.Value) (files : list (string * Lara.Reader))
         (req1 req2 : Lara.Request),
    Lara.accessKeyID c1 = Lara.accessKeyID c2 ->
    Lara.accessKeySecret c1 = Lara.accessKeySecret c2 ->
    Lara.sdkName c1 = Lara.sdkName c2 ->
    Lara.sdkVersion c1 = Lara.sdkVersion c2 ->
    Lara.new_request c1 x method path params1 body files headers = inr req1 ->
    Lara.new_request c2 x method path params2 body files headers = inr req2 ->
    Lara.Header_ req1 = Lara.Header_ req2 /\ Lara.Body_ req1 = Lara.Body_ req2.
Proof.
  intros rt c1 c2 x method path params1 params2 headers body files req1 req2
         Hid Hsecret Hname Hversion H1 H2.
  apply new_request_inr in H1 as (b1 & md1 & ct1 & Hb1 & ->).
  apply new_request_inr in H2 as (b2 & md2 & ct2 & Hb2 & ->).
  rewrite Hb1 in Hb2. inversion Hb2; subst b2 md2 ct2.
  cbn [Lara.Header_ Lara.Body_]. split; [|reflexivity].
  unfold Lara.authorize, Lara.sign, Lara.fixed_headers.
  rewrite Hid, Hsecret, Hname, Hversion. reflexivity.
Qed.

(** The theorem at work: one key pair, two servers, two queries. *)
Lemma X2_witness :
  exists req1 req2,
    Lara.new_request (rt := Model.runtime) (Lara.newClient "key" "secret" "https://a.example")
      (Model.answers 200 EmptyString) "GET" "/memories" [("page", "1")]%string None [] []
    = inr req1
    /\ Lara.new_request (rt := Model.runtime)
         (Lara.newClient "key" "secret" "https://b.example")
         (Model.answers 200 EmptyString) "GET" "/memories" [("page", "2")]%string None []
         []
       = inr req2
    /\ Lara.URL req1 <> Lara.URL req2
    /\ Lara.Header_ req1 = Lara.Header_ req2.
Proof.
  eexists. eexists. split; [reflexivity|]. split; [reflexivity|].
  split; [intros H; vm_compute in H; discriminate H|].
  apply (X2_query_and_host_are_not_signed Model.runtime
           (Lara.newClient "key" "secret" "https://a.example")
           (Lara.newClient "key" "secret" "https://b.example")
           (Model.answers 200 EmptyString) "GET" "/memories"
           [("page", "1")]%string [("page", "2")]%string [] None [] _ _
           eq_refl eq_refl eq_refl eq_refl eq_refl eq_refl).
Defined.

(** X3. [request] returns a body exactly when the request could be built
    and the server answered it with a status in [200, 300) and a readable
    body, and then it returns that body unchanged.  Its typed failures
    have one origin each: a [LaraTimeoutError] carries the message of a
    transport error, and that message contains [timeout]; a
    [LaraConnectionError] carries the message of a transport error that
    does not; a [LaraError] comes from an answer outside [200, 300) whose
    body decodes to its status, type and message, and its type is never
    empty. *)
Theorem X3_what_request_returns :
  forall (rt : Lara.Runtime) (c : Lara.Client) (x : Lara.Exchange)
         (method path : string) (params headers : list (string * string))
         (body : option Lara.Value) (files : list (string * Lara.Reader)),
    (forall respBody,
        Lara.request c x method path params body files headers = inr respBody <->
        exists req StatusCode,
          Lara.new_request c x method path params body files headers = inr req
          /\ Lara.Do x req = Lara.DoResponse StatusCode (inr respBody)
          /\ 200 <= StatusCode < 300)
    /\ (forall m,
          Lara.request c x method path params body files headers
          = inl (Lara.LaraTimeoutError m) ->
          Strings.Contains m "timeout" = true
          /\ exists req err,
               Lara.new_request c x method path params body files headers = inr req
               /\ Lara.Do x req = Lara.DoError err /\ m = Lara.Error err)
    /\ (forall m,
          Lara.request c x method path params body files headers
          = inl (Lara.LaraConnectionError m) ->
          Strings.Contains m "timeout" = false
          /\ exists req err,
               Lara.new_request c x method path params body files headers = inr req
               /\ Lara.Do x req = Lara.DoError err /\ m = Lara.Error err)
    /\ (forall s t m,
          Lara.request c x method path params body files headers
          = inl (Lara.LaraError s t m) ->
          t <> EmptyString
          /\ exists req StatusCode respBody,
               Lara.new_request c x method path params body files headers = inr req
               /\ Lara.Do x req = Lara.DoResponse StatusCode (inr respBody)
               /\ not_2xx StatusCode
               /\ Lara.json_Unmarshal_apiError respBody
                  = Some {| Lara.apiError_Status := s; Lara.apiError_Type := t;
                            Lara.apiError_Message := m |}).
Proof.
  intros rt c x method path params headers body files. unfold Lara.request.
  destruct (Lara.new_request c x method path params body files headers)
    as [e|req] eqn:Hreq.
  - apply new_request_inl in Hreq as (msg & cause & ->).
    split; [|split; [|split]].
    + intros respBody. split; [discriminate|].
      intros (req & StatusCode & H & _). discriminate H.
    + intros m H. discriminate H.
    + intros m H. discriminate H.
    + intros s t m H. discriminate H.
  - destruct (handle_response_typed (Lara.Do x req)) as (Ht & Hc & Ha).
    split; [|split; [|split]].
    + intros respBody. rewrite handle_response_inr. split.
      * intros (StatusCode & H1 & H2). exists req, StatusCode. auto.
      * intros (req' & StatusCode & H0 & H1 & H2). inversion H0; subst req'.
        exists StatusCode. auto.
    + intros m H. apply Ht in H as (err & H1 & H2 & H3).
      split; [exact H3|]. exists req, err. auto.
    + intros m H. apply Hc in H as (err & H1 & H2 & H3).
      split; [exact H3|]. exists req, err. auto.
    + intros s t m H. apply Ha in H as (StatusCode & respBody & H1 & H2 & H3 & H4).
      split; [exact H4|]. exists req, StatusCode, respBody. auto.
Qed.

(** The theorem at work: an answer 204 with an empty body. *)
Lemma X3_witness :
  Lara.request (rt := Model.runtime) Model.the_client (Model.answers 204 EmptyString)
    "DELETE" "/memories/mem_1" [] None [] []
  = inr EmptyString.
Proof.
  apply (proj1 (X3_what_request_returns Model.runtime Model.the_client
                  (Model.answers 204 EmptyString) "DELETE" "/memories/mem_1" [] []
                  None [])).
  eexists. exists 204. split; [reflexivity|]. split; [reflexivity | lia].
Defined.

(** X4. The [Content-MD5] header goes with the body that is sent: on
    every request that was built, when the caller supplies no header of
    that name, the header is there exactly when there is a body, and it is
    the MD5 of the very bytes sent, as 32 lower-case hexadecimal digits;
    the content type is then [application/json] (no attachment) or the
    multipart one (attachments), and without a body the transport sets
    neither header. *)
Theorem X4_content_md5_is_the_digest_of_the_body_sent :
  forall (rt : Lara.Runtime) (c : Lara.Client) (x : Lara.Exchange)
         (method path : string) (params headers : list (string * string))
         (body : option Lara.Value) (files : list (string * Lara.Reader))
         (req : Lara.Request),
    Lara.new_request c x method path params body files headers = inr req ->
    Forall (fun kv => Textproto.CanonicalMIMEHeaderKey (fst kv) <> "Content-Md5"%string
                      /\ Textproto.CanonicalMIMEHeaderKey (fst kv)
                         <> "Content-Type"%string) headers ->
    match Lara.Body_ req with
    | Some bodyBytes =>
        Lara.Header_ req !! "Content-Md5" = Some (md5_hex bodyBytes)
        /\ String.length (md5_hex bodyBytes) = 32%nat
        /\ Forall (fun ch => In ch (list_ascii_of_string "0123456789abcdef"))
             (list_ascii_of_string (md5_hex bodyBytes))
        /\ (Lara.Header_ req !! "Content-Type" = Some "application/json"%string
            /\ files = []
            \/ Lara.Header_ req !! "Content-Type"
               = Some (multipart_content_type (Lara.randomBoundary x))
               /\ files <> [])
    | None =>
        Lara.Header_ req !! "Content-Md5" = None
        /\ Lara.Header_ req !! "Content-Type" = None
        /\ body = None /\ files = []
    end.
Proof.
  intros rt c x method path params headers body files req Hreq Hcaller.
  apply new_request_inr in Hreq as (bodyReader & contentMD5 & contentType & Hbody & ->).
  cbn [Lara.Body_ Lara.Header_].
  assert (Forall (fun kv => Textproto.CanonicalMIMEHeaderKey (fst kv)
                            <> "Content-Md5"%string) headers) as Hmd5
      by (eapply List.Forall_impl; [|exact Hcaller]; intros kv [H _]; exact H).
  assert (Forall (fun kv => Textproto.CanonicalMIMEHeaderKey (fst kv)
                            <> "Content-Type"%string) headers) as Hct
      by (eapply List.Forall_impl; [|exact Hcaller]; intros kv [_ H]; exact H).
  pose proof (fixed_headers_lookup c (Lara.httpDate x) method contentMD5 contentType)
    as (_ & _ & _ & _ & Fct & Fmd5 & _).
  rewrite !authorize_other by discriminate.
  rewrite (apply_headers_other _ _ _ Hmd5), (apply_headers_other _ _ _ Hct).
  rewrite Fct, Fmd5.
  apply select_body_inr in Hbody.
  destruct bodyReader as [bodyBytes|].
  - destruct Hbody as (-> & Hkind). rewrite md5_hex_set.
    split; [reflexivity|]. split; [apply md5_hex_length|].
    split; [apply hex_lower|].
    destruct Hkind as [[-> Hf]|[-> Hf]]; [left | right]; split; auto.
  - destruct Hbody as (-> & -> & Hb & Hf). auto.
Qed.

(** The theorem at work: a JSON body. *)
Lemma X4_witness :
  exists req,
    Lara.new_request (rt := Model.runtime) Model.the_client
      (Model.answers 200 EmptyString) "POST" "/memories" []
      (Some (Json.JObject [(list_ascii_of_string "name",
                            Json.JString (list_ascii_of_string "legal"))])) [] []
    = inr req
    /\ Lara.Body_ req = Some (requote "{'name':'legal'}")
    /\ Lara.Header_ req !! "Content-Md5" = Some (md5_hex (requote "{'name':'legal'}")).
Proof.
  eexists. split; [reflexivity|]. split; [reflexivity|].
  exact (proj1 (X4_content_md5_is_the_digest_of_the_body_sent Model.runtime
                  Model.the_client (Model.answers 200 EmptyString) "POST" "/memories"
                  [] []
                  (Some (Json.JObject [(list_ascii_of_string "name",
                                        Json.JString (list_ascii_of_string "legal"))]))
                  [] _ eq_refl (List.Forall_nil _))).
Defined.

(** X5. What [handleContent] hands the destination's decoder, for every
    body that is a well-formed JSON object: the text, byte for byte, of
    the value of the last member whose key names the field [content]
    (as [encoding/json] matches keys: exactly, or up to the case of
    letters), whatever members come before or between; the empty text
    when no member does, as for the body [null].  A body that is a
    well-formed value of another kind (a boolean, a number, a string, an
    array), and a text that is no JSON value, is refused with the error
    wrapped after [failed to parse API response: ], and the decoder is
    not consulted. *)
Theorem X5_content_is_the_last_member_of_that_name :
  forall (rt : Lara.Runtime) (T : Type) (unmarshal_result : string -> Lara.result T),
    (forall ms, Json.wf (Json.JObject ms) = true ->
       (forall ms1 k X ms2,
           ms = ms1 ++ (k, X) :: ms2 ->
           Decode.field_match "content" k = true ->
           no_content ms2 ->
           Lara.handleContent (string_of_list_ascii (Json.render (Json.JObject ms)))
             unmarshal_result
           = unmarshal_result (string_of_list_ascii (Json.render X)))
       /\ (no_content ms ->
           Lara.handleContent (string_of_list_ascii (Json.render (Json.JObject ms)))
             unmarshal_result
           = unmarshal_result EmptyString))
    /\ Lara.handleContent "null" unmarshal_result = unmarshal_result EmptyString
    /\ (forall v, Json.wf v = true -> not_a_struct v ->
          Lara.handleContent (string_of_list_ascii (Json.render v)) unmarshal_result
          = inl (Lara.Errorf_w "failed to parse API response: "
                   (Lara.json_Unmarshal_error (string_of_list_ascii (Json.render v)))))
    /\ (forall respBytes,
          Json.parse (list_ascii_of_string respBytes) = None ->
          Lara.handleContent respBytes unmarshal_result
          = inl (Lara.Errorf_w "failed to parse API response: "
                   (Lara.json_Unmarshal_error respBytes))).
Proof.
  intros rt T unmarshal_result. split; [|split; [|split]].
  - intros ms Hwf. split.
    + intros ms1 k X ms2 -> Hk H2. unfold Lara.handleContent.
      rewrite list_ascii_of_string_of_list_ascii, Unmarshal_content_object by assumption.
      rewrite content_of_last by assumption. reflexivity.
    + intros Hno. unfold Lara.handleContent.
      rewrite list_ascii_of_string_of_list_ascii, Unmarshal_content_object by assumption.
      rewrite content_of_none by assumption. reflexivity.
  - reflexivity.
  - intros v Hwf Hv. unfold Lara.handleContent, Decode.Unmarshal_content.
    rewrite list_ascii_of_string_of_list_ascii, parse_render by assumption.
    destruct v as [|b|l|l|vs|ms]; cbn in Hv; try contradiction; reflexivity.
  - intros respBytes Hparse. unfold Lara.handleContent, Decode.Unmarshal_content.
    rewrite Hparse. reflexivity.
Qed.

(** The theorem at work: the key in capitals, twice, among other
    members. *)
Lemma X5_witness :
  Lara.handleContent (rt := Model.runtime)
    (requote "{'CONTENT':1,'meta':{'content':0},'Content':[true,'x'],'n':null}")
    Unmarshal_tree
  = inr (Json.JArray [Json.JBool true; Json.JString (list_ascii_of_string "x")]).
Proof.
  pose proof (X5_content_is_the_last_member_of_that_name Model.runtime Json.json
                Unmarshal_tree) as (Hobject & _).
  exact (eq_trans
           (proj1 (Hobject
                     [(list_ascii_of_string "CONTENT", Json.JNumber ["1"%char]);
                      (list_ascii_of_string "meta",
                       Json.JObject [(list_ascii_of_string "content",
                                      Json.JNumber ["0"%char])]);
                      (list_ascii_of_string "Content",
                       Json.JArray [Json.JBool true;
                                    Json.JString (list_ascii_of_string "x")]);
                      (list_ascii_of_string "n", Json.JNull)]
                     eq_refl)
                  [(list_ascii_of_string "CONTENT", Json.JNumber ["1"%char]);
                   (list_ascii_of_string "meta",
                    Json.JObject [(list_ascii_of_string "content",
                                   Json.JNumber ["0"%char])])]
                  (list_ascii_of_string "Content")
                  (Json.JArray [Json.JBool true;
                                Json.JString (list_ascii_of_string "x")])
                  [(list_ascii_of_string "n", Json.JNull)]
                  eq_refl eq_refl
                  ltac:(constructor; [reflexivity | constructor]))
           eq_refl).
Defined.

(** X6. Absence is decided by the error envelope, not by the HTTP status.
    Given that the request can be built and that decoding a memory (a
    glossary) never fails with a [LaraError], [MemoriesService.Get]
    ([GlossariesService.Get]) returns neither value nor error if and only
    if the answer has a status outside [200, 300), whichever, and a body
    that decodes as an error envelope with a non-empty type and the status
    404. *)
Theorem X6_absence_is_read_from_the_envelope :
  forall (rt : Lara.Runtime) (c : Lara.Client) (x : Lara.Exchange) (id : string),
    (forall req,
        Lara.new_request c x "GET" ("/memories/" +:+ id) [] None [] [] = inr req ->
        (forall content e,
            Lara.json_Unmarshal_Memory content = inl e -> is_not_found e = false) ->
        (Lara.MemoriesService_Get c x id = (None, None) <->
         exists StatusCode respBody t m,
           Lara.Do x req = Lara.DoResponse StatusCode (inr respBody)
           /\ not_2xx StatusCode
           /\ Lara.json_Unmarshal_apiError respBody
              = Some {| Lara.apiError_Status := 404; Lara.apiError_Type := t;
                        Lara.apiError_Message := m |}
           /\ t <> EmptyString))
    /\ (forall req,
          Lara.new_request c x "GET" ("/glossaries/" +:+ id) [] None [] [] = inr req ->
          (forall content e,
              Lara.json_Unmarshal_Glossary content = inl e -> is_not_found e = false) ->
          (Lara.GlossariesService_Get c x id = (None, None) <->
           exists StatusCode respBody t m,
             Lara.Do x req = Lara.DoResponse StatusCode (inr respBody)
             /\ not_2xx StatusCode
             /\ Lara.json_Unmarshal_apiError respBody
                = Some {| Lara.apiError_Status := 404; Lara.apiError_Type := t;
                          Lara.apiError_Message := m |}
             /\ t <> EmptyString)).
Proof.
  intros rt c x id. split.
  - intros req Hreq Hdec. rewrite MemoriesService_Get_eq.
    destruct (Lara.Client_Get c x ("/memories/" +:+ id) [] [] Lara.json_Unmarshal_Memory)
      as [e|memory] eqn:E.
    + destruct (is_not_found e) eqn:N.
      * apply is_not_found_true in N as (t & m & ->).
        apply (Client_Get_LaraError _ _ _ _ _ _ _ _ Hreq Hdec eq_refl) in E
            as (StatusCode & respBody & H).
        split; [intros _; exists StatusCode, respBody, t, m; exact H | reflexivity].
      * split; [discriminate|].
        intros (StatusCode & respBody & t & m & H).
        assert (Lara.Client_Get c x ("/memories/" +:+ id) [] []
                  Lara.json_Unmarshal_Memory = inl (Lara.LaraError 404 t m)) as E'
            by (apply (Client_Get_LaraError _ _ _ _ _ _ _ _ Hreq Hdec eq_refl);
                exists StatusCode, respBody; exact H).
        rewrite E in E'. inversion E'; subst e. discriminate N.
    + split; [discriminate|].
      intros (StatusCode & respBody & t & m & H).
      assert (Lara.Client_Get c x ("/memories/" +:+ id) [] []
                Lara.json_Unmarshal_Memory = inl (Lara.LaraError 404 t m)) as E'
          by (apply (Client_Get_LaraError _ _ _ _ _ _ _ _ Hreq Hdec eq_refl);
              exists StatusCode, respBody; exact H).
      rewrite E in E'. discriminate E'.
  - intros req Hreq Hdec. rewrite GlossariesService_Get_eq.
    destruct (Lara.Client_Get c x ("/glossaries/" +:+ id) [] []
                Lara.json_Unmarshal_Glossary) as [e|glossary] eqn:E.
    + destruct (is_not_found e) eqn:N.
      * apply is_not_found_true in N as (t & m & ->).
        apply (Client_Get_LaraError _ _ _ _ _ _ _ _ Hreq Hdec eq_refl) in E
            as (StatusCode & respBody & H).
        split; [intros _; exists StatusCode, respBody, t, m; exact H | reflexivity].
      * split; [discriminate|].
        intros (StatusCode & respBody & t & m & H).
        assert (Lara.Client_Get c x ("/glossaries/" +:+ id) [] []
                  Lara.json_Unmarshal_Glossary = inl (Lara.LaraError 404 t m)) as E'
            by (apply (Client_Get_LaraError _ _ _ _ _ _ _ _ Hreq Hdec eq_refl);
                exists StatusCode, respBody; exact H).
        rewrite E in E'. inversion E'; subst e. discriminate N.
    + split; [discriminate|].
      intros (StatusCode & respBody & t & m & H).
      assert (Lara.Client_Get c x ("/glossaries/" +:+ id) [] []
                Lara.json_Unmarshal_Glossary = inl (Lara.LaraError 404 t m)) as E'
          by (apply (Client_Get_LaraError _ _ _ _ _ _ _ _ Hreq Hdec eq_refl);
              exists StatusCode, respBody; exact H).
      rewrite E in E'. discriminate E'.
Qed.

(** The theorem at work: an answer 500 whose envelope says 404 is an
    absence, an answer 404 without envelope is a failure. *)
Lemma X6_witness :
  Lara.MemoriesService_Get (rt := Model.runtime) Model.the_client
    (Model.answers 500 not_found_body) "mem_1" = (None, None)
  /\ Lara.MemoriesService_Get (rt := Model.runtime) Model.the_client
       (Model.answers 404 "<html>Not Found</html>") "mem_1" <> (None, None).
Proof.
  split.
  - apply (proj1 (X6_absence_is_read_from_the_envelope Model.runtime Model.the_client
                    (Model.answers 500 not_found_body) "mem_1")
             _ eq_refl Model_Unmarshal_Memory_error).
    exists 500, not_found_body, "NotFound"%string, "nope"%string.
    split; [reflexivity|]. split; [right; lia|].
    split; [vm_compute; reflexivity | discriminate].
  - intros H.
    apply (proj1 (X6_absence_is_read_from_the_envelope Model.runtime Model.the_client
                    (Model.answers 404 "<html>Not Found</html>") "mem_1")
             _ eq_refl Model_Unmarshal_Memory_error) in H
        as (StatusCode & respBody & t & m & Hdo & _ & Ha & _).
    inversion Hdo; subst. vm_compute in Ha. discriminate Ha.
Defined.

(** X7. An import wait ends well as soon as the snapshot in hand is not
    below 1.0, and only then.  If at the [k]-th evaluation of the loop
    condition the progress of the current snapshot is 1.0 or more, or is
    not a number, every run with enough fuel returns that snapshot without
    failure after exactly [k] sleeps and [k] status requests, whatever the
    clock shows and whatever the maximum wait is: completion is tested
    before the time limit.  Conversely the snapshot of every outcome
    without failure has such a progress.  This holds for the memory and
    for the glossary loop. *)
Theorem X7_import_wait_ends_well_when_progress_is_not_below_one :
  forall (rt : Lara.Runtime) (c : Lara.Client) (g : Lara.GlossariesService)
         (w : Lara.Poll) (updateCallback : option (Lara.Import -> Lara.Import))
         (maxWaitTime : option Lara.Duration) (initial : Lara.Import),
    (forall k st,
        memories_state c w updateCallback maxWaitTime k initial = Some st ->
        (1 <=? Lara.Progress (Lara.current st))%float = true
        \/ (Lara.Progress (Lara.current st) =? Lara.Progress (Lara.current st))%float
           = false ->
        (forall fuel, (k < fuel)%nat ->
           Lara.MemoriesService_WaitForImport fuel c w initial updateCallback maxWaitTime
           = Some {| Lara.snapshot := Lara.current st; Lara.failure := None;
                     Lara.events := Lara.trace st |})
        /\ sleeps (Lara.trace st) = k /\ requests (Lara.trace st) = k)
    /\ (forall k st,
          glossaries_state g w updateCallback maxWaitTime k initial = Some st ->
          (1 <=? Lara.Progress (Lara.current st))%float = true
          \/ (Lara.Progress (Lara.current st) =? Lara.Progress (Lara.current st))%float
             = false ->
          (forall fuel, (k < fuel)%nat ->
             Lara.GlossariesService_WaitForImport fuel g w initial updateCallback
               maxWaitTime
             = Some {| Lara.snapshot := Lara.current st; Lara.failure := None;
                       Lara.events := Lara.trace st |})
          /\ sleeps (Lara.trace st) = k /\ requests (Lara.trace st) = k)
    /\ (forall fuel out,
          Lara.MemoriesService_WaitForImport fuel c w initial updateCallback maxWaitTime
          = Some out
          \/ Lara.GlossariesService_WaitForImport fuel g w initial updateCallback
               maxWaitTime = Some out ->
          Lara.failure out = None ->
          (1 <=? Lara.Progress (Lara.snapshot out))%float = true
          \/ (Lara.Progress (Lara.snapshot out) =? Lara.Progress (Lara.snapshot out))%float
             = false).
Proof.
  intros rt c g w updateCallback maxWaitTime initial. split; [|split].
  - intros k st Hst Hp. apply in_progress_false in Hp.
    exact (wait_completes _ _ _ _ _ _ _ _ _ _ _ _ Hst Hp).
  - intros k st Hst Hp. apply in_progress_false in Hp.
    exact (wait_completes _ _ _ _ _ _ _ _ _ _ _ _ Hst Hp).
  - intros fuel out [Hrun|Hrun] Hok; apply in_progress_false;
      exact (proj1 (wait_success _ _ _ _ _ _ _ _ _ _ _ _ Hrun Hok)).
Qed.

(** The theorem at work: the third answer reports 1.0, long after a
    maximum wait of five seconds would have run out at a fourth check. *)
Lemma X7_witness :
  exists st,
    memories_state (rt := Model.runtime) Model.the_client Scenario.steady
      Scenario.observe (Some 5000000000) 3 Scenario.started = Some st
    /\ (1 <=? Lara.Progress (Lara.current st))%float = true
    /\ 5000000000 < Lara.since Scenario.steady 3
    /\ Lara.MemoriesService_WaitForImport (rt := Model.runtime) 4 Model.the_client
         Scenario.steady Scenario.started Scenario.observe (Some 5000000000)
       = Some {| Lara.snapshot := Lara.current st; Lara.failure := None;
                 Lara.events := Lara.trace st |}
    /\ requests (Lara.trace st) = 3%nat.
Proof.
  eexists.
  assert (memories_state (rt := Model.runtime) Model.the_client Scenario.steady
            Scenario.observe (Some 5000000000) 3 Scenario.started = Some _) as Hst
      by (vm_compute; reflexivity).
  split; [exact Hst|]. split; [vm_compute; reflexivity|].
  split; [vm_compute; reflexivity|].
  destruct (proj1 (X7_import_wait_ends_well_when_progress_is_not_below_one
                     Model.runtime Model.the_client Scenario.glossaries
                     Scenario.steady Scenario.observe (Some 5000000000)
                     Scenario.started)
              3%nat _ Hst ltac:(left; vm_compute; reflexivity))
    as (Hrun & _ & Hr).
  split; [apply Hrun; lia | exact Hr].
Defined.

(** X8. [TranslateWithOptions] returns a document only after the server
    reported it translated.  Every successful result is the download,
    in the output format asked for, of the document named by the last
    status answer, after a wait that ended without failure on the status
    [translated].  Nothing is downloaded otherwise: when the upload
    fails (the failure comes back wrapped after
    [failed to upload document: ], and nothing is polled), when the wait
    fails (wrapped after [failed to wait for translation: ]) and when the
    wait ends on the status [error], the result does not depend on what a
    download would give. *)
Theorem X8_translate_downloads_only_a_translated_document :
  forall (rt : Lara.Runtime) (c : Lara.Client) (w : Lara.Poll) (fuel : nat)
         (upload : Lara.result Lara.Document)
         (download : string -> string -> Lara.result string)
         (options : option Lara.DocumentTranslateOptions),
    (forall content,
        Lara.TranslateWithOptions fuel c w upload download options
        = Some (inr content) ->
        exists document out,
          upload = inr document
          /\ Lara.waitForTranslation fuel c w document = Some out
          /\ Lara.failure out = None
          /\ Lara.Status (Lara.snapshot out) = Lara.DocumentStatusTranslated
          /\ download (Lara.Document_ID (Lara.snapshot out))
               match options with
               | Some o => Lara.OutputFormat o
               | None => EmptyString
               end
             = inr content)
    /\ (forall err,
          upload = inl err ->
          Lara.TranslateWithOptions fuel c w upload download options
          = Some (inl (Lara.WrapError
                         ("failed to upload document: " +:+ Lara.Error err) err)))
    /\ (forall document out err,
          upload = inr document ->
          Lara.waitForTranslation fuel c w document = Some out ->
          Lara.failure out = Some err ->
          Lara.TranslateWithOptions fuel c w upload download options
          = Some (inl (Lara.WrapError
                         ("failed to wait for translation: " +:+ Lara.Error err) err)))
    /\ (forall document out download',
          upload = inr document ->
          Lara.waitForTranslation fuel c w document = Some out ->
          Lara.failure out <> None
          \/ Lara.Status (Lara.snapshot out) <> Lara.DocumentStatusTranslated ->
          Lara.TranslateWithOptions fuel c w upload download options
          = Lara.TranslateWithOptions fuel c w upload download' options).
Proof.
  intros rt c w fuel upload download options.
  assert (forall document out,
             Lara.waitForTranslation fuel c w document = Some out ->
             Lara.failure out = None ->
             terminal (Lara.snapshot out)) as Hterm.
  { intros document out Hrun Hok. unfold Lara.waitForTranslation in Hrun.
    cbv zeta in Hrun. apply translating_false.
    exact (proj1 (wait_success _ _ _ _ _ _ _ _ _ _ _ _ Hrun Hok)). }
  split; [|split; [|split]].
  - intros content H. unfold Lara.TranslateWithOptions in H.
    destruct upload as [err|document]; [discriminate H|].
    destruct (Lara.waitForTranslation fuel c w document) as [out|] eqn:Hrun;
      [|discriminate H].
    destruct (Lara.failure out) as [err|] eqn:Hok; [discriminate H|].
    cbv zeta in H.
    destruct (String.eqb_spec (Lara.Status (Lara.snapshot out))
                Lara.DocumentStatusError) as [E|N]; [discriminate H|].
    exists document, out. repeat split; try assumption; try reflexivity.
    + destruct (Hterm _ _ Hrun Hok) as [Ht|Ht]; [exact Ht | contradiction].
    + inversion H as [H']. rewrite H'. reflexivity.
  - intros err ->. reflexivity.
  - intros document out err -> Hrun Hfail. unfold Lara.TranslateWithOptions.
    rewrite Hrun, Hfail. reflexivity.
  - intros document out download' -> Hrun Hno. unfold Lara.TranslateWithOptions.
    rewrite Hrun. destruct (Lara.failure out) as [err|] eqn:Hok; [reflexivity|].
    cbv zeta.
    destruct (String.eqb_spec (Lara.Status (Lara.snapshot out))
                Lara.DocumentStatusError) as [E|N]; [reflexivity|].
    destruct Hno as [Hno|Hno]; [contradiction Hno; reflexivity|].
    destruct (Hterm _ _ Hrun Hok) as [Ht|Ht]; contradiction.
Qed.

(** The theorem at work: a document translated at the second status
    request. *)
Lemma X8_witness :
  exists out,
    Lara.waitForTranslation (rt := Model.runtime) 3 Model.the_client
      eventually_translated DocumentScenario.uploaded = Some out
    /\ Lara.failure out = None
    /\ Lara.Status (Lara.snapshot out) = Lara.DocumentStatusTranslated
    /\ Lara.TranslateWithOptions (rt := Model.runtime) 3 Model.the_client
         eventually_translated (inr DocumentScenario.uploaded)
         (fun id format => inr ("bytes of " +:+ id)) None
       = Some (inr "bytes of doc_1"%string).
Proof.
  assert (Lara.TranslateWithOptions (rt := Model.runtime) 3 Model.the_client
            eventually_translated (inr DocumentScenario.uploaded)
            (fun id format => inr ("bytes of " +:+ id)) None
          = Some (inr "bytes of doc_1"%string)) as Hrun
      by (vm_compute; reflexivity).
  destruct (proj1 (X8_translate_downloads_only_a_translated_document Model.runtime
                     Model.the_client eventually_translated 3
                     (inr DocumentScenario.uploaded)
                     (fun id format => inr ("bytes of " +:+ id)) None)
              _ Hrun)
    as (document & out & Hup & Hwait & Hok & Hst & _).
  inversion Hup; subst document.
  exists out. auto.
Defined.

(** X9. [GlossariesService.Export] returns the body of the answer byte
    for byte, with no envelope and no decoding: whenever the request is
    answered with a status in [200, 300) and a readable body, that body is
    the result, whatever it holds.  The request always carries a query:
    the parameter [content_type] is among the parameters encoded, even
    when empty, and [source] exactly when a source is given.  Every
    failure of the transport comes back wrapped after
    [failed to export glossary: ]. *)
Theorem X9_export_returns_the_raw_body :
  forall (rt : Lara.Runtime) (sv : Services) (c : Lara.Client) (x : Lara.Exchange)
         (id contentType : string) (source : option string),
    let params : gmap string string :=
      match source with
      | Some s => <["source" := s]> {["content_type" := contentType]}
      | None => {["content_type" := contentType]}
      end in
    let path := ("/glossaries/" +:+ id +:+ "/export")%string in
    ("content_type"%string, contentType) ∈ range_strings params
    /\ (forall s, ("source"%string, s) ∈ range_strings params <-> source = Some s)
    /\ (forall req,
          Lara.new_request c x "GET" path (range_strings params) None [] [] = inr req ->
          Lara.URL req
          = Lara.baseURL c +:+ path +:+ "?"
              +:+ Lara.url_Values_Encode (range_strings params)
          /\ Lara.Body_ req = None
          /\ (forall StatusCode respBody,
                Lara.Do x req = Lara.DoResponse StatusCode (inr respBody) ->
                200 <= StatusCode < 300 ->
                GlossariesService_Export c x id contentType source = inr respBody))
    /\ (forall e,
          GlossariesService_Export c x id contentType source = inl e ->
          exists cause,
            Lara.request c x "GET" path (range_strings params) None [] [] = inl cause
            /\ e = Lara.WrapError ("failed to export glossary: " +:+ Lara.Error cause)
                     cause).
Proof.
  intros rt sv c x id contentType source. cbv zeta.
  set (params := match source with
                 | Some s => <["source" := s]> {["content_type" := contentType]}
                 | None => {["content_type" := contentType]}
                 end : gmap string string).
  assert (forall k v, (k, v) ∈ range_strings params <-> params !! k = Some v) as Hin.
  { intros k v. rewrite (range_strings_perm params). apply elem_of_map_to_list. }
  assert (GlossariesService_Export c x id contentType source
          = match Lara.request c x "GET" ("/glossaries/" +:+ id +:+ "/export")
                    (range_strings params) None [] [] with
            | inl err => inl (Lara.Errorf_w "failed to export glossary: " err)
            | inr content => inr content
            end) as Hexport.
  { unfold GlossariesService_Export, Client_GetRaw, params.
    destruct source; reflexivity. }
  split; [|split; [|split]].
  - apply Hin. unfold params. destruct source.
    + rewrite lookup_insert_ne by discriminate. apply lookup_singleton_eq.
    + apply lookup_singleton_eq.
  - intros s. rewrite Hin. unfold params. destruct source as [s'|].
    + rewrite lookup_insert_eq. split; congruence.
    + rewrite lookup_singleton_ne by discriminate. split; discriminate.
  - intros req Hreq.
    pose proof (request_eq _ _ _ _ _ _ _ _ _ Hreq) as Hrun.
    apply new_request_inr in Hreq as (b & md5 & ct & Hbody & ->).
    cbn [Lara.URL Lara.Body_].
    assert (range_strings params <> []) as Hne.
    { intros E. assert (("content_type"%string, contentType) ∈ range_strings params) as H.
      { apply Hin. unfold params. destruct source.
        - rewrite lookup_insert_ne by discriminate. apply lookup_singleton_eq.
        - apply lookup_singleton_eq. }
      rewrite E in H. inversion H. }
    split; [|split].
    + unfold Lara.request_url, Lara.normalize_path.
      destruct (range_strings params) as [|p ps]; [congruence|]. reflexivity.
    + cbn in Hbody. inversion Hbody. reflexivity.
    + intros StatusCode respBody Hdo Hs.
      rewrite Hexport, Hrun, Hdo, (handle_response_2xx _ _ Hs). reflexivity.
  - intros e. rewrite Hexport.
    destruct (Lara.request c x "GET" _ (range_strings params) None [] []) as [cause|];
      [|discriminate].
    intros H. inversion H. exists cause. split; reflexivity.
Qed.

(** The theorem at work: a CSV file, which is no JSON. *)
Lemma X9_witness :
  GlossariesService_Export (sv := ServicesModel.services) Model.the_client
    (Model.answers 200 "en,it
cat,gatto") "gls_1" "csv/table-uni" (Some "en"%string)
  = inr "en,it
cat,gatto"%string.
Proof.
  destruct (X9_export_returns_the_raw_body Model.runtime ServicesModel.services
              Model.the_client (Model.answers 200 "en,it
cat,gatto") "gls_1" "csv/table-uni" (Some "en"%string))
    as (_ & _ & Hraw & _).
  destruct (Hraw _ eq_refl) as (_ & _ & H).
  apply (H 200). - reflexivity. - lia.
Defined.

(** X10. An import of a file is always a multipart request of two parts.
    For a file that can be read, the body of the request of
    [MemoriesService.ImportTmx] is one form file, whose name and file
    name are both [tmx] (the name of the file itself is not sent),
    followed by the form field [json] with the serialised options, also
    when there are no options; it is sent with the multipart content type;
    the same holds for [GlossariesService.ImportCsv] with [csv].  The
    options hold [compression: gzip] exactly when the name of the file
    ends in [.gz], whatever the case of the two letters (for ASCII names),
    and are empty otherwise: the content of the file is not inspected.  A
    file that cannot be opened makes [ImportTmxFromPath] return the error
    of [os.Open] itself, and [ImportCsvFromPath] return it wrapped after
    [failed to open CSV file: ]. *)
Theorem X10_file_imports_are_multipart_with_their_options :
  forall (rt : Lara.Runtime) (sv : Services) (c : Lara.Client) (x : Lara.Exchange)
         (id : string) (file : File) (data : string),
    read file = inr data ->
    let tmx_options : gmap string string :=
      if isGzipped (Name file) then {["compression" := "gzip"%string]} else ∅ in
    let csv_options : gmap string GoValue :=
      if isGzipped (Name file) then {["compression" := GoString "gzip"]} else ∅ in
    (forall jsonBytes req,
        Lara.json_Marshal (interface_of_strings tmx_options) = inr jsonBytes ->
        Lara.new_request c x "POST" ("/memories/" +:+ id +:+ "/import") []
          (Some (interface_of_strings tmx_options)) [("tmx"%string, read file)] []
        = inr req ->
        Lara.Body_ req
        = Some (multipart_text (Lara.randomBoundary x) [("tmx", data)]%string
                  (Some jsonBytes))
        /\ Lara.Header_ req !! "Content-Type"
           = Some (multipart_content_type (Lara.randomBoundary x))
        /\ forall StatusCode respBody,
             Lara.Do x req = Lara.DoResponse StatusCode (inr respBody) ->
             200 <= StatusCode < 300 ->
             MemoriesService_ImportTmx c x id file
             = match Lara.handleContent respBody Lara.json_Unmarshal_Import with
               | inl err => inl (Lara.Errorf_w "failed to import TMX: " err)
               | inr memoryImport => inr memoryImport
               end)
    /\ (forall jsonBytes req,
          Lara.json_Marshal (interface_of_map csv_options) = inr jsonBytes ->
          Lara.new_request c x "POST" ("/glossaries/" +:+ id +:+ "/import") []
            (Some (interface_of_map csv_options)) [("csv"%string, read file)] []
          = inr req ->
          Lara.Body_ req
          = Some (multipart_text (Lara.randomBoundary x) [("csv", data)]%string
                    (Some jsonBytes))
          /\ Lara.Header_ req !! "Content-Type"
             = Some (multipart_content_type (Lara.randomBoundary x))
          /\ forall StatusCode respBody,
               Lara.Do x req = Lara.DoResponse StatusCode (inr respBody) ->
               200 <= StatusCode < 300 ->
               GlossariesService_ImportCsv c x id file
               = match Lara.handleContent respBody Lara.json_Unmarshal_Import with
                 | inl err => inl (Lara.Errorf_w "failed to import CSV to glossary: " err)
                 | inr glossaryImport => inr glossaryImport
                 end)
    /\ (all_ascii (Name file) = true ->
        (isGzipped (Name file) = true <->
         exists stem c2 c3,
           Name file = stem +:+ String "." (String c2 (String c3 EmptyString))
           /\ (c2 = "g"%char \/ c2 = "G"%char) /\ (c3 = "z"%char \/ c3 = "Z"%char)))
    /\ (forall path err,
          os_Open path = inl err ->
          MemoriesService_ImportTmxFromPath c x id path = inl err
          /\ GlossariesService_ImportCsvFromPath c x id path
             = inl (Lara.WrapError ("failed to open CSV file: " +:+ Lara.Error err) err)).
Proof.
  intros rt sv c x id file data Hread. cbv zeta. split; [|split; [|split]].
  - intros jsonBytes req Hj Hreq.
    pose proof (request_eq _ _ _ _ _ _ _ _ _ Hreq) as Hrun.
    rewrite Hread in Hreq.
    destruct (upload_request _ _ _ _ _ _ _ _ _ Hj Hreq) as (Hbody & Hct & _).
    split; [exact Hbody|]. split; [exact Hct|].
    intros StatusCode respBody Hdo Hs.
    unfold MemoriesService_ImportTmx, Lara.Client_Post. cbv zeta.
    rewrite Hrun, Hdo, (handle_response_2xx _ _ Hs). reflexivity.
  - intros jsonBytes req Hj Hreq.
    pose proof (request_eq _ _ _ _ _ _ _ _ _ Hreq) as Hrun.
    rewrite Hread in Hreq.
    destruct (upload_request _ _ _ _ _ _ _ _ _ Hj Hreq) as (Hbody & Hct & _).
    split; [exact Hbody|]. split; [exact Hct|].
    intros StatusCode respBody Hdo Hs.
    unfold GlossariesService_ImportCsv, Lara.Client_Post. cbv zeta.
    rewrite Hrun, Hdo, (handle_response_2xx _ _ Hs). reflexivity.
  - apply isGzipped_spec.
  - intros path err Hopen.
    unfold MemoriesService_ImportTmxFromPath, GlossariesService_ImportCsvFromPath.
    rewrite Hopen. split; reflexivity.
Qed.

(** The theorem at work: a compressed memory, named in capitals. *)
Lemma X10_witness :
  let file := {| Name := "legal.TMX.GZ"; read := inr "gzip bytes"%string |} in
  isGzipped (sv := ServicesModel.services) (Name file) = true
  /\ exists req,
       Lara.new_request (rt := Model.runtime) Model.the_client
         (Model.answers 200 EmptyString) "POST" "/memories/mem_1/import" []
         (Some (interface_of_strings (Services := ServicesModel.services)
                  {["compression" := "gzip"%string]}))
         [("tmx"%string, read file)] []
       = inr req
       /\ Lara.Body_ req
          = Some (multipart_text (rt := Model.runtime) "XXBOUNDARYXX"
                    [("tmx", "gzip bytes")]%string
                    (Some (requote "{'compression':'gzip'}"))).
Proof.
  cbv zeta. split; [vm_compute; reflexivity|].
  eexists. split; [reflexivity|].
  destruct (X10_file_imports_are_multipart_with_their_options Model.runtime
              ServicesModel.services Model.the_client (Model.answers 200 EmptyString)
              "mem_1" {| Name := "legal.TMX.GZ"; read := inr "gzip bytes"%string |}
              "gzip bytes" eq_refl) as (Htmx & _).
  exact (proj1 (Htmx (requote "{'compression':'gzip'}") _
                  ltac:(vm_compute; reflexivity) eq_refl)).
Defined.

(** X11. [MemoriesService.Connect] posts the single identifier to
    [/memories/connect] and answers with the first memory of the list the
    server returns, whatever follows it; when the list is empty it fails
    with [no memory returned for id ] followed by the identifier.  Its
    only other failures are those of [ConnectMultiple], unchanged: the
    failure of the client wrapped once after
    [failed to connect memories: ]. *)
Theorem X11_connect_returns_the_first_memory :
  forall (rt : Lara.Runtime) (sv : Services) (c : Lara.Client) (x : Lara.Exchange)
         (id : string),
    (forall req StatusCode respBody memories,
        Lara.new_request c x "POST" "/memories/connect" []
          (Some (interface_of_map {["ids" := GoStrings [id]]})) [] [] = inr req ->
        Lara.Do x req = Lara.DoResponse StatusCode (inr respBody) ->
        200 <= StatusCode < 300 ->
        Lara.handleContent respBody json_Unmarshal_Memories = inr memories ->
        MemoriesService_Connect c x id
        = match memories with
          | [] => inl (Lara.ErrorString ("no memory returned for id " +:+ id))
          | memory :: _ => inr memory
          end)
    /\ (forall e,
          MemoriesService_Connect c x id = inl e ->
          (e = Lara.ErrorString ("no memory returned for id " +:+ id)
           /\ MemoriesService_ConnectMultiple c x [id] = inr [])
          \/ (MemoriesService_ConnectMultiple c x [id] = inl e
              /\ exists cause,
                   e = Lara.WrapError
                         ("failed to connect memories: " +:+ Lara.Error cause) cause))
    /\ (forall memory,
          MemoriesService_Connect c x id = inr memory ->
          exists rest, MemoriesService_ConnectMultiple c x [id] = inr (memory :: rest)).
Proof.
  intros rt sv c x id. split; [|split].
  - intros req StatusCode respBody memories Hreq Hdo Hs Hdec.
    unfold MemoriesService_Connect, MemoriesService_ConnectMultiple, Lara.Client_Post.
    cbv zeta.
    rewrite (request_eq _ _ _ _ _ _ _ _ _ Hreq), Hdo, (handle_response_2xx _ _ Hs), Hdec.
    reflexivity.
  - intros e. unfold MemoriesService_Connect.
    destruct (MemoriesService_ConnectMultiple c x [id]) as [err|[|memory rest]] eqn:E.
    + intros H. inversion H; subst err. right. split; [reflexivity|].
      unfold MemoriesService_ConnectMultiple in E. cbv zeta in E.
      destruct (Lara.Client_Post c x _ _ _ _ _) as [cause|]; inversion E.
      exists cause. reflexivity.
    + intros H. inversion H. left. split; reflexivity.
    + discriminate.
  - intros memory. unfold MemoriesService_Connect.
    destruct (MemoriesService_ConnectMultiple c x [id]) as [err|[|m rest]];
      try discriminate.
    intros H. inversion H; subst. exists rest. reflexivity.
Qed.

(** The theorem at work: the server knows no such memory and answers with
    an empty list. *)
Lemma X11_witness :
  MemoriesService_Connect (sv := ServicesModel.services) Model.the_client
    (Model.answers 200 (requote "{'content':[]}")) "mem_9"
  = inl (Lara.ErrorString "no memory returned for id mem_9").
Proof.
  exact (proj1 (X11_connect_returns_the_first_memory Model.runtime
                  ServicesModel.services Model.the_client
                  (Model.answers 200 (requote "{'content':[]}")) "mem_9")
           _ 200 (requote "{'content':[]}") [] eq_refl eq_refl
           ltac:(lia) ltac:(vm_compute; reflexivity)).
Defined.

(** X12. [Translator.Translate] refuses a text that is neither a string,
    a list of strings nor a list of text blocks, with the error
    [text must be string, []string, or []TextBlock], before any request:
    the result is the same on every exchange.  For a text it accepts, the
    body always holds the text under [q] and the target under [target];
    an option left at its zero value is not sent (an empty source, a
    timeout of zero or less, an empty list of memories), whereas a boolean
    option that is set is sent also when it is false; [NoTrace] never
    goes into the body.  It travels as the header [X-No-Trace: true],
    which the request carries whenever [NoTrace] is set and true and no
    caller header has another spelling of that name; a caller header whose
    value is [nil] is not sent. *)
Theorem X12_translate_body_and_no_trace_header :
  forall (rt : Lara.Runtime) (sv : Services) (t : Translator.t) (x : Lara.Exchange)
         (text : GoValue) (source target : string) (opts : TranslateOptions.t),
    (forall x',
        (exists n, text = GoInt n) \/ (exists b, text = GoBool b) ->
        Translator_Translate t x text source target opts
        = inl (Lara.ErrorString "text must be string, []string, or []TextBlock")
        /\ Translator_Translate t x' text source target opts
           = Translator_Translate t x text source target opts)
    /\ (forall body,
          Translate_body text source target opts = inr body ->
          body !! "q" = Some text
          /\ body !! "target" = Some (GoString target)
          /\ body !! "source"
             = (if String.eqb source "" then None else Some (GoString source))
          /\ body !! "timeout"
             = (if 0 <? TranslateOptions.TimeoutMs opts
                then Some (GoInt (TranslateOptions.TimeoutMs opts)) else None)
          /\ body !! "adapt_to"
             = match TranslateOptions.AdaptTo opts with
               | [] => None
               | _ :: _ => Some (GoStrings (TranslateOptions.AdaptTo opts))
               end
          /\ body !! "multiline" = GoBool <$> TranslateOptions.Multiline opts
          /\ body !! "use_cache" = GoBool <$> TranslateOptions.UseCache opts
          /\ body !! "verbose" = GoBool <$> TranslateOptions.Verbose opts
          /\ body !! "no_trace" = None)
    /\ (forall name v,
          (name, v) ∈ range_strings (Translate_headers opts) <->
          (name = "X-No-Trace"%string /\ v = "true"%string
           /\ TranslateOptions.NoTrace opts = Some true)
          \/ (~ (name = "X-No-Trace"%string /\ TranslateOptions.NoTrace opts = Some true)
              /\ exists value,
                   TranslateOptions.Headers opts !! name = Some (Some value)
                   /\ v = fmt_Sprint value))
    /\ (forall body req,
          Lara.new_request (Translator.client t) x "POST" "/translate" []
            (Some (interface_of_map body)) [] (range_strings (Translate_headers opts))
          = inr req ->
          TranslateOptions.NoTrace opts = Some true ->
          (forall name value,
              TranslateOptions.Headers opts !! name = Some (Some value) ->
              name <> "X-No-Trace"%string ->
              Textproto.CanonicalMIMEHeaderKey name <> "X-No-Trace"%string) ->
          Lara.Header_ req !! "X-No-Trace" = Some "true"%string).
Proof.
  intros rt sv t x text source target opts. split; [|split; [|split]].
  - intros x' [[n ->]|[b ->]]; split; reflexivity.
  - intros body H. apply Translate_body_inr in H. subst body.
    split; [apply Translate_fields_q|]. split; [apply Translate_fields_target|].
    split; [apply Translate_fields_source|]. split; [apply Translate_fields_timeout|].
    split; [apply Translate_fields_adapt_to|].
    split; [apply Translate_fields_multiline|].
    split; [apply Translate_fields_use_cache|].
    split; [apply Translate_fields_verbose | apply Translate_fields_no_trace].
  - intros name v. rewrite range_strings_elem, Translate_headers_lookup.
    destruct (String.eqb_spec name "X-No-Trace") as [->|N]; cbn [andb].
    + destruct (TranslateOptions.NoTrace opts) as [[|]|] eqn:E.
      * split.
        -- intros H. inversion H. left. auto.
        -- intros [(_ & -> & _)|(Hno & _)]; [reflexivity|].
           contradiction Hno. auto.
      * split.
        -- intros H. right. split; [intros [_ H']; discriminate H'|].
           destruct (TranslateOptions.Headers opts !! "X-No-Trace") as [[value|]|];
             inversion H. eauto.
        -- intros [(_ & _ & H)|(_ & value & -> & ->)]; [discriminate H | reflexivity].
      * split.
        -- intros H. right. split; [intros [_ H']; discriminate H'|].
           destruct (TranslateOptions.Headers opts !! "X-No-Trace") as [[value|]|];
             inversion H. eauto.
        -- intros [(_ & _ & H)|(_ & value & -> & ->)]; [discriminate H | reflexivity].
    + split.
      * intros H. right. split; [intros [H' _]; contradiction|].
        destruct (TranslateOptions.Headers opts !! name) as [[value|]|];
          inversion H. eauto.
      * intros [(H & _)|(_ & value & -> & ->)]; [contradiction | reflexivity].
  - intros body req Hreq Hno Hother.
    apply new_request_inr in Hreq as (b & md5 & ct & _ & ->).
    cbn [Lara.Header_]. rewrite authorize_other by discriminate.
    apply (apply_headers_alone _ _ "X-No-Trace" "true").
    + apply range_strings_NoDup.
    + apply range_strings_elem. rewrite Translate_headers_lookup, Hno. reflexivity.
    + intros k' v' Hin Hcanon.
      apply range_strings_elem in Hin. rewrite Translate_headers_lookup, Hno in Hin.
      destruct (String.eqb_spec k' "X-No-Trace") as [->|N]; cbn [andb] in Hin.
      * inversion Hin. reflexivity.
      * destruct (TranslateOptions.Headers opts !! k') as [[value|]|] eqn:E;
          try discriminate Hin.
        exfalso. exact (Hother _ _ E N Hcanon).
Qed.

(** The theorem at work: a text with the trace switched off. *)
Lemma X12_witness :
  exists (body : gmap string GoValue) (req : Lara.Request),
    Translate_body (sv := ServicesModel.services) (GoString "Hello") "" "it-IT" traceless
    = inr body
    /\ body !! "multiline" = Some (GoBool false)
    /\ body !! "source" = None
    /\ Lara.new_request (rt := Model.runtime) Model.the_client
         (Model.answers 200 EmptyString) "POST" "/translate" []
         (Some (interface_of_map (Services := ServicesModel.services) body)) []
         (range_strings (Services := ServicesModel.services)
            (Translate_headers traceless))
       = inr req
    /\ Lara.Header_ req !! "X-No-Trace" = Some "true"%string.
Proof.
  eexists. eexists.
  split; [reflexivity|]. split; [vm_compute; reflexivity|].
  split; [vm_compute; reflexivity|]. split; [reflexivity|].
  refine (proj2 (proj2 (proj2
            (X12_translate_body_and_no_trace_header Model.runtime
               ServicesModel.services (NewTranslator (Some (NewCredentials "key" "secret"))
                                         (Some {| ServerURL := "https://api.laratranslate.com/" |}))
               (Model.answers 200 EmptyString) (GoString "Hello") "" "it-IT" traceless)))
            _ _ eq_refl eq_refl _).
  intros name value H N.
  destruct (decide (name = "X-Request-Id"%string)) as [->|N'].
  - vm_compute. discriminate.
  - unfold traceless in H. cbn [TranslateOptions.Headers] in H.
    rewrite lookup_singleton_ne in H by congruence. discriminate H.
Defined.

(** X13. A translator built without credentials, or with an empty access
    key ID or secret, sends anonymous requests: no request of its client
    has an [Authorization] header unless the caller supplies one; with
    both credentials it signs.  Without options, or with an empty server
    URL, its requests go to [https://api.laratranslate.com]; the base URL
    never ends in a slash.  The three services share the translator's
    client, and the glossaries poll every two seconds. *)
Theorem X13_a_translator_without_credentials_is_anonymous :
  forall (rt : Lara.Runtime) (credentials : option Credentials)
         (options : option TranslatorOptions),
    let t := NewTranslator credentials options in
    let c := Translator.client t in
    (signing c = true <->
     exists cr, credentials = Some cr
                /\ Credentials_accessKeyID cr <> EmptyString
                /\ Credentials_accessKeySecret cr <> EmptyString)
    /\ (forall (x : Lara.Exchange) (method path : string)
               (params headers : list (string * string)) (body : option Lara.Value)
               (files : list (string * Lara.Reader)) (req : Lara.Request),
           signing c = false ->
           Lara.new_request c x method path params body files headers = inr req ->
           Forall (fun kv => Textproto.CanonicalMIMEHeaderKey (fst kv)
                             <> "Authorization"%string) headers ->
           Lara.Header_ req !! "Authorization" = None)
    /\ (options = None \/ (exists o, options = Some o /\ ServerURL o = EmptyString) ->
        Lara.baseURL c = "https://api.laratranslate.com"%string)
    /\ (forall u, Lara.baseURL c <> u +:+ "/")
    /\ DocumentsService_client (Translator.Documents t) = c
    /\ MemoriesService_client (Translator.Memories t) = c
    /\ Lara.client (Translator.Glossaries t) = c
    /\ Lara.pollingInterval (Translator.Glossaries t) = 2 * Lara.Second.
Proof.
  intros rt credentials options. cbv zeta.
  split; [|split; [|split; [|split; [|repeat split]]]].
  - rewrite signing_true. unfold NewTranslator. cbn.
    destruct credentials as [cr|]; cbn.
    + split; [intros H; exists cr; tauto|].
      intros (cr' & E & H). inversion E; subst. exact H.
    + split; [intros [H _]; contradiction H; reflexivity|].
      intros (cr & E & _). discriminate E.
  - intros x method path params headers body files req Hanon Hreq Hcaller.
    apply new_request_inr in Hreq as (b & md5 & ct & _ & ->).
    cbn [Lara.Header_]. rewrite (authorize_anonymous _ _ _ _ _ _ Hanon).
    rewrite (apply_headers_other _ _ _ Hcaller).
    apply (fixed_headers_lookup (Translator.client (NewTranslator credentials options))).
  - intros H. unfold NewTranslator. cbn.
    destruct H as [->|(o & -> & E)]; [reflexivity|]. rewrite E. reflexivity.
  - intros u. unfold NewTranslator. cbn. apply TrimRightSlash_end.
Qed.

(** The theorem at work: no credentials, no options. *)
Lemma X13_witness :
  exists req,
    Lara.new_request (rt := Model.runtime) (Translator.client (NewTranslator None None))
      (Model.answers 200 EmptyString) "GET" "/languages" [] None [] []
    = inr req
    /\ Lara.URL req = "https://api.laratranslate.com/languages"%string
    /\ Lara.Header_ req !! "Authorization" = None.
Proof.
  eexists. split; [reflexivity|]. split; [reflexivity|].
  exact (proj1 (proj2 (X13_a_translator_without_credentials_is_anonymous
                         Model.runtime None None))
           (Model.answers 200 EmptyString) "GET"%string "/languages"%string [] [] None []
           _ eq_refl eq_refl (List.Forall_nil _)).
Defined.

(** X14. [Translation.UnmarshalJSON] reads a translation in one of three
    shapes, tried in this order, and changes only the field of the shape
    it finds.  A JSON string sets [String]; so does [null], to the empty
    string.  An array all of whose elements are strings or [null] sets
    [Strings], a [null] element counting as the empty string: this
    includes the empty array and an array of [null]s, which are never
    read as text blocks.  Any other array sets [TextBlocks] when each of
    its elements decodes as a text block, and is refused when one of them
    is neither an object nor [null].  A number, a boolean, an object and a
    text that is no JSON are refused, with the error
    [translation: unsupported data type]. *)
Theorem X14_a_translation_is_read_as_string_strings_or_blocks :
  forall (t : Translation) (data : string),
    (forall l,
        Json.parse (list_ascii_of_string data) = Some (Json.JString l) ->
        Translation_UnmarshalJSON t data
        = inr {| String_ := Some (Decode.unquote l); Strings := Strings t;
                 TextBlocks := TextBlocks t |})
    /\ (Json.parse (list_ascii_of_string data) = Some Json.JNull ->
        Translation_UnmarshalJSON t data
        = inr {| String_ := Some EmptyString; Strings := Strings t;
                 TextBlocks := TextBlocks t |})
    /\ (forall vs,
          Json.parse (list_ascii_of_string data) = Some (Json.JArray vs) ->
          (forallb is_string_or_null vs = true ->
           Translation_UnmarshalJSON t data
           = inr {| String_ := String_ t; Strings := Some (map string_of_element vs);
                    TextBlocks := TextBlocks t |})
          /\ (forallb is_string_or_null vs = false ->
              forall blocks,
                mapM Unmarshal_TextBlock vs = Some blocks ->
                Translation_UnmarshalJSON t data
                = inr {| String_ := String_ t; Strings := Strings t;
                         TextBlocks := Some blocks |})
          /\ (forallb is_string_or_null vs = false ->
              forallb is_object_or_null vs = false ->
              Translation_UnmarshalJSON t data
              = inl (Lara.ErrorString "translation: unsupported data type")))
    /\ (Json.parse (list_ascii_of_string data) = None
        \/ (exists b, Json.parse (list_ascii_of_string data) = Some (Json.JBool b))
        \/ (exists l, Json.parse (list_ascii_of_string data) = Some (Json.JNumber l))
        \/ (exists ms, Json.parse (list_ascii_of_string data) = Some (Json.JObject ms)) ->
        Translation_UnmarshalJSON t data
        = inl (Lara.ErrorString "translation: unsupported data type")).
Proof.
  intros t data. unfold Translation_UnmarshalJSON. cbv zeta.
  split; [|split; [|split]].
  - intros l ->. reflexivity.
  - intros ->. reflexivity.
  - intros vs ->. cbn [mbind option_bind Unmarshal_string Unmarshal_strings
                       Unmarshal_TextBlocks].
    rewrite mapM_Unmarshal_string. split; [|split].
    + intros ->. reflexivity.
    + intros -> blocks ->. reflexivity.
    + intros -> H. rewrite (mapM_Unmarshal_TextBlock_other _ H). reflexivity.
  - intros [->|[[b ->]|[[l ->]|[ms ->]]]]; reflexivity.
Qed.

(** The theorem at work: an array that holds a [null] and a string is a
    list of two strings; an array that holds a string and an object is
    refused. *)
Lemma X14_witness :
  let t := {| String_ := None; Strings := None; TextBlocks := None |} in
  Translation_UnmarshalJSON t (requote "[null, 'ciao']")
  = inr {| String_ := None; Strings := Some [""; "ciao"]%string; TextBlocks := None |}
  /\ Translation_UnmarshalJSON t (requote "['ciao', {'text':'x'}]")
     = inl (Lara.ErrorString "translation: unsupported data type").
Proof.
  cbv zeta.
  pose proof (X14_a_translation_is_read_as_string_strings_or_blocks
                {| String_ := None; Strings := None; TextBlocks := None |}) as H.
  split.
  - exact (proj1 (proj1 (proj2 (proj2 (H (requote "[null, 'ciao']"))))
                    [Json.JNull; Json.JString (list_ascii_of_string "ciao")] eq_refl)
             eq_refl).
  - exact (proj2 (proj2 (proj1 (proj2 (proj2 (H (requote "['ciao', {'text':'x'}]"))))
                           [Json.JString (list_ascii_of_string "ciao");
                            Json.JObject [(list_ascii_of_string "text",
                                           Json.JString (list_ascii_of_string "x"))]]
                           eq_refl))
             eq_refl eq_refl).
Defined.
